(** * Sysrai platform: credit ledger, pricing, GPU capacity and job status

    A shallow embedding of the bookkeeping core of the Sysrai film
    platform, followed by the properties established about it.

    Two code bases live side by side in the repository and both are
    embedded here:
    - the main API ([main.py], [crud.py], [models.py], [pricing.py]);
    - the monetization platform ([film_platform/monetization_platform.py])
      together with the [PricingEngine] of [skyreels_film_platform.py].

    Conventions of the embedding.
    - Python [float] amounts (credits, prices, hourly costs) are exact
      rationals [Qc]; rounding of binary floating point is not modelled.
    - Python [int] is [Z]; [str] is [string]; [None] is [option].
    - A table is the list of its rows in insertion order; a query
      [filter(...).first()] is the first row that satisfies the filter.
    - [secrets.token_hex] draws from an entropy tape carried by the state.
    - Exceptions are values of [exn]; a function that may raise returns
      a [result].
    - Timestamps and password hashing are left out. *)

From Stdlib Require Import List String ZArith QArith Qcanon Bool Lia.
From Stdlib Require Import DecimalString.
From Stdlib Require Import Sorting.Sorted Sorting.Permutation.
Import ListNotations.

Open Scope string_scope.
Open Scope Qc_scope.

(* ================================================================= *)
(** ** Python values *)

(** A float literal, written as a rational. *)
Definition flt (q : Q) : Qc := Q2Qc q.

(** [int * float]: the integer is converted first. *)
Definition of_int (z : Z) : Qc := Q2Qc (inject_Z z).

(** [str(n)] for an integer, as an f-string renders it. *)
Definition str_int (z : Z) : string := NilZero.string_of_int (Z.to_int z).

(** [x < y] on floats, as the boolean Python computes. *)
Definition Qcltb (x y : Qc) : bool :=
  match x ?= y with Lt => true | _ => false end.

(** [x <= y] on floats. *)
Definition Qcleb (x y : Qc) : bool :=
  match x ?= y with Gt => false | _ => true end.

(** [x == y] on floats. *)
Definition Qceqb (x y : Qc) : bool :=
  match x ?= y with Eq => true | _ => false end.

(** [d.get(key, default)] on a dictionary kept as an association list. *)
Fixpoint dict_get {V : Type} (d : list (string * V)) (key : string) (default : V) : V :=
  match d with
  | [] => default
  | (k, v) :: d' => if String.eqb k key then v else dict_get d' key default
  end.

(** Truthiness of an optional string: [None] and the empty string are falsy. *)
Definition truthy (s : option string) : bool :=
  match s with
  | None => false
  | Some s' => negb (String.eqb s' "")
  end.

(** HTTP error bodies.  The source formats them with f-strings; the
    embedding keeps the values that are interpolated. *)
Inductive detail : Type :=
| EmailAlreadyRegistered
| DurationExceedsTierLimit (limit : Z)
| InsufficientCredits (need have : Qc).

(** Exceptions raised by the embedded code.  [ValueErrorCredits] is the
    [ValueError] whose message interpolates the two amounts. *)
Inductive exn : Type :=
| HTTPException (status_code : Z) (d : detail)
| ValueError (msg : string)
| ValueErrorCredits (need have : Qc)
| ZeroDivisionError
| AttributeError (attr : string)
| UnboundLocalError (var : string)
| Exception (msg : string).

Inductive result (A : Type) : Type :=
| Ok (a : A)
| Raise (e : exn).
Arguments Ok {A} a.
Arguments Raise {A} e.

(** The entropy behind [secrets.token_hex]: [tape nbytes i] is the
    outcome of the [i]-th draw when [nbytes] bytes are asked for. *)
Record Entropy : Type := mkEntropy {
  tape : nat -> nat -> string;
  drawn : nat
}.

Definition token_hex (nbytes : nat) (e : Entropy) : string * Entropy :=
  (tape e nbytes (drawn e), mkEntropy (tape e) (S (drawn e))).

(* ================================================================= *)
(** ** [pricing.py] *)

Module Pricing.

Definition script_per_minute : Qc := flt 1.00.
Definition video_per_minute : Qc := flt 3.00.
Definition storyboard_flat : Qc := flt 10.00.

Definition quality_multipliers : list (string * Qc) :=
  [("standard", flt 1.0); ("premium", flt 1.5); ("ultra", flt 2.0)].

(** The dictionary [cost] of line items. *)
Record Breakdown : Type := mkBreakdown {
  video : Qc;
  script : Qc;
  storyboard : Qc
}.

(** The dictionary the function returns. *)
Record ProjectCost : Type := mkProjectCost {
  breakdown : Breakdown;
  subtotal : Qc;
  quality_multiplier : Qc;
  total : Qc
}.

(** [sum(cost.values())]: a left fold from [0] in key order. *)
Definition sum_values (c : Breakdown) : Qc :=
  fold_left Qcplus [video c; script c; storyboard c] 0.

Definition calculate_project_cost
    (duration_minutes : Z) (include_script include_storyboard : bool)
    (quality : string) : ProjectCost :=
  let cost :=
    {| video := of_int duration_minutes * video_per_minute;
       script := if include_script
                 then of_int duration_minutes * script_per_minute else 0;
       storyboard := if include_storyboard then storyboard_flat else 0 |} in
  let subtotal := sum_values cost in
  let quality_multiplier := dict_get quality_multipliers quality (flt 1.0) in
  let total := subtotal * quality_multiplier in
  {| breakdown := cost;
     subtotal := subtotal;
     quality_multiplier := quality_multiplier;
     total := total |}.

End Pricing.

(* ================================================================= *)
(** ** [PricingEngine] of [skyreels_film_platform.py] *)

Module PricingEngine.

(** [BASE_RATES] *)
Definition script_per_minute : Qc := flt 1.00.
Definition video_per_minute : Qc := flt 3.00.
Definition storyboard_flat : Qc := flt 10.00.
Definition rush_multiplier : Qc := flt 2.0.
Definition premium_quality : Qc := flt 1.5.

(** [GPU_COSTS], per hour. *)
Definition GPU_COSTS : list (string * Qc) :=
  [("rtx4090", flt 0.44); ("a100_40gb", flt 0.66);
   ("a100_80gb", flt 1.19); ("h100", flt 2.49)].

(** The dictionary [costs]. *)
Record Costs : Type := mkCosts {
  video_generation : Qc;
  script_writing : Qc;
  storyboarding : Qc;
  subtotal : Qc;
  rush_fee : Qc;
  quality_fee : Qc;
  total : Qc;
  profit_margin : Qc;
  gpu_cost_estimate : Qc;
  profit_percentage : Qc
}.

(** The function ends with a division by the total, which raises
    [ZeroDivisionError] when the total is zero. *)
Definition calculate_project_cost
    (duration_minutes : Z) (include_script include_storyboard : bool)
    (quality : string) (rush : bool) : result Costs :=
  let video_generation := of_int duration_minutes * video_per_minute in
  let script_writing :=
    if include_script then of_int duration_minutes * script_per_minute else 0 in
  let storyboarding := if include_storyboard then storyboard_flat else 0 in
  let subtotal := video_generation + script_writing + storyboarding in
  let quality_fee :=
    if String.eqb quality "premium" then subtotal * (premium_quality - 1) else 0 in
  let rush_fee := if rush then subtotal * (rush_multiplier - 1) else 0 in
  let total := subtotal + quality_fee + rush_fee in
  let gpu_hours := of_int duration_minutes / flt 5 / flt 60 in
  let gpu_cost_estimate := gpu_hours * dict_get GPU_COSTS "a100_40gb" 0 in
  let profit_margin := total - gpu_cost_estimate in
  if Qceqb total 0 then Raise ZeroDivisionError
  else
    Ok {| video_generation := video_generation;
          script_writing := script_writing;
          storyboarding := storyboarding;
          subtotal := subtotal;
          rush_fee := rush_fee;
          quality_fee := quality_fee;
          total := total;
          profit_margin := profit_margin;
          gpu_cost_estimate := gpu_cost_estimate;
          profit_percentage := profit_margin / total * flt 100 |}.

End PricingEngine.

(* ================================================================= *)
(** ** Tables, queries and effects *)

(** [query.filter(p).first()] followed by a mutation of the row found:
    the first row that satisfies [p] is replaced by its image. *)
Fixpoint update_first {A : Type} (p : A -> bool) (f : A -> A) (l : list A) : list A :=
  match l with
  | [] => []
  | x :: l' => if p x then f x :: l' else x :: update_first p f l'
  end.

(** Mutation of the row object held at position [i] of a table. *)
Fixpoint update_nth {A : Type} (i : nat) (f : A -> A) (l : list A) : list A :=
  match l, i with
  | [], _ => []
  | x :: l', O => f x :: l'
  | x :: l', S i' => x :: update_nth i' f l'
  end.

(** Rows together with their position, which stands for object identity. *)
Definition indexed {A : Type} (l : list A) : list (nat * A) :=
  combine (seq 0 (List.length l)) l.

(** [ORDER BY]: a stable insertion sort for the order [leb]. *)
Section OrderBy.
Context {A : Type} (leb : A -> A -> bool).

Fixpoint insert_by (x : A) (l : list A) : list A :=
  match l with
  | [] => [x]
  | y :: l' => if leb x y then x :: l else y :: insert_by x l'
  end.

Fixpoint order_by (l : list A) : list A :=
  match l with
  | [] => []
  | x :: l' => insert_by x (order_by l')
  end.
End OrderBy.

(** Computations that read and write a store [S] and may raise.  What
    was written before an exception stays written. *)
Definition M (S A : Type) : Type := S -> result A * S.

Definition ret {S A : Type} (a : A) : M S A := fun s => (Ok a, s).

Definition raise {S A : Type} (e : exn) : M S A := fun s => (Raise e, s).

Definition bind {S A B : Type} (m : M S A) (k : A -> M S B) : M S B :=
  fun s =>
    match m s with
    | (Ok a, s') => k a s'
    | (Raise e, s') => (Raise e, s')
    end.

(** [try: body except Exception as e: handler(e)] *)
Definition try_except {S A : Type} (body : M S A) (handler : exn -> M S A) : M S A :=
  fun s =>
    match body s with
    | (Ok a, s') => (Ok a, s')
    | (Raise e, s') => handler e s'
    end.

(** A write to the store. *)
Definition modify {S : Type} (f : S -> S) : M S unit := fun s => (Ok tt, f s).

(** A call that cannot write to the store. *)
Definition lift {S A : Type} (r : result A) : M S A := fun s => (r, s).

(** Reading a local variable that may not have been assigned. *)
Definition read_local {S A : Type} (name : string) (v : option A) : M S A :=
  match v with
  | Some a => ret a
  | None => raise (UnboundLocalError name)
  end.

Declare Scope monad_scope.
Delimit Scope monad_scope with monad.
Notation "x <- m ;; k" := (bind m (fun x => k))
  (at level 61, m at next level, right associativity) : monad_scope.
Notation "m ;;; k" := (bind m (fun _ => k))
  (at level 61, right associativity) : monad_scope.

(** [str(e)] *)
Definition str (e : exn) : string :=
  match e with
  | HTTPException _ _ => "HTTPException"
  | ValueError msg => msg
  | ValueErrorCredits _ _ => "Insufficient credits"
  | ZeroDivisionError => "float division by zero"
  | AttributeError attr => "'NoneType' object has no attribute '" ++ attr ++ "'"
  | UnboundLocalError var =>
      "local variable '" ++ var ++ "' referenced before assignment"
  | Exception msg => msg
  end.

(* ================================================================= *)
(** ** The main API, storage layer: [schemas.py], [models.py], [crud.py] *)

Module Crud.

(** [schemas.UserCreate] *)
Record UserCreate : Type := mkUserCreate {
  uc_email : string;
  uc_password : string
}.

(** [schemas.ProjectCreate] *)
Record ProjectCreate : Type := mkProjectCreate {
  pc_title : string;
  pc_duration_minutes : Z;
  pc_format : string;
  pc_include_script : bool;
  pc_include_storyboard : bool;
  pc_quality : string;
  pc_source_content : option string
}.

(** The [Text] column of a project: the JSON rendering of the request,
    to which failures append a line. *)
Inductive Text : Type :=
| Json (request : ProjectCreate)
| ErrorLine (before : Text) (error : string).

Module User.
Record t : Type := mk {
  id : string;
  email : string;
  credits : Qc;
  subscription_tier : string;
  is_admin : bool
}.
Definition set_credits (c : Qc) (u : t) : t :=
  mk (id u) (email u) c (subscription_tier u) (is_admin u).
End User.

Module Project.
Record t : Type := mk {
  id : string;
  user_id : string;
  title : string;
  duration_minutes : Z;
  format : string;
  status : string;
  progress : Z;
  cost : Qc;
  film_url : option string;
  metadata : Text
}.
End Project.

Module Transaction.
Record t : Type := mk {
  id : string;
  user_id : string;
  type : string;
  amount : Qc;
  credits : Qc;
  description : string;
  stripe_payment_id : option string
}.
End Transaction.

(** The database session, with the entropy the process draws from. *)
Record DB : Type := mkDB {
  users : list User.t;
  projects : list Project.t;
  transactions : list Transaction.t;
  entropy : Entropy
}.

Definition has_id (uid : string) (u : User.t) : bool := String.eqb (User.id u) uid.
Definition has_email (e : string) (u : User.t) : bool := String.eqb (User.email u) e.
Definition is_project (pid : string) (p : Project.t) : bool :=
  String.eqb (Project.id p) pid.

(** [crud.py] *)

Definition get_user_by_email (db : DB) (email : string) : option User.t :=
  find (has_email email) (users db).

(** The columns left out of the constructor take their defaults. *)
Definition create_user (db : DB) (user_data : UserCreate) : User.t * DB :=
  let (tok, e) := token_hex 16 (entropy db) in
  let user := User.mk tok (uc_email user_data) (flt 10.0) "free" false in
  (user, mkDB (users db ++ [user]) (projects db) (transactions db) e).

Definition create_project (db : DB) (project_data : ProjectCreate)
    (user_id : string) (cost : Qc) : Project.t * DB :=
  let (tok, e) := token_hex 16 (entropy db) in
  let project :=
    Project.mk tok user_id (pc_title project_data)
      (pc_duration_minutes project_data) (pc_format project_data)
      "queued" 0%Z cost None (Json project_data) in
  (project, mkDB (users db) (projects db ++ [project]) (transactions db) e).

Definition get_project (db : DB) (project_id : string) : option Project.t :=
  find (is_project project_id) (projects db).

Definition set_projects (db : DB) (ps : list Project.t) : DB :=
  mkDB (users db) ps (transactions db) (entropy db).

Definition update_project_status (db : DB) (project_id : string)
    (status : string) (progress : Z) : DB :=
  set_projects db
    (update_first (is_project project_id)
       (fun p => Project.mk (Project.id p) (Project.user_id p) (Project.title p)
                   (Project.duration_minutes p) (Project.format p)
                   status progress (Project.cost p) (Project.film_url p)
                   (Project.metadata p))
       (projects db)).

Definition complete_project (db : DB) (project_id : string) (film_url : string) : DB :=
  set_projects db
    (update_first (is_project project_id)
       (fun p => Project.mk (Project.id p) (Project.user_id p) (Project.title p)
                   (Project.duration_minutes p) (Project.format p)
                   "complete" 100%Z (Project.cost p) (Some film_url)
                   (Project.metadata p))
       (projects db)).

Definition fail_project (db : DB) (project_id : string) (error : string) : DB :=
  set_projects db
    (update_first (is_project project_id)
       (fun p => Project.mk (Project.id p) (Project.user_id p) (Project.title p)
                   (Project.duration_minutes p) (Project.format p)
                   "failed" (Project.progress p) (Project.cost p)
                   (Project.film_url p)
                   (ErrorLine (Project.metadata p) error))
       (projects db)).

(** Nothing is written and nothing is raised when the user is unknown:
    both functions return normally in either case. *)
Definition use_credits (db : DB) (user_id : string) (amount : Qc)
    (description : string) : result unit * DB :=
  match find (has_id user_id) (users db) with
  | Some _ =>
      let (tok, e) := token_hex 16 (entropy db) in
      let transaction :=
        Transaction.mk tok user_id "usage" (- amount) (- amount) description None in
      (Ok tt,
       mkDB (update_first (has_id user_id)
               (fun u => User.set_credits (User.credits u - amount) u) (users db))
            (projects db) (transactions db ++ [transaction]) e)
  | None => (Ok tt, db)
  end.

Definition add_credits (db : DB) (user_id : string) (amount : Qc)
    (description : string) (payment_id : option string) : result unit * DB :=
  match find (has_id user_id) (users db) with
  | Some _ =>
      let (tok, e) := token_hex 16 (entropy db) in
      let transaction :=
        Transaction.mk tok user_id "purchase" amount amount description payment_id in
      (Ok tt,
       mkDB (update_first (has_id user_id)
               (fun u => User.set_credits (User.credits u + amount) u) (users db))
            (projects db) (transactions db ++ [transaction]) e)
  | None => (Ok tt, db)
  end.

End Crud.

(* ================================================================= *)
(** ** The main API, endpoints and background task: [main.py] *)

Module Main.
Import Crud.


(** [schemas.Token], without the signed token itself. *)
Record Token : Type := mkToken {
  tk_user_id : string;
  tk_credits : Qc
}.

Definition register (user_data : UserCreate) (db : DB) : result Token * DB :=
  match get_user_by_email db (uc_email user_data) with
  | Some _ => (Raise (HTTPException 400 EmailAlreadyRegistered), db)
  | None =>
      let (user, db') := create_user db user_data in
      (Ok (mkToken (User.id user) (User.credits user)), db')
  end.

(** [schemas.ProjectResponse], and the task handed to [BackgroundTasks]. *)
Record ProjectResponse : Type := mkProjectResponse {
  pr_project_id : string;
  pr_title : string;
  pr_status : string;
  pr_cost : Qc;
  pr_background_task : string * ProjectCreate
}.

Definition create_project (project_data : ProjectCreate)
    (current_user : User.t) (db : DB) : result ProjectResponse * DB :=
  let cost :=
    Pricing.calculate_project_cost
      (pc_duration_minutes project_data) (pc_include_script project_data)
      (pc_include_storyboard project_data) (pc_quality project_data) in
  if Qcltb (User.credits current_user) (Pricing.total cost) then
    (Raise (HTTPException 402
              (InsufficientCredits (Pricing.total cost) (User.credits current_user))),
     db)
  else
    let (project, db1) :=
      Crud.create_project db project_data (User.id current_user) (Pricing.total cost) in
    match use_credits db1 (User.id current_user) (Pricing.total cost)
            ("Project: " ++ Project.title project) with
    | (Raise e, db2) => (Raise e, db2)
    | (Ok _, db2) =>
        (Ok (mkProjectResponse (Project.id project) (Project.title project)
               (Project.status project) (Pricing.total cost)
               (Project.id project, project_data)),
         db2)
    end.

(** The collaborators of the background task: the script and
    storyboard generators, the video backend and object storage.
    Each call either returns or raises. *)
Inductive FilmResult : Type :=
| FilmSuccess (film_url : string)
| FilmFailure (error : string).

Section Background.
Variables Script Storyboard : Type.

Record External : Type := mkExternal {
  generate_script : option string -> result Script;
  generate_storyboard : Script -> result Storyboard;
  generate_film : Storyboard -> string -> result FilmResult;
  upload_to_spaces : string -> result string
}.

Variable ext : External.

Local Open Scope monad_scope.

(** The locals [script] and [storyboard] are bound only inside the
    two conditionals; [None] stands for an unbound local. *)
Definition generate_film_async (project_id : string)
    (project_data : ProjectCreate) : M DB unit :=
  try_except
    (modify (fun db => update_project_status db project_id "generating" 10) ;;;
     script <-
       (if pc_include_script project_data then
          s <- lift (generate_script ext (pc_source_content project_data)) ;;
          modify (fun db => update_project_status db project_id "script_complete" 30) ;;;
          ret (Some s)
        else ret None) ;;
     storyboard <-
       (if pc_include_storyboard project_data then
          s <- read_local "script" script ;;
          sb <- lift (generate_storyboard ext s) ;;
          modify (fun db =>
                    update_project_status db project_id "storyboard_complete" 50) ;;;
          ret (Some sb)
        else ret None) ;;
     sb <- read_local "storyboard" storyboard ;;
     film_result <- lift (generate_film ext sb (pc_title project_data)) ;;
     match film_result with
     | FilmSuccess url =>
         film_url <- lift (upload_to_spaces ext url) ;;
         modify (fun db => complete_project db project_id film_url)
     | FilmFailure error =>
         modify (fun db => fail_project db project_id error)
     end)
    (fun e => modify (fun db => fail_project db project_id (str e))).
End Background.

End Main.

(* ================================================================= *)
(** ** The monetization platform: [film_platform/monetization_platform.py] *)

(** Columns that the embedded functions neither read nor write
    ([total_spent], [webhook_url], [film_url], ...) are left out of the
    rows below. *)

Module Platform.

(** [PlatformConfig.SUBSCRIPTION_TIERS]; the column holds one of its keys. *)
Inductive Tier : Type := free | starter | pro | enterprise.

Record TierInfo : Type := mkTierInfo {
  monthly_price : Qc;
  included_credits : Z;
  price_per_minute : Qc;
  max_duration_minutes : Z;
  priority : Z
}.

Definition SUBSCRIPTION_TIERS (t : Tier) : TierInfo :=
  match t with
  | free => mkTierInfo 0 10 (flt 5.00) 10 0
  | starter => mkTierInfo (flt 29.99) 100 (flt 3.00) 60 1
  | pro => mkTierInfo (flt 99.99) 500 (flt 2.50) 180 2
  | enterprise => mkTierInfo (flt 499.99) 3000 (flt 2.00) (-1) 3
  end.

Module User.
Record t : Type := mk {
  id : string;
  email : string;
  credits : Qc;
  subscription_tier : Tier;
  referral_code : string;
  referred_by : option string;
  api_key : string
}.
Definition set_credits (c : Qc) (u : t) : t :=
  mk (id u) (email u) c (subscription_tier u) (referral_code u) (referred_by u)
     (api_key u).
End User.

Module Project.
Record t : Type := mk {
  id : string;
  user_id : string;
  title : string;
  duration_minutes : Z;
  format : string;
  status : string;
  cost : Qc
}.
End Project.

Module Transaction.
Record t : Type := mk {
  id : string;
  user_id : string;
  type : string;
  credits : Qc;
  description : string
}.
End Transaction.

(** The keys of [GPUOrchestrator.providers]; the [provider] column of a
    node holds one of them. *)
Inductive ProviderName : Type := runpod | vast | lambda.

Module GPUNode.
Record t : Type := mk {
  id : string;
  provider : ProviderName;
  instance_id : string;
  gpu_type : string;
  hourly_cost : Qc;
  status : string;
  current_project_id : option string;
  performance_score : Qc;
  region : string
}.
Definition set_status (s : string) (n : t) : t :=
  mk (id n) (provider n) (instance_id n) (gpu_type n) (hourly_cost n) s
     (current_project_id n) (performance_score n) (region n).
Definition assign (project_id : string) (n : t) : t :=
  mk (id n) (provider n) (instance_id n) (gpu_type n) (hourly_cost n) "busy"
     (Some project_id) (performance_score n) (region n).
End GPUNode.

(** Calls observed on the orchestrator and on the provider adapters.
    The trace is ghost state: the program does not read it. *)
Inductive Event : Type :=
| CallScaleUp (required_capacity : Z)
| CallLaunch (provider : ProviderName) (count : Z) (gpu_type : string)
| CallTerminate (provider : ProviderName) (instance_id : string).

Record DB : Type := mkDB {
  users : list User.t;
  projects : list Project.t;
  transactions : list Transaction.t;
  gpu_nodes : list GPUNode.t;
  entropy : Entropy;
  trace : list Event
}.

Definition set_users (us : list User.t) (db : DB) : DB :=
  mkDB us (projects db) (transactions db) (gpu_nodes db) (entropy db) (trace db).
Definition add_project (p : Project.t) (db : DB) : DB :=
  mkDB (users db) (projects db ++ [p]) (transactions db) (gpu_nodes db)
       (entropy db) (trace db).
Definition add_transaction (t : Transaction.t) (db : DB) : DB :=
  mkDB (users db) (projects db) (transactions db ++ [t]) (gpu_nodes db)
       (entropy db) (trace db).
Definition set_gpu_nodes (ns : list GPUNode.t) (db : DB) : DB :=
  mkDB (users db) (projects db) (transactions db) ns (entropy db) (trace db).
Definition set_entropy (e : Entropy) (db : DB) : DB :=
  mkDB (users db) (projects db) (transactions db) (gpu_nodes db) e (trace db).
Definition log (ev : Event) (db : DB) : DB :=
  mkDB (users db) (projects db) (transactions db) (gpu_nodes db) (entropy db)
       (trace db ++ [ev]).

(** [secrets.token_hex] against the entropy of the state. *)
Definition fresh (nbytes : nat) (db : DB) : string * DB :=
  let (tok, e) := token_hex nbytes (entropy db) in (tok, set_entropy e db).

Definition has_id (uid : string) (u : User.t) : bool := String.eqb (User.id u) uid.
Definition has_email (e : string) (u : User.t) : bool := String.eqb (User.email u) e.
Definition has_referral_code (c : string) (u : User.t) : bool :=
  String.eqb (User.referral_code u) c.

(** *** [CreditManager] *)

Definition apply_credits (user_id : string) (credits : Qc)
    (transaction_type description : string) (db : DB) : result Qc * DB :=
  match find (has_id user_id) (users db) with
  | None => (Raise (ValueError "User not found"), db)
  | Some user =>
      let db1 :=
        set_users (update_first (has_id user_id)
                     (fun u => User.set_credits (User.credits u + credits) u)
                     (users db)) db in
      let (tok, db2) := fresh 16 db1 in
      let transaction :=
        Transaction.mk tok user_id transaction_type credits description in
      (Ok (User.credits user + credits), add_transaction transaction db2)
  end.

(** The dictionary returned by [use_credits]. *)
Record Usage : Type := mkUsage {
  credits_used : Qc;
  remaining_credits : Qc
}.

Definition use_credits (user_id project_id : string) (duration_minutes : Z)
    (db : DB) : result Usage * DB :=
  match find (has_id user_id) (users db) with
  | None => (Raise (ValueError "User not found"), db)
  | Some user =>
      let tier_info := SUBSCRIPTION_TIERS (User.subscription_tier user) in
      let cost := of_int duration_minutes * price_per_minute tier_info in
      if Qcltb (User.credits user) cost then
        (Raise (ValueErrorCredits cost (User.credits user)), db)
      else
        let db1 :=
          set_users (update_first (has_id user_id)
                       (fun u => User.set_credits (User.credits u - cost) u)
                       (users db)) db in
        let (tok, db2) := fresh 16 db1 in
        let transaction :=
          Transaction.mk tok user_id "usage" (- cost)
            ("Project " ++ project_id ++ ": " ++ str_int duration_minutes
               ++ " minutes") in
        (Ok (mkUsage cost (User.credits user - cost)),
         add_transaction transaction db2)
  end.

(** *** Provider adapters *)

(** One launched instance, as the adapters describe it. *)
Record Instance : Type := mkInstance {
  i_instance_id : string;
  i_gpu_type : string;
  i_hourly_cost : Qc;
  i_region : string
}.

(** The interface the three adapters share. *)
Record Provider : Type := mkProvider {
  launch_instances : Z -> string -> Entropy -> list Instance * Entropy;
  terminate_instance : string -> bool
}.

(** [for i in range(count): instances.append({...})] *)
Fixpoint launch_loop (prefix gpu_type : string) (cost : Qc) (region : string)
    (count : nat) (e : Entropy) : list Instance * Entropy :=
  match count with
  | O => ([], e)
  | S count' =>
      let (tok, e1) := token_hex 8 e in
      let (rest, e2) := launch_loop prefix gpu_type cost region count' e1 in
      (mkInstance (prefix ++ tok) gpu_type cost region :: rest, e2)
  end.

Definition RunPodProvider : Provider :=
  mkProvider
    (fun count gpu_type =>
       launch_loop "runpod_" gpu_type
         (if String.eqb gpu_type "rtx4090" then flt 0.44 else flt 1.19)
         "us-east-1" (Z.to_nat count))
    (fun _ => true).

Definition VastAIProvider : Provider :=
  mkProvider
    (fun count gpu_type =>
       launch_loop "vast_" gpu_type
         (if String.eqb gpu_type "rtx4090" then flt 0.35 else flt 0.99)
         "us-west-2" (Z.to_nat count))
    (fun _ => true).

Definition LambdaLabsProvider : Provider :=
  mkProvider
    (fun count gpu_type =>
       launch_loop "lambda_" gpu_type
         (if String.eqb gpu_type "rtx4090" then flt 0.50 else flt 1.49)
         "us-central-1" (Z.to_nat count))
    (fun _ => true).

(** The dictionary built by [GPUOrchestrator.__init__]. *)
Definition default_providers (name : ProviderName) : Provider :=
  match name with
  | runpod => RunPodProvider
  | vast => VastAIProvider
  | lambda => LambdaLabsProvider
  end.

(** *** [GPUOrchestrator] *)

Definition is_available (n : GPUNode.t) : bool :=
  String.eqb (GPUNode.status n) "available".

(** [status == 'available'] and [current_project_id == None]. *)
Definition is_idle (n : GPUNode.t) : bool :=
  is_available n &&
  match GPUNode.current_project_id n with None => true | Some _ => false end.

(** [gpu_type.in_(gpu_types)] *)
Definition gpu_type_in (gpu_types : list string) (n : GPUNode.t) : bool :=
  existsb (String.eqb (GPUNode.gpu_type n)) gpu_types.

(** [ORDER BY hourly_cost DESC] *)
Definition cost_desc (a b : nat * GPUNode.t) : bool :=
  Qcleb (GPUNode.hourly_cost (snd b)) (GPUNode.hourly_cost (snd a)).

(** [ORDER BY performance_score DESC, hourly_cost ASC] *)
Definition best_first (a b : nat * GPUNode.t) : bool :=
  Qcltb (GPUNode.performance_score (snd b)) (GPUNode.performance_score (snd a))
  || (Qceqb (GPUNode.performance_score (snd a)) (GPUNode.performance_score (snd b))
      && Qcleb (GPUNode.hourly_cost (snd a)) (GPUNode.hourly_cost (snd b))).

(** The GPU classes a duration asks for. *)
Definition gpu_types_for (duration_minutes : Z) : list string :=
  if (duration_minutes <=? 30)%Z then ["rtx4090"; "a100_40gb"]
  else if (duration_minutes <=? 90)%Z then ["a100_40gb"; "a100_80gb"]
  else ["a100_80gb"; "h100"].

Section Orchestrator.

(** [self.providers] *)
Variable providers : ProviderName -> Provider.

(** The locals of [scale_up] that its loops update, next to the session. *)
Record ScaleUp : Type := mkScaleUp {
  su_db : DB;
  new_nodes : list string;
  nodes_to_add : Z
}.

(** [for instance in launched: ...] *)
Fixpoint persist (provider_name : ProviderName) (launched : list Instance)
    (s : ScaleUp) : ScaleUp :=
  match launched with
  | [] => s
  | instance :: rest =>
      let (tok, db1) := fresh 8 (su_db s) in
      let node :=
        GPUNode.mk tok provider_name (i_instance_id instance)
          (i_gpu_type instance) (i_hourly_cost instance) "available" None
          (flt 1.0) (i_region instance) in
      persist provider_name rest
        (mkScaleUp (set_gpu_nodes (gpu_nodes db1 ++ [node]) db1)
           (new_nodes s ++ [tok]) (nodes_to_add s - 1)%Z)
  end.

(** [for provider_name in ['vast', 'runpod', 'lambda']: ...] *)
Fixpoint provider_loop (names : list ProviderName) (s : ScaleUp) : ScaleUp :=
  match names with
  | [] => s
  | provider_name :: rest =>
      if (nodes_to_add s <=? 0)%Z then s
      else
        let count := Z.min (nodes_to_add s) 5 in
        let db1 := log (CallLaunch provider_name count "rtx4090") (su_db s) in
        let (launched, e) :=
          launch_instances (providers provider_name) count "rtx4090" (entropy db1) in
        provider_loop rest
          (persist provider_name launched
             (mkScaleUp (set_entropy e db1) (new_nodes s) (nodes_to_add s)))
  end.

Definition scale_up (required_capacity : Z) (db : DB) : list string * DB :=
  let db0 := log (CallScaleUp required_capacity) db in
  let current_nodes := Z.of_nat (List.length (filter is_available (gpu_nodes db0))) in
  if (current_nodes >=? required_capacity)%Z then ([], db0)
  else
    let s :=
      provider_loop [vast; runpod; lambda]
        (mkScaleUp db0 [] (required_capacity - current_nodes)%Z) in
    (new_nodes s, su_db s).

(** The rows selected by the query of [scale_down], each with its
    position in the table.  The limit is a count of rows. *)
Definition idle_nodes (excess_capacity : nat) (db : DB) : list (nat * GPUNode.t) :=
  firstn excess_capacity
    (order_by cost_desc
       (filter (fun r => is_idle (snd r)) (indexed (gpu_nodes db)))).

(** [for node in idle_nodes: ...] *)
Fixpoint terminate_loop (idle : list (nat * GPUNode.t)) (terminated : list string)
    (db : DB) : list string * DB :=
  match idle with
  | [] => (terminated, db)
  | (i, node) :: rest =>
      let db1 :=
        log (CallTerminate (GPUNode.provider node) (GPUNode.instance_id node)) db in
      if terminate_instance (providers (GPUNode.provider node))
           (GPUNode.instance_id node)
      then
        terminate_loop rest (terminated ++ [GPUNode.id node])
          (set_gpu_nodes
             (update_nth i (GPUNode.set_status "terminated") (gpu_nodes db1)) db1)
      else terminate_loop rest terminated db1
  end.

Definition scale_down (excess_capacity : nat) (db : DB) : list string * DB :=
  terminate_loop (idle_nodes excess_capacity db) [] db.

(** The row the query of [assign_project_to_node] returns, if any. *)
Definition best_node (duration_minutes : Z) (db : DB) : option (nat * GPUNode.t) :=
  hd_error
    (order_by best_first
       (filter (fun r => is_available (snd r)
                         && gpu_type_in (gpu_types_for duration_minutes) (snd r))
          (indexed (gpu_nodes db)))).

Definition assign_project_to_node (project_id : string) (duration_minutes : Z)
    (db : DB) : option string * DB :=
  match best_node duration_minutes db with
  | None =>
      let (_, db1) := scale_up 1 db in
      (None, db1)
  | Some (i, node) =>
      (Some (GPUNode.id node),
       set_gpu_nodes (update_nth i (GPUNode.assign project_id) (gpu_nodes db)) db)
  end.

End Orchestrator.

(** *** Endpoints *)

(** [UserRegistration] *)
Record UserRegistration : Type := mkUserRegistration {
  r_email : string;
  r_password : string;
  r_referral_code : option string
}.

(** The body of the registration response, without the signed token. *)
Record Registered : Type := mkRegistered {
  reg_user_id : string;
  reg_email : string;
  reg_api_key : string;
  reg_credits : Qc
}.

(** The referrer, when the request carries a referral code that some
    user owns. *)
Definition referrer_of (registration : UserRegistration) (db : DB) : option User.t :=
  match r_referral_code registration with
  | Some code =>
      if truthy (Some code) then find (has_referral_code code) (users db) else None
  | None => None
  end.

(** Four tokens are drawn while the row is built: the id, the salt of
    the password hash, the referral code and the API key.  The [credits]
    column defaults to [0.0]. *)
Definition register (registration : UserRegistration) (db : DB)
    : result Registered * DB :=
  match find (has_email (r_email registration)) (users db) with
  | Some _ => (Raise (HTTPException 400 EmailAlreadyRegistered), db)
  | None =>
      let (user_id, db1) := fresh 16 db in
      let (_, db2) := fresh 16 db1 in
      let (referral_code, db3) := fresh 8 db2 in
      let (api_key, db4) := fresh 32 db3 in
      let user :=
        User.mk user_id (r_email registration) (flt 0.0) free referral_code
          (r_referral_code registration) api_key in
      match referrer_of registration db4 with
      | Some referrer =>
          let us :=
            update_first (has_referral_code (User.referral_code referrer))
              (fun u => User.set_credits (User.credits u + flt 25) u) (users db4) in
          let user := User.set_credits (flt 10) user in
          (Ok (mkRegistered (User.id user) (User.email user) (User.api_key user)
                 (User.credits user)),
           set_users (us ++ [user]) db4)
      | None =>
          (Ok (mkRegistered (User.id user) (User.email user) (User.api_key user)
                 (User.credits user)),
           set_users (users db4 ++ [user]) db4)
      end
  end.

(** [ProjectRequest] *)
Record ProjectRequest : Type := mkProjectRequest {
  q_title : string;
  q_duration_minutes : Z;
  q_format : string;
  q_include_script : bool;
  q_include_storyboard : bool;
  q_quality : string;
  q_source_content : option string
}.

(** The body of the project response. *)
Record ProjectCreated : Type := mkProjectCreated {
  c_project_id : string;
  c_status : string;
  c_cost : Qc;
  c_assigned_node : option string
}.

(** [user_id] is the identifier carried by the verified token.  The
    project row is added to the session before the debit and is
    committed by it; when the debit raises, the row is never committed
    and the tables stay as they were. *)
Definition create_project (project : ProjectRequest) (user_id : string) (db : DB)
    : result ProjectCreated * DB :=
  match find (has_id user_id) (users db) with
  | None => (Raise (AttributeError "subscription_tier"), db)
  | Some user =>
      let tier_info := SUBSCRIPTION_TIERS (User.subscription_tier user) in
      if (max_duration_minutes tier_info >? 0)%Z
         && (q_duration_minutes project >? max_duration_minutes tier_info)%Z
      then
        (Raise (HTTPException 403
                  (DurationExceedsTierLimit (max_duration_minutes tier_info))), db)
      else
        match PricingEngine.calculate_project_cost
                (q_duration_minutes project) (q_include_script project)
                (q_include_storyboard project) (q_quality project) false with
        | Raise e => (Raise e, db)
        | Ok costs =>
            if Qcltb (User.credits user) (PricingEngine.total costs) then
              (Raise (HTTPException 402
                        (InsufficientCredits (PricingEngine.total costs)
                           (User.credits user))), db)
            else
              let (project_id, db1) := fresh 16 db in
              let project_obj :=
                Project.mk project_id user_id (q_title project)
                  (q_duration_minutes project) (q_format project) "queued"
                  (PricingEngine.total costs) in
              match use_credits user_id project_id (q_duration_minutes project)
                      (add_project project_obj db1) with
              | (Raise e, _) => (Raise e, db1)
              | (Ok _, db2) =>
                  let (node_id, db3) :=
                    assign_project_to_node default_providers project_id
                      (q_duration_minutes project) db2 in
                  (Ok (mkProjectCreated project_id "queued"
                         (PricingEngine.total costs) node_id), db3)
              end
        end
  end.

End Platform.

(* ================================================================= *)
(** ** Observations on the ledger *)

Section Ledger.
Context {U T : Type}.
Variables (u_id : U -> string) (u_credits : U -> Qc).
Variables (t_user_id : T -> string) (t_credits : T -> Qc).

(** The cached balance of the user with identifier [uid], if there is one. *)
Definition balance_of (us : list U) (uid : string) : option Qc :=
  option_map u_credits (find (fun u => String.eqb (u_id u) uid) us).

(** The sum of the credit deltas of the transactions of [uid]. *)
Definition ledger_sum (txs : list T) (uid : string) : Qc :=
  fold_right
    (fun t acc => if String.eqb (t_user_id t) uid then t_credits t + acc else acc)
    0 txs.

(** What the balance holds beyond the ledger: balance minus the sum of
    the deltas. *)
Definition offset (us : list U) (txs : list T) (uid : string) : option Qc :=
  option_map (fun b => b - ledger_sum txs uid) (balance_of us uid).
End Ledger.

Module MainLedger.
Import Crud.

Definition balance (db : DB) : string -> option Qc :=
  balance_of User.id User.credits (users db).
Definition deltas (db : DB) : string -> Qc :=
  ledger_sum Transaction.user_id Transaction.credits (transactions db).
Definition outside_ledger (db : DB) : string -> option Qc :=
  offset User.id User.credits Transaction.user_id Transaction.credits
    (users db) (transactions db).




End MainLedger.

Module PlatformLedger.
Import Platform.

Definition balance (db : DB) : string -> option Qc :=
  balance_of User.id User.credits (users db).
Definition deltas (db : DB) : string -> Qc :=
  ledger_sum Transaction.user_id Transaction.credits (transactions db).
Definition outside_ledger (db : DB) : string -> option Qc :=
  offset User.id User.credits Transaction.user_id Transaction.credits
    (users db) (transactions db).
End PlatformLedger.

(* ================================================================= *)
(** * Properties *)

(** ** Comparisons and conversions *)

Lemma Qceqb_true (x y : Qc) : Qceqb x y = true <-> x = y.
Proof.
  unfold Qceqb. split.
  - destruct (x ?= y) eqn:E; try discriminate. intros _.
    apply Qc_is_canon. now apply Qeq_alt.
  - intros ->. unfold Qccompare.
    now rewrite (proj1 (Qeq_alt y y) (Qeq_refl y)).
Qed.

Lemma Qcltb_true (x y : Qc) : Qcltb x y = true <-> x < y.
Proof.
  unfold Qcltb. rewrite Qclt_alt.
  destruct (x ?= y); split; intro H; try reflexivity; discriminate.
Qed.

Lemma Qcltb_false (x y : Qc) : Qcltb x y = false <-> y <= x.
Proof.
  split.
  - intro H. apply Qcnot_lt_le. intro L. apply Qcltb_true in L. congruence.
  - intro H. destruct (Qcltb x y) eqn:E; [|reflexivity].
    apply Qcltb_true in E. now apply Qcle_not_lt in H.
Qed.

Lemma Qcleb_true (x y : Qc) : Qcleb x y = true <-> x <= y.
Proof.
  unfold Qcleb, Qcle. rewrite Qle_alt. unfold Qccompare.
  destruct (x ?= y)%Q; split; intro H; try reflexivity; try discriminate.
  now contradiction H.
Qed.

Lemma of_int_inj (a b : Z) : of_int a = of_int b -> a = b.
Proof.
  unfold of_int. intro H. apply Q2Qc_eq_iff in H.
  unfold Qeq in H. simpl in H. lia.
Qed.

Lemma of_int_plus (a b : Z) : of_int (a + b) = of_int a + of_int b.
Proof.
  unfold of_int. apply Qc_is_canon. unfold Qcplus. cbn [this Q2Qc].
  rewrite !Qred_correct, inject_Z_plus. apply Qeq_refl.
Qed.

Lemma of_int_mult (a b : Z) : of_int (a * b) = of_int a * of_int b.
Proof.
  unfold of_int. apply Qc_is_canon. unfold Qcmult. cbn [this Q2Qc].
  rewrite !Qred_correct, inject_Z_mult. apply Qeq_refl.
Qed.

(** Equality of two closed amounts, by evaluation. *)
Ltac qc_closed := apply Qc_is_canon; vm_compute; reflexivity.

(** ** Pricing *)

Lemma pricing_engine_subtotal_int (d : Z) (include_script include_storyboard : bool) :
  of_int d * PricingEngine.video_per_minute
  + (if include_script then of_int d * PricingEngine.script_per_minute else 0)
  + (if include_storyboard then PricingEngine.storyboard_flat else 0)
  = of_int (d * 3 + (if include_script then d else 0)
            + (if include_storyboard then 10 else 0)).
Proof.
  rewrite !of_int_plus, of_int_mult.
  replace PricingEngine.video_per_minute with (of_int 3) by qc_closed.
  replace PricingEngine.script_per_minute with 1 by qc_closed.
  replace PricingEngine.storyboard_flat with (of_int 10) by qc_closed.
  assert (Z0 : of_int 0 = 0) by qc_closed.
  destruct include_script, include_storyboard; rewrite ?Z0; ring.
Qed.

Lemma surcharge_factor_nonzero (premium rush : bool) :
  1 + (if premium then PricingEngine.premium_quality - 1 else 0)
    + (if rush then PricingEngine.rush_multiplier - 1 else 0) <> 0.
Proof.
  destruct premium, rush; intro H; apply (f_equal this) in H;
    vm_compute in H; discriminate.
Qed.

Lemma pricing_engine_total_zero (d : Z) (include_script include_storyboard : bool)
    (quality : string) (rush : bool) (e : exn) :
  PricingEngine.calculate_project_cost d include_script include_storyboard quality rush
  = Raise e ->
  e = ZeroDivisionError /\ d = 0%Z /\ include_storyboard = false.
Proof.
  unfold PricingEngine.calculate_project_cost.
  set (sub := of_int d * PricingEngine.video_per_minute
              + (if include_script
                 then of_int d * PricingEngine.script_per_minute else 0)
              + (if include_storyboard then PricingEngine.storyboard_flat else 0)).
  destruct (Qceqb _ 0) eqn:E; [|discriminate].
  intro H. injection H as <-. split; [reflexivity|].
  apply Qceqb_true in E.
  assert (F : sub * (1 + (if String.eqb quality "premium"
                           then PricingEngine.premium_quality - 1 else 0)
                       + (if rush then PricingEngine.rush_multiplier - 1 else 0)) = 0).
  { etransitivity; [|exact E].
    destruct (String.eqb quality "premium"), rush; ring. }
  apply Qcmult_integral in F. destruct F as [F|F].
  - unfold sub in F. rewrite pricing_engine_subtotal_int in F.
    replace 0 with (of_int 0) in F by qc_closed.
    apply of_int_inj in F.
    destruct include_script, include_storyboard; split; (lia || reflexivity).
  - now apply surcharge_factor_nonzero in F.
Qed.

Lemma pricing_engine_zero_raises (include_script : bool) (quality : string) (rush : bool) :
  PricingEngine.calculate_project_cost 0 include_script false quality rush
  = Raise ZeroDivisionError.
Proof.
  unfold PricingEngine.calculate_project_cost.
  set (total := _ + _ + _).
  assert (T : total = 0).
  { unfold total.
    replace (of_int 0) with 0 by qc_closed.
    destruct include_script, (String.eqb quality "premium"), rush; ring. }
  rewrite T. reflexivity.
Qed.

(** C1.  Whatever the duration, the optional line items, the quality
    string and the rush flag, the breakdown returned by [PricingEngine]
    satisfies [total = subtotal + quality_fee + rush_fee] and
    [subtotal = video + script + storyboard]; the only input on which
    it returns nothing is a zero duration without storyboard, where the
    closing division raises.  The calculator of [pricing.py], which has
    no rush option and reports the multiplier instead of a fee, returns
    [subtotal = video + script + storyboard] and a total equal to
    [subtotal + subtotal * (multiplier - 1) + 0]. *)
Theorem cost_breakdown_adds_up :
  forall (duration_minutes : Z) (include_script include_storyboard : bool)
         (quality : string) (rush : bool),
    match PricingEngine.calculate_project_cost
            duration_minutes include_script include_storyboard quality rush with
    | Ok c =>
        PricingEngine.total c
        = PricingEngine.subtotal c + PricingEngine.quality_fee c
          + PricingEngine.rush_fee c
        /\ PricingEngine.subtotal c
           = PricingEngine.video_generation c + PricingEngine.script_writing c
             + PricingEngine.storyboarding c
    | Raise e =>
        e = ZeroDivisionError /\ duration_minutes = 0%Z /\ include_storyboard = false
    end
    /\
    let c := Pricing.calculate_project_cost
               duration_minutes include_script include_storyboard quality in
    Pricing.total c
    = Pricing.subtotal c + Pricing.subtotal c * (Pricing.quality_multiplier c - 1) + 0
    /\ Pricing.subtotal c
       = Pricing.video (Pricing.breakdown c) + Pricing.script (Pricing.breakdown c)
         + Pricing.storyboard (Pricing.breakdown c).
Proof.
  intros d s b q r. split.
  - destruct (PricingEngine.calculate_project_cost d s b q r) as [c|e] eqn:E.
    + unfold PricingEngine.calculate_project_cost in E.
      destruct (Qceqb _ 0); [discriminate|].
      injection E as <-. split; reflexivity.
    + eapply pricing_engine_total_zero; eassumption.
  - cbn -[Qcplus Qcmult Qcminus]. split; ring.
Qed.

(** Scenario B of the specification: sixty minutes, standard quality,
    script and storyboard included. *)
Example pricing_engine_sixty_minutes :
  exists c,
    PricingEngine.calculate_project_cost 60 true true "standard" false = Ok c
    /\ PricingEngine.video_generation c = flt 180
    /\ PricingEngine.script_writing c = flt 60
    /\ PricingEngine.storyboarding c = flt 10
    /\ PricingEngine.subtotal c = flt 250
    /\ PricingEngine.total c = flt 250.
Proof.
  eexists. split; [reflexivity|]. repeat split; qc_closed.
Qed.

Example pricing_sixty_minutes :
  Pricing.total (Pricing.calculate_project_cost 60 true true "standard") = flt 250
  /\ Pricing.total (Pricing.calculate_project_cost 60 true true "ultra") = flt 500.
Proof. split; qc_closed. Qed.

(** The multiplier table of [pricing.py], entry by entry, with its default. *)
Lemma quality_multipliers_lookup (quality : string) :
  dict_get Pricing.quality_multipliers quality (flt 1.0)
  = if String.eqb "standard" quality then flt 1.0
    else if String.eqb "premium" quality then flt 1.5
    else if String.eqb "ultra" quality then flt 2.0
    else flt 1.0.
Proof. reflexivity. Qed.

(** C4, as stated, fails on [PricingEngine]: for the quality ["ultra"]
    the table gives the multiplier 2.0, so the fee on a subtotal of 250
    would be 250, and the engine charges no quality fee at all. *)
Lemma quality_fee_ultra_not_charged :
  exists c,
    PricingEngine.calculate_project_cost 60 true true "ultra" false = Ok c
    /\ PricingEngine.subtotal c
       * (dict_get Pricing.quality_multipliers "ultra" (flt 1.0) - 1) = flt 250
    /\ PricingEngine.quality_fee c = 0
    /\ PricingEngine.quality_fee c
       <> PricingEngine.subtotal c
          * (dict_get Pricing.quality_multipliers "ultra" (flt 1.0) - 1).
Proof.
  eexists. split; [reflexivity|]. split; [qc_closed|]. split; [qc_closed|].
  intro H. apply (f_equal this) in H. vm_compute in H. discriminate.
Qed.

(** C4, amended.  In [pricing.py] the multiplier is looked up in the
    table standard 1.0, premium 1.5, ultra 2.0, any other string counts
    as 1.0, and the surcharge [total - subtotal] is
    [subtotal * (multiplier - 1)].  In [PricingEngine] the quality fee
    is [subtotal * (multiplier - 1)] with the multiplier 1.5 for
    ["premium"] and 1.0 for every other string: it agrees with the
    table except on ["ultra"], for which no fee is charged. *)
Theorem quality_fee_by_multiplier :
  forall (duration_minutes : Z) (include_script include_storyboard : bool)
         (quality : string) (rush : bool),
    (let c := Pricing.calculate_project_cost
                duration_minutes include_script include_storyboard quality in
     Pricing.quality_multiplier c
     = dict_get Pricing.quality_multipliers quality (flt 1.0)
     /\ Pricing.quality_multiplier c
        = (if String.eqb "standard" quality then flt 1.0
           else if String.eqb "premium" quality then flt 1.5
           else if String.eqb "ultra" quality then flt 2.0
           else flt 1.0)
     /\ Pricing.total c - Pricing.subtotal c
        = Pricing.subtotal c * (Pricing.quality_multiplier c - 1))
    /\
    match PricingEngine.calculate_project_cost
            duration_minutes include_script include_storyboard quality rush with
    | Ok c =>
        PricingEngine.quality_fee c
        = PricingEngine.subtotal c
          * ((if String.eqb quality "premium" then flt 1.5 else flt 1.0) - 1)
        /\ PricingEngine.quality_fee c
           = PricingEngine.subtotal c
             * ((if String.eqb quality "ultra" then flt 1.0
                 else dict_get Pricing.quality_multipliers quality (flt 1.0)) - 1)
    | Raise e =>
        e = ZeroDivisionError /\ duration_minutes = 0%Z /\ include_storyboard = false
    end.
Proof.
  intros d s b q r. split.
  - cbn -[Qcplus Qcmult Qcminus dict_get Pricing.quality_multipliers].
    split; [reflexivity|]. split; [apply quality_multipliers_lookup|]. ring.
  - destruct (PricingEngine.calculate_project_cost d s b q r) as [c|e] eqn:E.
    + unfold PricingEngine.calculate_project_cost in E.
      destruct (Qceqb _ 0); [discriminate|].
      injection E as <-. cbn [PricingEngine.quality_fee PricingEngine.subtotal].
      assert (Z1 : flt 1.0 - 1 = 0) by qc_closed.
      assert (P : PricingEngine.premium_quality = flt 1.5) by reflexivity.
      assert (A : forall x : Qc, x * 0 = 0) by (intro; ring).
      rewrite quality_multipliers_lookup.
      destruct (String.eqb q "premium") eqn:Ep.
      * apply String.eqb_eq in Ep. subst q. cbn [String.eqb Ascii.eqb Bool.eqb].
        rewrite P. split; reflexivity.
      * rewrite (String.eqb_sym "premium" q), (String.eqb_sym "ultra" q), Ep.
        destruct (String.eqb q "ultra"), (String.eqb "standard" q);
          rewrite ?Z1, ?A; split; reflexivity.
    + eapply pricing_engine_total_zero; eassumption.
Qed.

(** ** Rows and queries *)

Section UpdateFirst.
Context {A : Type}.
Implicit Types (p q : A -> bool) (f : A -> A) (l : list A).

Lemma update_first_length p f l :
  List.length (update_first p f l) = List.length l.
Proof.
  induction l as [|x l IH]; simpl; [reflexivity|].
  destruct (p x); simpl; congruence.
Qed.

Lemma find_update_first_same p f l :
  (forall x, p (f x) = p x) ->
  find p (update_first p f l) = option_map f (find p l).
Proof.
  intro Hp. induction l as [|x l IH]; simpl; [reflexivity|].
  destruct (p x) eqn:E; simpl.
  - now rewrite Hp, E.
  - now rewrite E.
Qed.

Lemma find_update_first_other p q f l :
  (forall x, q (f x) = q x) ->
  (forall x, p x = true -> q x = false) ->
  find q (update_first p f l) = find q l.
Proof.
  intros Hq Hpq. induction l as [|x l IH]; simpl; [reflexivity|].
  destruct (p x) eqn:E; simpl.
  - rewrite Hq, (Hpq x E). reflexivity.
  - destruct (q x); [reflexivity|exact IH].
Qed.

Lemma update_first_none p f l :
  find p l = None -> update_first p f l = l.
Proof.
  induction l as [|x l IH]; simpl; [reflexivity|].
  destruct (p x); [discriminate|]. intro H. now rewrite IH.
Qed.

Lemma find_app_last p l x :
  find p (l ++ [x]) =
  match find p l with
  | Some y => Some y
  | None => if p x then Some x else None
  end.
Proof.
  induction l as [|y l IH]; simpl; [reflexivity|].
  destruct (p y); [reflexivity|exact IH].
Qed.
End UpdateFirst.

(** ** The ledger *)

Section LedgerFacts.
Context {U T : Type}.
Variables (u_id : U -> string) (u_credits : U -> Qc).
Variables (t_user_id : T -> string) (t_credits : T -> Qc).

Local Abbreviation has uid := (fun u => String.eqb (u_id u) uid).
Local Abbreviation balance := (balance_of u_id u_credits).
Local Abbreviation deltas := (ledger_sum t_user_id t_credits).
Local Abbreviation outside := (offset u_id u_credits t_user_id t_credits).


(** A mutation that keeps the identifier and adds [delta] to the
    balance of the first user named [uid]. *)
Lemma balance_of_credit (us : list U) (uid : string) (delta : Qc) (f : U -> U) :
  (forall u, u_id (f u) = u_id u) ->
  (forall u, u_credits (f u) = u_credits u + delta) ->
  forall uid',
    balance (update_first (has uid) f us) uid'
    = if String.eqb uid uid'
      then option_map (fun b => b + delta) (balance us uid')
      else balance us uid'.
Proof.
  intros Hid Hc uid'. unfold balance_of.
  destruct (String.eqb uid uid') eqn:E.
  - apply String.eqb_eq in E. subst uid'.
    rewrite find_update_first_same by (intro; now rewrite Hid).
    destruct (find _ us); simpl; [now rewrite Hc|reflexivity].
  - rewrite find_update_first_other; [reflexivity| |].
    + intro x. now rewrite Hid.
    + intros x Hx. apply String.eqb_eq in Hx. rewrite Hx. exact E.
Qed.


End LedgerFacts.

(** *** The ledger of the main API *)

Lemma crud_set_credits_id (c : Qc) (u : Crud.User.t) :
  Crud.User.id (Crud.User.set_credits c u) = Crud.User.id u.
Proof. reflexivity. Qed.

Lemma crud_balance_found (db : Crud.DB) (uid : string) :
  MainLedger.balance db uid
  = option_map Crud.User.credits (find (Crud.has_id uid) (Crud.users db)).
Proof. reflexivity. Qed.

(** What [use_credits] and [add_credits] write when the user exists. *)
Lemma crud_use_credits_found (db : Crud.DB) (uid : string) (amount : Qc)
    (description : string) (u : Crud.User.t) :
  find (Crud.has_id uid) (Crud.users db) = Some u ->
  Crud.use_credits db uid amount description
  = (Ok tt,
     Crud.mkDB
       (update_first (Crud.has_id uid)
          (fun u => Crud.User.set_credits (Crud.User.credits u - amount) u)
          (Crud.users db))
       (Crud.projects db)
       (Crud.transactions db
        ++ [Crud.Transaction.mk (fst (token_hex 16 (Crud.entropy db))) uid "usage"
              (- amount) (- amount) description None])
       (snd (token_hex 16 (Crud.entropy db)))).
Proof. intro H. unfold Crud.use_credits. now rewrite H. Qed.

Lemma crud_add_credits_found (db : Crud.DB) (uid : string) (amount : Qc)
    (description : string) (payment_id : option string) (u : Crud.User.t) :
  find (Crud.has_id uid) (Crud.users db) = Some u ->
  Crud.add_credits db uid amount description payment_id
  = (Ok tt,
     Crud.mkDB
       (update_first (Crud.has_id uid)
          (fun u => Crud.User.set_credits (Crud.User.credits u + amount) u)
          (Crud.users db))
       (Crud.projects db)
       (Crud.transactions db
        ++ [Crud.Transaction.mk (fst (token_hex 16 (Crud.entropy db))) uid "purchase"
              amount amount description payment_id])
       (snd (token_hex 16 (Crud.entropy db)))).
Proof. intro H. unfold Crud.add_credits. now rewrite H. Qed.

Lemma crud_use_credits_unknown (db : Crud.DB) (uid : string) (amount : Qc)
    (description : string) :
  find (Crud.has_id uid) (Crud.users db) = None ->
  Crud.use_credits db uid amount description = (Ok tt, db).
Proof. intro H. unfold Crud.use_credits. now rewrite H. Qed.

Lemma crud_add_credits_unknown (db : Crud.DB) (uid : string) (amount : Qc)
    (description : string) (payment_id : option string) :
  find (Crud.has_id uid) (Crud.users db) = None ->
  Crud.add_credits db uid amount description payment_id = (Ok tt, db).
Proof. intro H. unfold Crud.add_credits. now rewrite H. Qed.

(** The balance of [uid] after a mutation of the first row named [uid]. *)
Lemma crud_balance_after (db : Crud.DB) (uid : string) (delta : Qc) (u : Crud.User.t) :
  find (Crud.has_id uid) (Crud.users db) = Some u ->
  balance_of Crud.User.id Crud.User.credits
    (update_first (Crud.has_id uid)
       (fun u => Crud.User.set_credits (Crud.User.credits u + delta) u)
       (Crud.users db)) uid
  = Some (Crud.User.credits u + delta).
Proof.
  intro H.
  rewrite (balance_of_credit Crud.User.id Crud.User.credits (Crud.users db) uid delta)
    by reflexivity.
  rewrite String.eqb_refl. unfold balance_of.
  change (fun u0 => String.eqb (Crud.User.id u0) uid) with (Crud.has_id uid).
  now rewrite H.
Qed.

(** *** The ledger of the monetization platform *)

Lemma platform_apply_credits_found (db : Platform.DB) (uid : string) (delta : Qc)
    (transaction_type description : string) (u : Platform.User.t) :
  find (Platform.has_id uid) (Platform.users db) = Some u ->
  Platform.apply_credits uid delta transaction_type description db
  = (Ok (Platform.User.credits u + delta),
     Platform.mkDB
       (update_first (Platform.has_id uid)
          (fun u => Platform.User.set_credits (Platform.User.credits u + delta) u)
          (Platform.users db))
       (Platform.projects db)
       (Platform.transactions db
        ++ [Platform.Transaction.mk (fst (token_hex 16 (Platform.entropy db))) uid
              transaction_type delta description])
       (Platform.gpu_nodes db)
       (snd (token_hex 16 (Platform.entropy db)))
       (Platform.trace db)).
Proof. intro H. unfold Platform.apply_credits. now rewrite H. Qed.

Lemma platform_apply_credits_unknown (db : Platform.DB) (uid : string) (delta : Qc)
    (transaction_type description : string) :
  find (Platform.has_id uid) (Platform.users db) = None ->
  Platform.apply_credits uid delta transaction_type description db
  = (Raise (ValueError "User not found"), db).
Proof. intro H. unfold Platform.apply_credits. now rewrite H. Qed.

Lemma platform_balance_after (db : Platform.DB) (uid : string) (delta : Qc)
    (u : Platform.User.t) :
  find (Platform.has_id uid) (Platform.users db) = Some u ->
  balance_of Platform.User.id Platform.User.credits
    (update_first (Platform.has_id uid)
       (fun u => Platform.User.set_credits (Platform.User.credits u + delta) u)
       (Platform.users db)) uid
  = Some (Platform.User.credits u + delta).
Proof.
  intro H.
  rewrite (balance_of_credit Platform.User.id Platform.User.credits
             (Platform.users db) uid delta) by reflexivity.
  rewrite String.eqb_refl. unfold balance_of.
  change (fun u0 => String.eqb (Platform.User.id u0) uid) with (Platform.has_id uid).
  now rewrite H.
Qed.

(** A database of the main API with one user, and one of the platform. *)
Definition sample_entropy : Entropy := mkEntropy (fun _ i => "t" ++ str_int (Z.of_nat i)) 0.

Definition sample_main_db : Crud.DB :=
  Crud.mkDB [Crud.User.mk "alice" "alice@example.com" (flt 10.0) "free" false]
    [] [] sample_entropy.

(** C5, as stated, fails on the ledger functions of [crud.py]: asked to
    debit or credit a user that does not exist, they return normally
    and leave the database as it was, where the claim has them fail
    with a user-not-found error. *)
Lemma crud_unknown_user_not_reported :
  MainLedger.balance sample_main_db "ghost" = None
  /\ Crud.use_credits sample_main_db "ghost" (flt 5) "debit" = (Ok tt, sample_main_db)
  /\ Crud.add_credits sample_main_db "ghost" (flt 5) "top-up" None
     = (Ok tt, sample_main_db).
Proof. repeat split. Qed.

(** C5, amended.  With an existing user id, each ledger operation
    ([CreditManager.apply_credits], [crud.use_credits],
    [crud.add_credits]) appends exactly one transaction row, carrying
    the user id and the delta, and moves the cached balance by exactly
    that delta, whatever its sign and however low the balance falls.
    With a user id that does not resolve, [apply_credits] raises
    [ValueError("User not found")] and writes nothing, while the two
    functions of [crud.py] return normally and write nothing. *)
Theorem ledger_operations_effect :
  forall (pdb : Platform.DB) (db : Crud.DB) (user_id : string) (delta : Qc)
         (transaction_type description : string) (payment_id : option string),
    (let (r, pdb') :=
       Platform.apply_credits user_id delta transaction_type description pdb in
     match PlatformLedger.balance pdb user_id with
     | Some b =>
         r = Ok (b + delta)
         /\ PlatformLedger.balance pdb' user_id = Some (b + delta)
         /\ exists tx,
              Platform.transactions pdb' = (Platform.transactions pdb ++ [tx])%list
              /\ Platform.Transaction.user_id tx = user_id
              /\ Platform.Transaction.type tx = transaction_type
              /\ Platform.Transaction.credits tx = delta
     | None => r = Raise (ValueError "User not found") /\ pdb' = pdb
     end)
    /\
    (let (r, db') := Crud.use_credits db user_id delta description in
     r = Ok tt
     /\ match MainLedger.balance db user_id with
        | Some b =>
            MainLedger.balance db' user_id = Some (b - delta)
            /\ exists tx,
                 Crud.transactions db' = (Crud.transactions db ++ [tx])%list
                 /\ Crud.Transaction.user_id tx = user_id
                 /\ Crud.Transaction.type tx = "usage"
                 /\ Crud.Transaction.credits tx = - delta
        | None => db' = db
        end)
    /\
    (let (r, db') := Crud.add_credits db user_id delta description payment_id in
     r = Ok tt
     /\ match MainLedger.balance db user_id with
        | Some b =>
            MainLedger.balance db' user_id = Some (b + delta)
            /\ exists tx,
                 Crud.transactions db' = (Crud.transactions db ++ [tx])%list
                 /\ Crud.Transaction.user_id tx = user_id
                 /\ Crud.Transaction.type tx = "purchase"
                 /\ Crud.Transaction.credits tx = delta
        | None => db' = db
        end).
Proof.
  intros pdb db uid delta ty desc pay. split; [|split].
  - unfold PlatformLedger.balance, balance_of.
    change (fun u => String.eqb (Platform.User.id u) uid) with (Platform.has_id uid).
    destruct (find (Platform.has_id uid) (Platform.users pdb)) as [u|] eqn:F.
    + rewrite (platform_apply_credits_found _ _ _ _ _ u F). cbn [option_map].
      split; [reflexivity|]. split.
      * cbn [Platform.users]. now apply platform_balance_after.
      * eexists. cbn [Platform.transactions]. repeat split.
    + rewrite (platform_apply_credits_unknown _ _ _ _ _ F). now split.
  - unfold MainLedger.balance, balance_of.
    change (fun u => String.eqb (Crud.User.id u) uid) with (Crud.has_id uid).
    destruct (find (Crud.has_id uid) (Crud.users db)) as [u|] eqn:F.
    + rewrite (crud_use_credits_found _ _ _ _ u F). cbn [option_map].
      split; [reflexivity|]. split.
      * cbn [Crud.users]. apply (crud_balance_after db uid (- delta) u F).
      * eexists. cbn [Crud.transactions]. repeat split.
    + rewrite (crud_use_credits_unknown _ _ _ _ F). now split.
  - unfold MainLedger.balance, balance_of.
    change (fun u => String.eqb (Crud.User.id u) uid) with (Crud.has_id uid).
    destruct (find (Crud.has_id uid) (Crud.users db)) as [u|] eqn:F.
    + rewrite (crud_add_credits_found _ _ _ _ _ u F). cbn [option_map].
      split; [reflexivity|]. split.
      * cbn [Crud.users]. now apply crud_balance_after.
      * eexists. cbn [Crud.transactions]. repeat split.
    + rewrite (crud_add_credits_unknown _ _ _ _ _ F). now split.
Qed.

(** No check stands in the way of a negative balance at this layer. *)
Example debit_below_zero :
  MainLedger.balance
    (snd (Crud.use_credits sample_main_db "alice" (flt 25) "debit")) "alice"
  = Some (flt 10.0 - flt 25).
Proof. reflexivity. Qed.

(** *** Balance against the sum of the deltas *)







Lemma platform_use_credits_outcome (db : Platform.DB) (uid project_id : string)
    (duration_minutes : Z) :
  match find (Platform.has_id uid) (Platform.users db) with
  | None =>
      Platform.use_credits uid project_id duration_minutes db
      = (Raise (ValueError "User not found"), db)
  | Some u =>
      let cost :=
        of_int duration_minutes
        * Platform.price_per_minute
            (Platform.SUBSCRIPTION_TIERS (Platform.User.subscription_tier u)) in
      if Qcltb (Platform.User.credits u) cost then
        Platform.use_credits uid project_id duration_minutes db
        = (Raise (ValueErrorCredits cost (Platform.User.credits u)), db)
      else
        exists tx,
          Platform.use_credits uid project_id duration_minutes db
          = (Ok (Platform.mkUsage cost (Platform.User.credits u - cost)),
             Platform.mkDB
               (update_first (Platform.has_id uid)
                  (fun u => Platform.User.set_credits
                              (Platform.User.credits u + - cost) u)
                  (Platform.users db))
               (Platform.projects db)
               (Platform.transactions db ++ [tx])
               (Platform.gpu_nodes db)
               (snd (token_hex 16 (Platform.entropy db)))
               (Platform.trace db))
          /\ Platform.Transaction.user_id tx = uid
          /\ Platform.Transaction.type tx = "usage"
          /\ Platform.Transaction.credits tx = - cost
  end.
Proof.
  unfold Platform.use_credits.
  destruct (find (Platform.has_id uid) (Platform.users db)) as [u|]; [|reflexivity].
  cbv zeta. destruct (Qcltb _ _); [reflexivity|].
  eexists. repeat split.
Qed.






(** ** Project creation against the balance *)

(** The tier guard of the platform endpoint, which runs before pricing. *)
Definition over_tier_limit (tier : Platform.Tier) (duration_minutes : Z) : bool :=
  (Platform.max_duration_minutes (Platform.SUBSCRIPTION_TIERS tier) >? 0)%Z
  && (duration_minutes
      >? Platform.max_duration_minutes (Platform.SUBSCRIPTION_TIERS tier))%Z.

Lemma main_create_project_rejected (project_data : Crud.ProjectCreate)
    (current_user : Crud.User.t) (db : Crud.DB) :
  let total :=
    Pricing.total
      (Pricing.calculate_project_cost
         (Crud.pc_duration_minutes project_data) (Crud.pc_include_script project_data)
         (Crud.pc_include_storyboard project_data) (Crud.pc_quality project_data)) in
  Crud.User.credits current_user < total ->
  Main.create_project project_data current_user db
  = (Raise (HTTPException 402
              (InsufficientCredits total (Crud.User.credits current_user))), db).
Proof.
  intros total H. unfold Main.create_project. fold total.
  apply Qcltb_true in H. now rewrite H.
Qed.

Lemma platform_create_project_rejected (project : Platform.ProjectRequest)
    (user_id : string) (db : Platform.DB) (user : Platform.User.t)
    (costs : PricingEngine.Costs) :
  find (Platform.has_id user_id) (Platform.users db) = Some user ->
  PricingEngine.calculate_project_cost
    (Platform.q_duration_minutes project) (Platform.q_include_script project)
    (Platform.q_include_storyboard project) (Platform.q_quality project) false
  = Ok costs ->
  Platform.User.credits user < PricingEngine.total costs ->
  Platform.create_project project user_id db
  = (Raise
       (if over_tier_limit (Platform.User.subscription_tier user)
             (Platform.q_duration_minutes project)
        then HTTPException 403
               (DurationExceedsTierLimit
                  (Platform.max_duration_minutes
                     (Platform.SUBSCRIPTION_TIERS (Platform.User.subscription_tier user))))
        else HTTPException 402
               (InsufficientCredits (PricingEngine.total costs)
                  (Platform.User.credits user))),
     db).
Proof.
  intros F C H. unfold Platform.create_project, over_tier_limit.
  rewrite F. cbv zeta.
  destruct (_ && _); [reflexivity|].
  rewrite C. apply Qcltb_true in H. now rewrite H.
Qed.

Definition sample_platform_db : Platform.DB :=
  Platform.mkDB
    [Platform.User.mk "carol" "carol@example.com" (flt 10) Platform.free "r-carol"
       None "k-carol"]
    [] [] [] sample_entropy [].

Definition sample_request : Platform.ProjectRequest :=
  Platform.mkProjectRequest "Test Film" 60 "film" true true "standard" None.

(** C2, as stated, fails on the platform endpoint: a free-tier user
    with 10 credits asks for sixty minutes, which cost 250; the request
    is turned down for its duration (403) before the balance is looked
    at, not with the insufficient-credits error (402). *)
Lemma over_limit_answered_403 :
  exists costs,
    PricingEngine.calculate_project_cost 60 true true "standard" false = Ok costs
    /\ flt 10 < PricingEngine.total costs
    /\ Platform.create_project sample_request "carol" sample_platform_db
       = (Raise (HTTPException 403 (DurationExceedsTierLimit 10)), sample_platform_db)
    /\ fst (Platform.create_project sample_request "carol" sample_platform_db)
       <> Raise (HTTPException 402
                   (InsufficientCredits (PricingEngine.total costs) (flt 10))).
Proof.
  eexists. split; [reflexivity|]. split; [reflexivity|].
  split; [reflexivity|]. discriminate.
Qed.

(** C2, amended.  When the computed total exceeds the balance, the
    request is rejected, nothing is debited and no project row is
    created: the state after the call is the state before it.  The
    main API answers 402.  The platform endpoint answers 402 as well,
    unless the duration exceeds the limit of the user's tier, a guard
    that runs first and answers 403. *)
Theorem insufficient_credits_rejected :
  (forall (project_data : Crud.ProjectCreate) (current_user : Crud.User.t)
          (db : Crud.DB),
      let total :=
        Pricing.total
          (Pricing.calculate_project_cost
             (Crud.pc_duration_minutes project_data)
             (Crud.pc_include_script project_data)
             (Crud.pc_include_storyboard project_data)
             (Crud.pc_quality project_data)) in
      Crud.User.credits current_user < total ->
      Main.create_project project_data current_user db
      = (Raise (HTTPException 402
                  (InsufficientCredits total (Crud.User.credits current_user))), db))
  /\
  (forall (project : Platform.ProjectRequest) (user_id : string) (db : Platform.DB)
          (user : Platform.User.t) (costs : PricingEngine.Costs),
      find (Platform.has_id user_id) (Platform.users db) = Some user ->
      PricingEngine.calculate_project_cost
        (Platform.q_duration_minutes project) (Platform.q_include_script project)
        (Platform.q_include_storyboard project) (Platform.q_quality project) false
      = Ok costs ->
      Platform.User.credits user < PricingEngine.total costs ->
      Platform.create_project project user_id db
      = (Raise
           (if over_tier_limit (Platform.User.subscription_tier user)
                 (Platform.q_duration_minutes project)
            then HTTPException 403
                   (DurationExceedsTierLimit
                      (Platform.max_duration_minutes
                         (Platform.SUBSCRIPTION_TIERS
                            (Platform.User.subscription_tier user))))
            else HTTPException 402
                   (InsufficientCredits (PricingEngine.total costs)
                      (Platform.User.credits user))),
         db)).
Proof.
  split.
  - apply main_create_project_rejected.
  - apply platform_create_project_rejected.
Qed.

Definition sample_project_data : Crud.ProjectCreate :=
  Crud.mkProjectCreate "Test Film" 60 "film" true true "standard"
    (Some "A test film about AI").

Definition sample_user : Crud.User.t :=
  Crud.User.mk "alice" "alice@example.com" (flt 10.0) "free" false.

Definition short_request : Platform.ProjectRequest :=
  Platform.mkProjectRequest "Teaser" 5 "short" true true "standard" None.

Lemma insufficient_credits_rejected_witness :
  Main.create_project sample_project_data sample_user sample_main_db
  = (Raise (HTTPException 402
              (InsufficientCredits
                 (Pricing.total (Pricing.calculate_project_cost 60 true true "standard"))
                 (flt 10.0))), sample_main_db)
  /\ exists costs,
       PricingEngine.calculate_project_cost 5 true true "standard" false = Ok costs
       /\ flt 10 < PricingEngine.total costs
       /\ Platform.create_project short_request "carol" sample_platform_db
          = (Raise (HTTPException 402
                      (InsufficientCredits (PricingEngine.total costs) (flt 10))),
             sample_platform_db).
Proof.
  split.
  - apply (proj1 insufficient_credits_rejected
             sample_project_data sample_user sample_main_db).
    reflexivity.
  - eexists. split; [reflexivity|]. split; [reflexivity|].
    apply (proj2 insufficient_credits_rejected short_request "carol"
             sample_platform_db
             (Platform.User.mk "carol" "carol@example.com" (flt 10) Platform.free
                "r-carol" None "k-carol"));
      reflexivity.
Defined.

(** ** Registration with a referral code *)






(** ** The background task of the main API *)

(** The status of the project [project_id], if the row exists. *)
Definition status_of (db : Crud.DB) (project_id : string) : option string :=
  option_map Crud.Project.status (Crud.get_project db project_id).

Lemma status_of_update (db : Crud.DB) (project_id status : string) (progress : Z) :
  status_of (Crud.update_project_status db project_id status progress) project_id
  = option_map (fun _ => status) (status_of db project_id).
Proof.
  unfold status_of, Crud.get_project, Crud.update_project_status.
  cbn [Crud.set_projects Crud.projects].
  rewrite find_update_first_same by reflexivity.
  now destruct (find _ _).
Qed.

Lemma status_of_complete (db : Crud.DB) (project_id film_url : string) :
  status_of (Crud.complete_project db project_id film_url) project_id
  = option_map (fun _ => "complete") (status_of db project_id).
Proof.
  unfold status_of, Crud.get_project, Crud.complete_project.
  cbn [Crud.set_projects Crud.projects].
  rewrite find_update_first_same by reflexivity.
  now destruct (find _ _).
Qed.

Lemma status_of_fail (db : Crud.DB) (project_id error : string) :
  status_of (Crud.fail_project db project_id error) project_id
  = option_map (fun _ => "failed") (status_of db project_id).
Proof.
  unfold status_of, Crud.get_project, Crud.fail_project.
  cbn [Crud.set_projects Crud.projects].
  rewrite find_update_first_same by reflexivity.
  now destruct (find _ _).
Qed.

(** Walks through the task, one outcome of a collaborator at a time. *)
Ltac run_task :=
  repeat (cbv beta iota zeta delta
                 [ret raise read_local bind modify lift try_except];
          match goal with
          | |- context [match Main.generate_script _ _ ?e ?a with _ => _ end] =>
              destruct (Main.generate_script _ _ e a)
          | |- context [match Main.generate_storyboard _ _ ?e ?a with _ => _ end] =>
              destruct (Main.generate_storyboard _ _ e a)
          | |- context [match Main.generate_film _ _ ?e ?a ?b with _ => _ end] =>
              destruct (Main.generate_film _ _ e a b) as [[?|?]|?]
          | |- context [match Main.upload_to_spaces _ _ ?e ?a with _ => _ end] =>
              destruct (Main.upload_to_spaces _ _ e a)
          end);
  cbv beta iota zeta delta [ret raise read_local bind modify lift try_except];
  cbn [snd fst];
  rewrite ?status_of_fail, ?status_of_complete, ?status_of_update.

(** C10.  For a project that exists, the background task of the main
    API always leaves the status at ["complete"] or ["failed"].  Unless
    both [include_script] and [include_storyboard] are set, it reads a
    local that was never bound before it reaches the video stage, the
    handler catches the error, and the status ends at ["failed"]; so a
    run can end at ["complete"] only when both options are set. *)
Theorem background_task_needs_both_options :
  forall (Script Storyboard : Type) (ext : Main.External Script Storyboard)
         (project_id : string) (project_data : Crud.ProjectCreate) (db : Crud.DB)
         (before : string),
    status_of db project_id = Some before ->
    let after :=
      status_of
        (snd (Main.generate_film_async Script Storyboard ext project_id project_data db))
        project_id in
    (after = Some "complete" \/ after = Some "failed")
    /\ (Crud.pc_include_script project_data && Crud.pc_include_storyboard project_data
        = false -> after = Some "failed")
    /\ (after = Some "complete" ->
        Crud.pc_include_script project_data = true
        /\ Crud.pc_include_storyboard project_data = true).
Proof.
  intros Script Storyboard ext pid data db before H after. subst after.
  unfold Main.generate_film_async.
  destruct (Crud.pc_include_script data), (Crud.pc_include_storyboard data);
    run_task; rewrite H; cbn [option_map andb];
    (split; [auto|split; [auto; discriminate|auto; discriminate]]).
Qed.

Definition happy_ext : Main.External unit unit :=
  Main.mkExternal unit unit
    (fun _ => Ok tt) (fun _ => Ok tt)
    (fun _ _ => Ok (Main.FilmSuccess "https://pod/film.mp4"))
    (fun url => Ok url).

Definition script_only : Crud.ProjectCreate :=
  Crud.mkProjectCreate "Test Film" 5 "film" true false "standard" (Some "A story").

Definition sample_project_db : Crud.DB :=
  snd (Crud.create_project sample_main_db script_only "alice" (flt 20)).

Lemma background_task_witness :
  status_of sample_project_db "t0" = Some "queued"
  /\ status_of
       (snd (Main.generate_film_async unit unit happy_ext "t0" script_only
               sample_project_db)) "t0"
     = Some "failed".
Proof.
  split; [reflexivity|].
  apply (proj1 (proj2 (background_task_needs_both_options unit unit happy_ext "t0"
                         script_only sample_project_db "queued" eq_refl))).
  reflexivity.
Defined.

(** With both options set and collaborators that succeed, the task
    does reach ["complete"]. *)
Example background_task_completes :
  status_of
    (snd (Main.generate_film_async unit unit happy_ext "t0" sample_project_data
            sample_project_db)) "t0"
  = Some "complete".
Proof. reflexivity. Qed.

(** ** Sorting and positions *)

Section OrderByFacts.
Context {A : Type} (leb : A -> A -> bool).
Hypothesis leb_total : forall a b, leb a b = false -> leb b a = true.

Let le (a b : A) : Prop := leb a b = true.

Lemma insert_by_perm (x : A) (l : list A) : Permutation (insert_by leb x l) (x :: l).
Proof.
  induction l as [|y l IH]; simpl; [reflexivity|].
  destruct (leb x y); [reflexivity|].
  rewrite IH. apply perm_swap.
Qed.

Lemma order_by_perm (l : list A) : Permutation (order_by leb l) l.
Proof.
  induction l as [|x l IH]; simpl; [reflexivity|].
  rewrite insert_by_perm. now constructor.
Qed.

Lemma insert_by_hdrel (a x : A) (l : list A) :
  le a x -> HdRel le a l -> HdRel le a (insert_by leb x l).
Proof.
  intros Hax H. destruct l as [|y l]; simpl; [now constructor|].
  destruct (leb x y); constructor; [exact Hax|now inversion H].
Qed.

Lemma insert_by_sorted (x : A) (l : list A) :
  Sorted le l -> Sorted le (insert_by leb x l).
Proof.
  induction 1 as [|y l S IH H]; simpl; [repeat constructor|].
  destruct (leb x y) eqn:E.
  - constructor; [now constructor|]. constructor. exact E.
  - constructor; [exact IH|].
    apply insert_by_hdrel; [now apply leb_total|exact H].
Qed.

Lemma order_by_sorted (l : list A) : Sorted le (order_by leb l).
Proof.
  induction l as [|x l IH]; simpl; [constructor|].
  now apply insert_by_sorted.
Qed.

Lemma order_by_in (x : A) (l : list A) : In x (order_by leb l) <-> In x l.
Proof.
  split; apply Permutation_in;
    [apply order_by_perm|apply Permutation_sym, order_by_perm].
Qed.

Lemma order_by_nil (l : list A) : order_by leb l = [] -> l = [].
Proof.
  intro H. apply Permutation_nil. rewrite <- H. apply order_by_perm.
Qed.
End OrderByFacts.

Section Positions.
Context {A : Type}.
Implicit Types (l : list A) (f : A -> A).

Lemma indexed_from_in (l : list A) (start i : nat) (x : A) :
  In (i, x) (combine (seq start (List.length l)) l)
  <-> (start <= i)%nat /\ nth_error l (i - start) = Some x.
Proof.
  revert start. induction l as [|y l IH]; intro start; simpl.
  - split; [contradiction|]. intros [_ H]. now destruct (i - start)%nat.
  - rewrite IH. split.
    + intros [H|[H1 H2]].
      * injection H as <- <-. split; [lia|]. now rewrite Nat.sub_diag.
      * split; [lia|]. replace (i - start)%nat with (S (i - S start)) by lia.
        exact H2.
    + intros [H1 H2]. destruct (i - start)%nat as [|k] eqn:E.
      * left. injection H2 as <-. f_equal. lia.
      * right. split; [lia|]. replace (i - S start)%nat with k by lia. exact H2.
Qed.

Lemma indexed_in (l : list A) (i : nat) (x : A) :
  In (i, x) (indexed l) <-> nth_error l i = Some x.
Proof.
  unfold indexed. rewrite indexed_from_in, Nat.sub_0_r.
  split; [now intros [_ H]|]. intro H. split; [lia|exact H].
Qed.

Lemma nth_error_update_nth (i j : nat) f l :
  nth_error (update_nth i f l) j
  = if Nat.eqb i j then option_map f (nth_error l j) else nth_error l j.
Proof.
  revert i j. induction l as [|x l IH]; intros i j.
  - destruct i, j; simpl; try reflexivity; now destruct (Nat.eqb _ _).
  - destruct i as [|i], j as [|j]; simpl; try reflexivity. apply IH.
Qed.

End Positions.

Section SortedFacts.
Context {A : Type} (R : A -> A -> Prop).






End SortedFacts.

(** ** Scaling down *)

Section ScaleDownFacts.
Import Platform.
Variable providers : ProviderName -> Provider.





Lemma terminate_loop_other_tables (idle : list (nat * GPUNode.t))
    (terminated : list string) (db : DB) :
  let db' := snd (terminate_loop providers idle terminated db) in
  users db' = users db /\ projects db' = projects db
  /\ transactions db' = transactions db.
Proof.
  revert terminated db. induction idle as [|[i node] idle IH]; intros terminated db;
    simpl; [now repeat split|].
  destruct (terminate_instance _ _);
    match goal with
    | |- context [terminate_loop providers idle ?t ?d] =>
        destruct (IH t d) as (-> & -> & ->)
    end; now repeat split.
Qed.







End ScaleDownFacts.





(** A cluster of four nodes: two idle ones, a busy one, and one that
    still carries a project while its status reads ['available'].  The
    second adapter table refuses to terminate Lambda instances. *)
Definition sample_nodes : list Platform.GPUNode.t :=
  [Platform.GPUNode.mk "n0" Platform.vast "vast_a" "rtx4090" (flt 0.35)
     "available" None (flt 1.0) "us-west-2";
   Platform.GPUNode.mk "n1" Platform.runpod "runpod_b" "rtx4090" (flt 0.44)
     "busy" (Some "p9") (flt 1.0) "us-east-1";
   Platform.GPUNode.mk "n2" Platform.lambda "lambda_c" "rtx4090" (flt 0.50)
     "available" None (flt 1.0) "us-central-1";
   Platform.GPUNode.mk "n3" Platform.runpod "runpod_d" "a100_80gb" (flt 1.19)
     "available" (Some "p7") (flt 1.0) "us-east-1"].

Definition sample_cluster : Platform.DB :=
  Platform.mkDB [] [] [] sample_nodes sample_entropy [].

Definition stubborn_providers (name : Platform.ProviderName) : Platform.Provider :=
  match name with
  | Platform.lambda =>
      Platform.mkProvider
        (Platform.launch_instances Platform.LambdaLabsProvider) (fun _ => false)
  | _ => Platform.default_providers name
  end.


(** On the sample cluster: the two idle nodes are selected, dearest
    first; Lambda refuses, so only the Vast node is marked. *)
Example scale_down_sample :
  map (fun r => Platform.GPUNode.id (snd r)) (Platform.idle_nodes 3 sample_cluster)
  = ["n2"; "n0"]
  /\ fst (Platform.scale_down stubborn_providers 3 sample_cluster) = ["n0"]
  /\ map Platform.GPUNode.status
       (Platform.gpu_nodes (snd (Platform.scale_down stubborn_providers 3 sample_cluster)))
     = ["terminated"; "busy"; "available"; "available"]
  /\ map Platform.GPUNode.status
       (Platform.gpu_nodes
          (snd (Platform.scale_down Platform.default_providers 1 sample_cluster)))
     = ["available"; "busy"; "terminated"; "available"].
Proof. repeat split. Qed.

(** ** Scaling up *)

(** A node row as [scale_up] writes it for a launched instance. *)
Definition launched_as (name : Platform.ProviderName) (inst : Platform.Instance)
    (node : Platform.GPUNode.t) : Prop :=
  Platform.GPUNode.provider node = name
  /\ Platform.GPUNode.instance_id node = Platform.i_instance_id inst
  /\ Platform.GPUNode.gpu_type node = Platform.i_gpu_type inst
  /\ Platform.GPUNode.hourly_cost node = Platform.i_hourly_cost inst
  /\ Platform.GPUNode.region node = Platform.i_region inst
  /\ Platform.GPUNode.status node = "available"
  /\ Platform.GPUNode.current_project_id node = None.

(** The tables the orchestrator does not touch. *)
Definition same_tables (a b : Platform.DB) : Prop :=
  Platform.users a = Platform.users b
  /\ Platform.projects a = Platform.projects b
  /\ Platform.transactions a = Platform.transactions b.

(** The launch calls of one [scale_up]: one call per provider tried, in
    the order of the list, each for one to five ['rtx4090'] instances. *)
Fixpoint in_order (names : list Platform.ProviderName) (events : list Platform.Event)
    : Prop :=
  match events, names with
  | [], _ => True
  | _ :: _, [] => False
  | ev :: events', name :: names' =>
      (exists count, ev = Platform.CallLaunch name count "rtx4090"
                     /\ (1 <= count <= 5)%Z)
      /\ in_order names' events'
  end.


Lemma persist_spec (name : Platform.ProviderName) (launched : list Platform.Instance)
    (s : Platform.ScaleUp) :
  exists added,
    Platform.gpu_nodes (Platform.su_db (Platform.persist name launched s))
    = (Platform.gpu_nodes (Platform.su_db s) ++ added)%list
    /\ Platform.new_nodes (Platform.persist name launched s)
       = (Platform.new_nodes s ++ map Platform.GPUNode.id added)%list
    /\ Forall2 (launched_as name) launched added
    /\ Platform.nodes_to_add (Platform.persist name launched s)
       = (Platform.nodes_to_add s - Z.of_nat (List.length launched))%Z
    /\ Platform.trace (Platform.su_db (Platform.persist name launched s))
       = Platform.trace (Platform.su_db s)
    /\ same_tables (Platform.su_db (Platform.persist name launched s))
         (Platform.su_db s).
Proof.
  revert s. induction launched as [|inst rest IH]; intro s.
  - exists []. cbn [Platform.persist map List.length]. rewrite !app_nil_r.
    repeat split; try constructor. cbn. lia.
  - cbn [Platform.persist Platform.fresh token_hex].
    match goal with
    | |- context [Platform.persist name rest ?s1] =>
        set (S1 := s1);
        destruct (IH S1) as (added & Hn & Hi & Hf & Hk & Ht & Hs)
    end.
    rewrite Hn, Hi, Hk, Ht. destruct Hs as (Hu & Hp & Hx).
    unfold same_tables. rewrite Hu, Hp, Hx. subst S1.
    cbn [Platform.su_db Platform.new_nodes Platform.nodes_to_add
         Platform.gpu_nodes Platform.set_gpu_nodes Platform.set_entropy
         Platform.trace Platform.users Platform.projects Platform.transactions].
    eexists (_ :: added).
    rewrite <- !app_assoc. cbn [app map Platform.GPUNode.id List.length].
    repeat split; try reflexivity.
    + constructor; [|exact Hf]. repeat split.
    + lia.
Qed.

Lemma Forall2_witnessed {A B : Type} (P : A -> B -> Prop) (l : list A) (l' : list B) :
  Forall2 P l l' -> Forall (fun y => exists x, In x l /\ P x y) l'.
Proof.
  induction 1 as [|x y l l' H F IH]; constructor.
  - exists x. split; [now left|exact H].
  - eapply Forall_impl; [|exact IH].
    intros b (a & Ha & Hp). exists a. split; [now right|exact Hp].
Qed.

Lemma Forall2_same_length {A B : Type} (P : A -> B -> Prop) (l : list A) (l' : list B) :
  Forall2 P l l' -> List.length l' = List.length l.
Proof. induction 1; simpl; congruence. Qed.

Section ScaleUpFacts.
Import Platform.
Variable providers : ProviderName -> Provider.

(** An adapter never hands back more instances than it was asked for. *)
Definition within_request : Prop :=
  forall name count gpu_type e,
    (List.length (fst (launch_instances (providers name) count gpu_type e))
     <= Z.to_nat count)%nat.

(** A node written for an instance that an adapter returned. *)
Definition from_provider (names : list ProviderName) (node : GPUNode.t) : Prop :=
  exists name count e inst,
    In name names
    /\ In inst (fst (launch_instances (providers name) count "rtx4090" e))
    /\ launched_as name inst node.

Lemma from_provider_more (name : ProviderName) (names : list ProviderName)
    (node : GPUNode.t) :
  from_provider names node -> from_provider (name :: names) node.
Proof.
  intros (n & c & e & inst & Hin & Hl & Ha).
  exists n, c, e, inst. split; [now right|]. now split.
Qed.

Lemma provider_loop_spec (names : list ProviderName) (s : ScaleUp) :
  exists added events,
    gpu_nodes (su_db (provider_loop providers names s))
    = (gpu_nodes (su_db s) ++ added)%list
    /\ new_nodes (provider_loop providers names s)
       = (new_nodes s ++ map GPUNode.id added)%list
    /\ Forall (from_provider names) added
    /\ Z.of_nat (List.length added)
       = (nodes_to_add s - nodes_to_add (provider_loop providers names s))%Z
    /\ trace (su_db (provider_loop providers names s))
       = (trace (su_db s) ++ events)%list
    /\ in_order names events
    /\ same_tables (su_db (provider_loop providers names s)) (su_db s)
    /\ (within_request -> (0 <= nodes_to_add s)%Z ->
        (0 <= nodes_to_add (provider_loop providers names s))%Z).
Proof.
  revert s. induction names as [|name rest IH]; intro s.
  - exists [], []. cbn [provider_loop map List.length in_order]. rewrite !app_nil_r.
    repeat split; try constructor; try (cbn; lia); auto.
  - cbn [provider_loop]. destruct (nodes_to_add s <=? 0)%Z eqn:E.
    + exists [], []. cbn [map List.length in_order]. rewrite !app_nil_r.
      repeat split; try constructor; try (cbn; lia); auto.
    + apply Z.leb_gt in E. cbv zeta.
      set (count := Z.min (nodes_to_add s) 5).
      set (db1 := log (CallLaunch name count "rtx4090") (su_db s)).
      destruct (launch_instances (providers name) count "rtx4090" (entropy db1))
        as [launched e] eqn:L.
      set (s0 := mkScaleUp (set_entropy e db1) (new_nodes s) (nodes_to_add s)).
      destruct (persist_spec name launched s0)
        as (added1 & Hn1 & Hi1 & Hf1 & Hk1 & Ht1 & Hs1).
      destruct (IH (persist name launched s0))
        as (added2 & events2 & Hn2 & Hi2 & Hf2 & Hk2 & Ht2 & Ho2 & Hs2 & Hc2).
      exists (added1 ++ added2)%list, (CallLaunch name count "rtx4090" :: events2).
      rewrite Hn2, Hi2, Ht2, Hn1, Hi1, Ht1.
      subst s0 db1.
      cbn [su_db new_nodes nodes_to_add gpu_nodes set_entropy log trace] in *.
      split; [now rewrite app_assoc|].
      split; [now rewrite map_app, app_assoc|].
      split.
      { apply Forall_app. split.
        - eapply Forall_impl; [|apply (Forall2_witnessed _ _ _ Hf1)].
          intros node (inst & Hin & Ha).
          exists name, count, (entropy (log (CallLaunch name count "rtx4090") (su_db s))), inst.
          split; [now left|]. split; [|exact Ha].
          cbn [entropy log]. cbn [entropy log] in L. rewrite L. exact Hin.
        - eapply Forall_impl; [|exact Hf2]. intro node. apply from_provider_more. }
      split.
      { rewrite length_app, Nat2Z.inj_add, Hk2, Hk1.
        rewrite (Forall2_same_length _ _ _ Hf1). lia. }
      split; [now rewrite <- app_assoc|].
      split.
      { cbn [in_order]. split; [|exact Ho2]. exists count. split; [reflexivity|].
        unfold count. lia. }
      split.
      { destruct Hs1 as (U1 & P1 & X1), Hs2 as (U2 & P2 & X2).
        unfold same_tables. rewrite U2, P2, X2, U1, P1, X1. now repeat split. }
      intros W Hpos. apply Hc2; [exact W|]. rewrite Hk1.
      pose proof (W name count "rtx4090"
                    (entropy (log (CallLaunch name count "rtx4090") (su_db s)))) as B.
      cbn [entropy log] in B, L. rewrite L in B. cbn [fst] in B.
      unfold count in B. lia.
Qed.
End ScaleUpFacts.

(** The number of nodes whose status is ['available']. *)
Definition available (db : Platform.DB) : Z :=
  Z.of_nat (List.length (filter Platform.is_available (Platform.gpu_nodes db))).

Lemma scale_up_spec (providers : Platform.ProviderName -> Platform.Provider)
    (required_capacity : Z) (db : Platform.DB) :
  exists added events,
    Platform.gpu_nodes (snd (Platform.scale_up providers required_capacity db))
    = (Platform.gpu_nodes db ++ added)%list
    /\ fst (Platform.scale_up providers required_capacity db)
       = map Platform.GPUNode.id added
    /\ Forall (from_provider providers [Platform.vast; Platform.runpod; Platform.lambda])
         added
    /\ Platform.trace (snd (Platform.scale_up providers required_capacity db))
       = (Platform.trace db ++ Platform.CallScaleUp required_capacity :: events)%list
    /\ in_order [Platform.vast; Platform.runpod; Platform.lambda] events
    /\ same_tables (snd (Platform.scale_up providers required_capacity db)) db
    /\ (within_request providers ->
        (Z.of_nat (List.length added)
         <= Z.max 0 (required_capacity - available db))%Z)
    /\ ((available db >= required_capacity)%Z -> added = [] /\ events = []).
Proof.
  unfold Platform.scale_up, available. cbv zeta.
  cbn [Platform.gpu_nodes Platform.log].
  destruct (_ >=? _)%Z eqn:E.
  - exists [], []. cbn [fst snd Platform.gpu_nodes Platform.log Platform.trace map
                        List.length in_order].
    rewrite app_nil_r. repeat split; try constructor. lia.
  - rewrite Z.geb_leb in E. apply Z.leb_gt in E.
    match goal with
    | |- context [Platform.provider_loop providers ?names ?s0] =>
        destruct (provider_loop_spec providers names s0)
          as (added & events & Hn & Hi & Hf & Hk & Ht & Ho & Hs & Hc)
    end.
    exists added, events. cbn [fst snd]. rewrite Hn, Hi, Ht.
    cbn [Platform.su_db Platform.new_nodes Platform.nodes_to_add Platform.log
         Platform.gpu_nodes Platform.trace app] in *.
    split; [reflexivity|]. split; [reflexivity|]. split; [exact Hf|].
    split; [now rewrite <- app_assoc|]. split; [exact Ho|]. split; [exact Hs|].
    split; [|lia].
    intro W. specialize (Hc W). lia.
Qed.

(** *** The adapters of the source *)

Lemma launch_loop_length (prefix gpu_type : string) (cost : Qc) (region : string)
    (count : nat) (e : Entropy) :
  List.length (fst (Platform.launch_loop prefix gpu_type cost region count e)) = count.
Proof.
  revert e. induction count as [|count IH]; intro e; simpl; [reflexivity|].
  specialize (IH (mkEntropy (tape e) (S (drawn e)))).
  destruct (Platform.launch_loop _ _ _ _ count _). simpl in *. now rewrite IH.
Qed.

Lemma launch_loop_in (prefix gpu_type : string) (cost : Qc) (region : string)
    (count : nat) (e : Entropy) (inst : Platform.Instance) :
  In inst (fst (Platform.launch_loop prefix gpu_type cost region count e)) ->
  Platform.i_gpu_type inst = gpu_type
  /\ Platform.i_hourly_cost inst = cost
  /\ Platform.i_region inst = region.
Proof.
  revert e. induction count as [|count IH]; intro e; simpl; [contradiction|].
  specialize (IH (mkEntropy (tape e) (S (drawn e)))).
  destruct (Platform.launch_loop _ _ _ _ count _). simpl in *.
  intros [<-|H]; [now repeat split|now apply IH].
Qed.

Lemma default_launch_length (name : Platform.ProviderName) (count : Z)
    (gpu_type : string) (e : Entropy) :
  List.length
    (fst (Platform.launch_instances (Platform.default_providers name) count gpu_type e))
  = Z.to_nat count.
Proof. destruct name; apply launch_loop_length. Qed.

Lemma default_within_request : within_request Platform.default_providers.
Proof. intros name count gpu_type e. now rewrite default_launch_length. Qed.

(** The price of an ['rtx4090'] hour at each adapter of the source. *)
Definition rtx4090_price (name : Platform.ProviderName) : Qc :=
  match name with
  | Platform.vast => flt 0.35
  | Platform.runpod => flt 0.44
  | Platform.lambda => flt 0.50
  end.

Lemma default_launch_rtx4090 (name : Platform.ProviderName) (count : Z) (e : Entropy)
    (inst : Platform.Instance) :
  In inst
    (fst (Platform.launch_instances (Platform.default_providers name) count "rtx4090" e)) ->
  Platform.i_gpu_type inst = "rtx4090"
  /\ Platform.i_hourly_cost inst = rtx4090_price name.
Proof.
  destruct name; intro H; apply launch_loop_in in H; tauto.
Qed.

(** What is still to add after the providers in [names] have been tried,
    when each delivers what it is asked for. *)
Fixpoint remaining (names : list Platform.ProviderName) (k : Z) : Z :=
  match names with
  | [] => k
  | _ :: rest => if (k <=? 0)%Z then k else remaining rest (k - Z.min k 5)
  end.

Lemma provider_loop_default_remaining (names : list Platform.ProviderName)
    (s : Platform.ScaleUp) :
  Platform.nodes_to_add (Platform.provider_loop Platform.default_providers names s)
  = remaining names (Platform.nodes_to_add s).
Proof.
  revert s. induction names as [|name rest IH]; intro s; [reflexivity|].
  cbn [Platform.provider_loop remaining].
  destruct (Platform.nodes_to_add s <=? 0)%Z eqn:E; [reflexivity|].
  apply Z.leb_gt in E. cbv zeta.
  match goal with
  | |- context [Platform.launch_instances ?p ?c ?g ?e] =>
      pose proof (default_launch_length name c g e) as L;
      destruct (Platform.launch_instances p c g e) as [launched e']
  end.
  rewrite IH.
  match goal with
  | |- context [Platform.persist name launched ?s0] =>
      destruct (persist_spec name launched s0) as (added & _ & _ & _ & Hk & _)
  end.
  rewrite Hk. cbn [Platform.nodes_to_add fst] in *. rewrite L. f_equal. lia.
Qed.

Lemma remaining_three (a b c : Platform.ProviderName) (k : Z) :
  (0 < k)%Z -> remaining [a; b; c] k = Z.max 0 (k - 15).
Proof.
  intro H. cbn [remaining].
  repeat match goal with
         | |- context [(?x <=? 0)%Z] => destruct (Z.leb_spec x 0)
         end; lia.
Qed.

(** C8.  [scale_up(n)] with the adapters of the source appends new node
    rows and nothing else: as many as are missing to reach [n]
    available nodes, and never more than fifteen (five per adapter),
    hence at most [n] and possibly fewer.  The adapters are called in
    the order Vast, RunPod, Lambda, which is the order of their
    ['rtx4090'] prices, each for one to five instances, and every row
    written describes an instance that an adapter returned, with status
    ['available'] and no project. *)
Theorem scale_up_launches_available_nodes :
  forall (required_capacity : Z) (db : Platform.DB),
    let result := Platform.scale_up Platform.default_providers required_capacity db in
    exists added events,
      Platform.gpu_nodes (snd result) = (Platform.gpu_nodes db ++ added)%list
      /\ fst result = map Platform.GPUNode.id added
      /\ Z.of_nat (List.length added)
         = Z.min (Z.max 0 (required_capacity - available db)) 15
      /\ (Z.of_nat (List.length added) <= Z.max 0 required_capacity)%Z
      /\ Forall
           (fun node =>
              Platform.GPUNode.status node = "available"
              /\ Platform.GPUNode.current_project_id node = None
              /\ Platform.GPUNode.gpu_type node = "rtx4090"
              /\ Platform.GPUNode.hourly_cost node
                 = rtx4090_price (Platform.GPUNode.provider node)
              /\ from_provider Platform.default_providers
                   [Platform.vast; Platform.runpod; Platform.lambda] node)
           added
      /\ Platform.trace (snd result)
         = (Platform.trace db ++ Platform.CallScaleUp required_capacity :: events)%list
      /\ in_order [Platform.vast; Platform.runpod; Platform.lambda] events
      /\ same_tables (snd result) db
      /\ rtx4090_price Platform.vast < rtx4090_price Platform.runpod
      /\ rtx4090_price Platform.runpod < rtx4090_price Platform.lambda.
Proof.
  intros required_capacity db result.
  assert (Hnodes : forall node,
             from_provider Platform.default_providers
               [Platform.vast; Platform.runpod; Platform.lambda] node ->
             Platform.GPUNode.status node = "available"
             /\ Platform.GPUNode.current_project_id node = None
             /\ Platform.GPUNode.gpu_type node = "rtx4090"
             /\ Platform.GPUNode.hourly_cost node
                = rtx4090_price (Platform.GPUNode.provider node)
             /\ from_provider Platform.default_providers
                  [Platform.vast; Platform.runpod; Platform.lambda] node).
  { intros node F. pose proof F as (name & count & e & inst & _ & Hin & Ha).
    apply default_launch_rtx4090 in Hin. destruct Hin as [Hg Hc].
    destruct Ha as (Hp & _ & Hg' & Hc' & _ & Hs & Hn).
    rewrite Hg', Hc', Hp, Hg, Hc. now repeat split. }
  assert (Hprices : rtx4090_price Platform.vast < rtx4090_price Platform.runpod
                    /\ rtx4090_price Platform.runpod < rtx4090_price Platform.lambda)
    by (split; reflexivity).
  subst result. unfold Platform.scale_up. cbv zeta.
  fold (available (Platform.log (Platform.CallScaleUp required_capacity) db)).
  change (available (Platform.log (Platform.CallScaleUp required_capacity) db))
    with (available db).
  destruct (available db >=? required_capacity)%Z eqn:E.
  - rewrite Z.geb_leb in E. apply Z.leb_le in E.
    exists [], []. cbn [fst snd Platform.gpu_nodes Platform.log Platform.trace map
                        List.length in_order].
    rewrite app_nil_r. repeat split; try constructor; try apply Hprices; lia.
  - rewrite Z.geb_leb in E. apply Z.leb_gt in E.
    match goal with
    | |- context [Platform.provider_loop ?p ?names ?s0] =>
        destruct (provider_loop_spec p names s0)
          as (added & events & Hn & Hi & Hf & Hk & Ht & Ho & Hs & _);
        pose proof (provider_loop_default_remaining names s0) as Hr
    end.
    rewrite Hr in Hk. cbn [Platform.nodes_to_add] in Hk.
    rewrite remaining_three in Hk by lia.
    exists added, events. cbn [fst snd]. rewrite Hn, Hi, Ht.
    cbn [Platform.su_db Platform.new_nodes Platform.log Platform.gpu_nodes
         Platform.trace app] in *.
    split; [reflexivity|]. split; [reflexivity|].
    split; [lia|]. split; [unfold available in *; lia|].
    split; [eapply Forall_impl; [exact Hnodes|exact Hf]|].
    split; [now rewrite <- app_assoc|]. split; [exact Ho|]. split; [exact Hs|].
    exact Hprices.
Qed.

(** Fewer than asked: twenty nodes are requested from an empty cluster,
    fifteen are created, five by each adapter. *)
Example scale_up_partial :
  map Platform.GPUNode.provider
    (Platform.gpu_nodes
       (snd (Platform.scale_up Platform.default_providers 20
               (Platform.mkDB [] [] [] [] sample_entropy []))))
  = (repeat Platform.vast 5 ++ repeat Platform.runpod 5 ++ repeat Platform.lambda 5)%list
  /\ Platform.trace
       (snd (Platform.scale_up Platform.default_providers 20
               (Platform.mkDB [] [] [] [] sample_entropy [])))
     = [Platform.CallScaleUp 20; Platform.CallLaunch Platform.vast 5 "rtx4090";
        Platform.CallLaunch Platform.runpod 5 "rtx4090";
        Platform.CallLaunch Platform.lambda 5 "rtx4090"].
Proof. split; reflexivity. Qed.

(** ** Assignment *)

(** The filter of [assign_project_to_node]: an available node of a GPU
    class that suits the duration. *)
Definition suits (duration_minutes : Z) (node : Platform.GPUNode.t) : bool :=
  Platform.is_available node
  && Platform.gpu_type_in (Platform.gpu_types_for duration_minutes) node.

Lemma best_node_some (duration_minutes : Z) (db : Platform.DB) (i : nat)
    (node : Platform.GPUNode.t) :
  Platform.best_node duration_minutes db = Some (i, node) ->
  nth_error (Platform.gpu_nodes db) i = Some node /\ suits duration_minutes node = true.
Proof.
  unfold Platform.best_node. intro H.
  assert (Hin : In (i, node)
                  (order_by Platform.best_first
                     (filter (fun r => suits duration_minutes (snd r))
                        (indexed (Platform.gpu_nodes db))))).
  { unfold suits. destruct (order_by _ _) as [|r l]; [discriminate|].
    injection H as ->. now left. }
  apply order_by_in, filter_In in Hin. destruct Hin as [H1 H2].
  split; [now apply indexed_in|exact H2].
Qed.

Lemma best_node_none (duration_minutes : Z) (db : Platform.DB) :
  Platform.best_node duration_minutes db = None ->
  existsb (suits duration_minutes) (Platform.gpu_nodes db) = false.
Proof.
  unfold Platform.best_node. intro H.
  destruct (existsb _ _) eqn:E; [|reflexivity].
  apply existsb_exists in E. destruct E as (node & Hin & Hs).
  apply In_nth_error in Hin. destruct Hin as [i Hi].
  assert (F : In (i, node)
                (filter (fun r => suits duration_minutes (snd r))
                   (indexed (Platform.gpu_nodes db))))
    by (apply filter_In; split; [now apply indexed_in|exact Hs]).
  unfold suits in F.
  destruct (order_by _ _) as [|r l] eqn:O; [|discriminate].
  apply order_by_nil in O. rewrite O in F. contradiction.
Qed.

(** C7.  When no available node has a GPU class that suits the duration,
    [assign_project_to_node] returns [None] without raising, and what it
    does to the state is what one call [scale_up(1)] does: the trace
    gains that one call, followed only by the launches it makes.  When
    some node suits, one such node is picked, its identifier is
    returned, its row becomes ['busy'] with [current_project_id] set to
    the project, every other row is as before and nothing is scaled. *)
Theorem assign_books_or_scales_up :
  forall (providers : Platform.ProviderName -> Platform.Provider)
         (project_id : string) (duration_minutes : Z) (db : Platform.DB),
    let result :=
      Platform.assign_project_to_node providers project_id duration_minutes db in
    if existsb (suits duration_minutes) (Platform.gpu_nodes db) then
      exists i node,
        nth_error (Platform.gpu_nodes db) i = Some node
        /\ suits duration_minutes node = true
        /\ fst result = Some (Platform.GPUNode.id node)
        /\ (exists node',
              nth_error (Platform.gpu_nodes (snd result)) i = Some node'
              /\ Platform.GPUNode.id node' = Platform.GPUNode.id node
              /\ Platform.GPUNode.status node' = "busy"
              /\ Platform.GPUNode.current_project_id node' = Some project_id)
        /\ (forall j, j <> i ->
              nth_error (Platform.gpu_nodes (snd result)) j
              = nth_error (Platform.gpu_nodes db) j)
        /\ Platform.trace (snd result) = Platform.trace db
    else
      result = (None, snd (Platform.scale_up providers 1 db))
      /\ exists events,
           Platform.trace (snd result)
           = (Platform.trace db ++ Platform.CallScaleUp 1 :: events)%list
           /\ in_order [Platform.vast; Platform.runpod; Platform.lambda] events.
Proof.
  intros providers pid d db result. subst result.
  unfold Platform.assign_project_to_node.
  destruct (Platform.best_node d db) as [[i node]|] eqn:B.
  - apply best_node_some in B. destruct B as [Hi Hs].
    assert (E : existsb (suits d) (Platform.gpu_nodes db) = true).
    { apply existsb_exists. exists node. split; [|exact Hs].
      eapply nth_error_In. exact Hi. }
    rewrite E. exists i, node. cbn [fst snd Platform.gpu_nodes Platform.set_gpu_nodes
                                     Platform.trace].
    split; [exact Hi|]. split; [exact Hs|]. split; [reflexivity|]. split.
    + exists (Platform.GPUNode.assign pid node).
      rewrite nth_error_update_nth, Nat.eqb_refl, Hi. now repeat split.
    + split; [|reflexivity]. intros j Hj. rewrite nth_error_update_nth.
      destruct (Nat.eqb i j) eqn:Eij; [|reflexivity].
      apply Nat.eqb_eq in Eij. congruence.
  - rewrite (best_node_none d db B).
    destruct (Platform.scale_up providers 1 db) as [ids db1] eqn:S.
    split; [reflexivity|]. cbn [snd].
    destruct (scale_up_spec providers 1 db)
      as (added & events & _ & _ & _ & Ht & Ho & _).
    rewrite S in Ht. cbn [snd] in Ht. now exists events.
Qed.

(** A cluster whose only nodes are ['rtx4090'] nodes, and an empty one. *)
Definition small_cluster : Platform.DB :=
  Platform.mkDB [] [] [] (firstn 2 sample_nodes) sample_entropy [].

Definition empty_cluster : Platform.DB :=
  Platform.mkDB [] [] [] [] sample_entropy [].

Lemma assign_witness :
  Platform.assign_project_to_node Platform.default_providers "p2" 120 small_cluster
  = (None, snd (Platform.scale_up Platform.default_providers 1 small_cluster)).
Proof.
  exact (proj1 (assign_books_or_scales_up Platform.default_providers "p2" 120
                  small_cluster)).
Defined.

(** A ten-minute project is booked on the cheaper of the two idle
    ['rtx4090'] nodes.  A two-hour project on an empty cluster gets no
    node, and the one [scale_up(1)] launches one Vast instance.  On the
    small cluster it gets no node either, and the one [scale_up(1)]
    launches nothing, because a node of another class is available. *)
Example assign_sample :
  fst (Platform.assign_project_to_node Platform.default_providers "p1" 10 sample_cluster)
  = Some "n0"
  /\ map (fun n => (Platform.GPUNode.status n, Platform.GPUNode.current_project_id n))
       (Platform.gpu_nodes
          (snd (Platform.assign_project_to_node Platform.default_providers "p1" 10
                  sample_cluster)))
     = [("busy", Some "p1"); ("busy", Some "p9"); ("available", None);
        ("available", Some "p7")]
  /\ fst (Platform.assign_project_to_node Platform.default_providers "p2" 120
            empty_cluster) = None
  /\ Platform.trace
       (snd (Platform.assign_project_to_node Platform.default_providers "p2" 120
               empty_cluster))
     = [Platform.CallScaleUp 1; Platform.CallLaunch Platform.vast 1 "rtx4090"]
  /\ Platform.trace
       (snd (Platform.assign_project_to_node Platform.default_providers "p2" 120
               small_cluster))
     = [Platform.CallScaleUp 1].
Proof. repeat split. Qed.

(* ================================================================= *)
(** * Further coverage *)

From Stdlib Require Import Ascii.

(* ================================================================= *)
(** * Further code of the main API *)

(** ** Queries and read endpoints: [crud.py], [main.py] *)

Module MainQueries.
Import Crud.

(** An endpoint either answers or raises
    [HTTPException(status_code, detail)] with a literal detail text. *)
Inductive reply (A : Type) : Type :=
| Answer (a : A)
| HTTPError (status_code : Z) (detail : string).
Arguments Answer {A} a.
Arguments HTTPError {A} status_code detail.

Definition owned_by (user_id : string) (p : Project.t) : bool :=
  String.eqb (Project.user_id p) user_id.

(** [crud.get_user_projects]: [filter(...).offset(skip).limit(limit).all()];
    [skip] and [limit] are counts of rows. *)
Definition get_user_projects (db : DB) (user_id : string) (skip limit : nat)
    : list Project.t :=
  firstn limit (skipn skip (filter (owned_by user_id) (projects db))).

(** [GET /api/v1/projects] *)
Definition list_projects (skip limit : nat) (current_user : User.t) (db : DB)
    : list Project.t :=
  get_user_projects db (User.id current_user) skip limit.

(** [schemas.ProjectStatus], without the timestamps. *)
Record ProjectStatus : Type := mkProjectStatus {
  ps_project_id : string;
  ps_title : string;
  ps_status : string;
  ps_progress : Z;
  ps_film_url : option string
}.

(** [GET /api/v1/projects/{project_id}] *)
Definition get_project_status (project_id : string) (current_user : User.t)
    (db : DB) : reply ProjectStatus :=
  match get_project db project_id with
  | None => HTTPError 404 "Project not found"
  | Some project =>
      if negb (String.eqb (Project.user_id project) (User.id current_user)) then
        HTTPError 403 "Not authorized"
      else
        Answer (mkProjectStatus (Project.id project) (Project.title project)
                  (Project.status project) (Project.progress project)
                  (Project.film_url project))
  end.

End MainQueries.

(** ** Properties of the main API *)





(** X2.  Registration and lookup by e-mail.  With an address that is
    not in the table, [register] succeeds, reports ten credits, and the
    address then resolves to the new user; registering the same address
    again, whatever the password, is refused with 400 and changes
    nothing. *)
Theorem register_then_lookup :
  forall (user_data : Crud.UserCreate) (db : Crud.DB) (other_password : string),
    Crud.get_user_by_email db (Crud.uc_email user_data) = None ->
    exists tok db' user,
      Main.register user_data db = (Ok tok, db')
      /\ Main.tk_credits tok = flt 10.0
      /\ Crud.get_user_by_email db' (Crud.uc_email user_data) = Some user
      /\ Crud.User.id user = Main.tk_user_id tok
      /\ Crud.User.credits user = flt 10.0
      /\ Crud.users db' = (Crud.users db ++ [user])%list
      /\ Main.register (Crud.mkUserCreate (Crud.uc_email user_data) other_password) db'
         = (Raise (HTTPException 400 EmailAlreadyRegistered), db').
Proof.
  intros user_data db pw H. unfold Main.register at 1. rewrite H.
  cbn [Crud.create_user token_hex].
  assert (L : Crud.get_user_by_email
                (Crud.mkDB
                   (Crud.users db
                    ++ [Crud.User.mk (tape (Crud.entropy db) 16 (drawn (Crud.entropy db)))
                          (Crud.uc_email user_data) (flt 10.0) "free" false])
                   (Crud.projects db) (Crud.transactions db)
                   (mkEntropy (tape (Crud.entropy db)) (S (drawn (Crud.entropy db)))))
                (Crud.uc_email user_data)
              = Some (Crud.User.mk (tape (Crud.entropy db) 16 (drawn (Crud.entropy db)))
                        (Crud.uc_email user_data) (flt 10.0) "free" false)).
  { unfold Crud.get_user_by_email in *. cbn [Crud.users].
    rewrite find_app_last, H. unfold Crud.has_email. cbn [Crud.User.email].
    now rewrite String.eqb_refl. }
  do 3 eexists. split; [reflexivity|]. split; [reflexivity|].
  split; [exact L|]. split; [reflexivity|]. split; [reflexivity|].
  split; [reflexivity|].
  unfold Main.register. cbn [Crud.uc_email]. now rewrite L.
Qed.

Lemma register_then_lookup_witness :
  exists tok db',
    Main.register (Crud.mkUserCreate "bob@example.com" "secret") sample_main_db
    = (Ok tok, db')
    /\ Main.register (Crud.mkUserCreate "bob@example.com" "other") db'
       = (Raise (HTTPException 400 EmailAlreadyRegistered), db').
Proof.
  destruct (register_then_lookup (Crud.mkUserCreate "bob@example.com" "secret")
              sample_main_db "other" eq_refl)
    as (tok & db' & user & H & _ & _ & _ & _ & _ & R).
  exists tok, db'. split; [exact H|exact R].
Defined.

(** *** Paging through a user's projects *)

Lemma firstn_add_skipn {A : Type} (a b : nat) (l : list A) :
  firstn (a + b) l = (firstn a l ++ firstn b (skipn a l))%list.
Proof.
  revert l. induction a as [|a IH]; intro l; [reflexivity|].
  destruct l as [|x l]; simpl.
  - now destruct b.
  - now rewrite IH.
Qed.

Lemma skipn_add {A : Type} (a b : nat) (l : list A) :
  skipn (a + b) l = skipn b (skipn a l).
Proof.
  revert l. induction a as [|a IH]; intro l; [reflexivity|].
  destruct l as [|x l]; simpl; [now destruct b|apply IH].
Qed.


(** X4.  [get_project_status] answers only the owner: an unknown id is
    a 404, a project of another user is a 403, and an answer always
    describes a stored project whose [user_id] is the caller's id. *)
Theorem project_status_only_for_owner :
  forall (project_id : string) (current_user : Crud.User.t) (db : Crud.DB),
    match MainQueries.get_project_status project_id current_user db with
    | MainQueries.Answer st =>
        exists project,
          Crud.get_project db project_id = Some project
          /\ Crud.Project.user_id project = Crud.User.id current_user
          /\ Crud.Project.id project = project_id
          /\ MainQueries.ps_status st = Crud.Project.status project
          /\ MainQueries.ps_progress st = Crud.Project.progress project
          /\ MainQueries.ps_film_url st = Crud.Project.film_url project
    | MainQueries.HTTPError code detail =>
        (code = 404%Z /\ detail = "Project not found"
         /\ Crud.get_project db project_id = None)
        \/ (code = 403%Z /\ detail = "Not authorized"
            /\ exists project,
                 Crud.get_project db project_id = Some project
                 /\ Crud.Project.user_id project <> Crud.User.id current_user)
    end.
Proof.
  intros pid u db. unfold MainQueries.get_project_status.
  destruct (Crud.get_project db pid) as [p|] eqn:G; [|left; now repeat split].
  destruct (String.eqb (Crud.Project.user_id p) (Crud.User.id u)) eqn:E; cbn [negb].
  - apply String.eqb_eq in E. exists p. repeat split; try assumption.
    unfold Crud.get_project in G. apply find_some in G.
    destruct G as [_ G]. now apply String.eqb_eq in G.
  - apply String.eqb_neq in E. right. repeat split. now exists p.
Qed.

(** *** What the background task leaves alone *)

(** Everything but the row of project [pid] is the same in both states. *)
Definition only_project_differs (pid : string) (db db' : Crud.DB) : Prop :=
  Crud.users db' = Crud.users db
  /\ Crud.transactions db' = Crud.transactions db
  /\ Crud.entropy db' = Crud.entropy db
  /\ List.length (Crud.projects db') = List.length (Crud.projects db)
  /\ forall pid', pid' <> pid -> Crud.get_project db' pid' = Crud.get_project db pid'.

Lemma only_project_differs_refl (pid : string) (db : Crud.DB) :
  only_project_differs pid db db.
Proof. now repeat split. Qed.

Lemma only_project_differs_trans (pid : string) (a b c : Crud.DB) :
  only_project_differs pid a b -> only_project_differs pid b c ->
  only_project_differs pid a c.
Proof.
  intros (U1 & T1 & E1 & L1 & P1) (U2 & T2 & E2 & L2 & P2).
  repeat split; try congruence.
  intros pid' H. rewrite (P2 pid' H). now apply P1.
Qed.

Lemma only_project_differs_row (pid : string) (db : Crud.DB)
    (f : Crud.Project.t -> Crud.Project.t) :
  (forall p, Crud.Project.id (f p) = Crud.Project.id p) ->
  only_project_differs pid db
    (Crud.set_projects db (update_first (Crud.is_project pid) f (Crud.projects db))).
Proof.
  intro Hid. repeat split.
  - cbn. apply update_first_length.
  - intros pid' H. unfold Crud.get_project. cbn [Crud.set_projects Crud.projects].
    apply find_update_first_other.
    + intro p. unfold Crud.is_project. now rewrite Hid.
    + intros p Hp. unfold Crud.is_project in *. apply String.eqb_eq in Hp.
      rewrite Hp. apply String.eqb_neq. congruence.
Qed.

Lemma update_status_only (pid status : string) (progress : Z) (db : Crud.DB) :
  only_project_differs pid db (Crud.update_project_status db pid status progress).
Proof. now apply only_project_differs_row. Qed.

Lemma complete_only (pid film_url : string) (db : Crud.DB) :
  only_project_differs pid db (Crud.complete_project db pid film_url).
Proof. now apply only_project_differs_row. Qed.

Lemma fail_only (pid error : string) (db : Crud.DB) :
  only_project_differs pid db (Crud.fail_project db pid error).
Proof. now apply only_project_differs_row. Qed.

(** Closes a goal about a state reached by a chain of the three writes. *)
Ltac chain_of_writes :=
  repeat first
    [ apply only_project_differs_refl
    | eapply only_project_differs_trans; [|apply fail_only]
    | eapply only_project_differs_trans; [|apply complete_only]
    | eapply only_project_differs_trans; [|apply update_status_only] ].

(** X5.  Whatever the collaborators do, the background task writes to
    one project row and to nothing else: the users with their balances
    and the transactions are as before, so a project that fails after
    its debit gets no refund, and every other project is untouched. *)
Theorem background_task_writes_one_row :
  forall (Script Storyboard : Type) (ext : Main.External Script Storyboard)
         (project_id : string) (project_data : Crud.ProjectCreate) (db : Crud.DB),
    let db' :=
      snd (Main.generate_film_async Script Storyboard ext project_id project_data db) in
    Crud.users db' = Crud.users db
    /\ Crud.transactions db' = Crud.transactions db
    /\ List.length (Crud.projects db') = List.length (Crud.projects db)
    /\ (forall uid, MainLedger.balance db' uid = MainLedger.balance db uid)
    /\ (forall pid', pid' <> project_id ->
          Crud.get_project db' pid' = Crud.get_project db pid').
Proof.
  intros Script Storyboard ext pid data db db'.
  assert (H : only_project_differs pid db db').
  { subst db'. unfold Main.generate_film_async.
    destruct (Crud.pc_include_script data), (Crud.pc_include_storyboard data);
      run_task; chain_of_writes. }
  destruct H as (U & T & _ & L & P).
  repeat split; try assumption.
  intro uid. unfold MainLedger.balance. now rewrite U.
Qed.

(** *** The row the background task leaves behind *)

Lemma get_project_written (pid : string) (db : Crud.DB)
    (f : Crud.Project.t -> Crud.Project.t) :
  (forall p, Crud.Project.id (f p) = Crud.Project.id p) ->
  Crud.get_project
    (Crud.set_projects db (update_first (Crud.is_project pid) f (Crud.projects db))) pid
  = option_map f (Crud.get_project db pid).
Proof.
  intro Hid. unfold Crud.get_project. cbn [Crud.set_projects Crud.projects].
  apply find_update_first_same. intro p. unfold Crud.is_project. now rewrite Hid.
Qed.

(** The part of a row that no stage of the pipeline changes. *)
Definition same_request (p p' : Crud.Project.t) : Prop :=
  Crud.Project.id p' = Crud.Project.id p
  /\ Crud.Project.user_id p' = Crud.Project.user_id p
  /\ Crud.Project.title p' = Crud.Project.title p
  /\ Crud.Project.duration_minutes p' = Crud.Project.duration_minutes p
  /\ Crud.Project.cost p' = Crud.Project.cost p.

(** How a run may leave the row: completed, or failed at some stage. *)
Definition finished (p p' : Crud.Project.t) : Prop :=
  same_request p p'
  /\ ((Crud.Project.status p' = "complete"
       /\ Crud.Project.progress p' = 100%Z
       /\ (exists url, Crud.Project.film_url p' = Some url)
       /\ Crud.Project.metadata p' = Crud.Project.metadata p)
      \/ (Crud.Project.status p' = "failed"
          /\ In (Crud.Project.progress p') [10%Z; 30%Z; 50%Z]
          /\ Crud.Project.film_url p' = Crud.Project.film_url p
          /\ exists error,
               Crud.Project.metadata p'
               = Crud.ErrorLine (Crud.Project.metadata p) error)).

(** X6.  For a project that exists, a run of the background task ends
    with the row either complete, with progress 100 and a film URL, or
    failed, with the progress of the last stage reached (10, 30 or 50),
    the film URL it had and exactly one error line appended to its
    metadata.  Owner, title, duration and cost are never changed. *)
Theorem background_task_final_row :
  forall (Script Storyboard : Type) (ext : Main.External Script Storyboard)
         (project_id : string) (project_data : Crud.ProjectCreate) (db : Crud.DB)
         (p : Crud.Project.t),
    Crud.get_project db project_id = Some p ->
    exists p',
      Crud.get_project
        (snd (Main.generate_film_async Script Storyboard ext project_id project_data db))
        project_id = Some p'
      /\ finished p p'.
Proof.
  intros Script Storyboard ext pid data db p H.
  unfold Main.generate_film_async.
  destruct (Crud.pc_include_script data), (Crud.pc_include_storyboard data);
    run_task;
    unfold Crud.fail_project, Crud.complete_project, Crud.update_project_status;
    rewrite ?get_project_written by reflexivity;
    rewrite H; cbn [option_map]; eexists; (split; [reflexivity|]);
    unfold finished, same_request; cbn;
    (split; [now repeat split|]);
    first [ left; repeat split; eauto; fail
          | right; repeat split; eauto ].
Qed.

Lemma background_task_final_row_witness :
  exists p',
    Crud.get_project
      (snd (Main.generate_film_async unit unit happy_ext "t0" script_only
              sample_project_db)) "t0" = Some p'
    /\ Crud.Project.cost p' = flt 20.
Proof.
  destruct (background_task_final_row unit unit happy_ext "t0" script_only
              sample_project_db _ eq_refl) as (p' & H & (_ & _ & _ & _ & C) & _).
  exists p'. split; [exact H|exact C].
Defined.

(* ================================================================= *)
(** * Further code of the monetization platform *)

(** ** Debits of [CreditManager.use_credits] *)

(** The price a tier puts on a duration. *)
Definition tier_cost (tier : Platform.Tier) (duration_minutes : Z) : Qc :=
  of_int duration_minutes
  * Platform.price_per_minute (Platform.SUBSCRIPTION_TIERS tier).

(** X7.  [use_credits] either debits or writes nothing.  When it
    succeeds, the amount is the duration times the per-minute price of
    the user's tier, and the balance it leaves, which it also returns,
    is not negative.  When it raises, the state is untouched, and the
    reason is an unknown user or a balance below that amount. *)
Theorem use_credits_never_overdraws :
  forall (user_id project_id : string) (duration_minutes : Z) (db : Platform.DB),
    match Platform.use_credits user_id project_id duration_minutes db with
    | (Ok usage, db') =>
        exists user,
          find (Platform.has_id user_id) (Platform.users db) = Some user
          /\ Platform.credits_used usage
             = tier_cost (Platform.User.subscription_tier user) duration_minutes
          /\ Platform.remaining_credits usage
             = Platform.User.credits user - Platform.credits_used usage
          /\ 0 <= Platform.remaining_credits usage
          /\ PlatformLedger.balance db' user_id
             = Some (Platform.remaining_credits usage)
    | (Raise e, db') =>
        db' = db
        /\ ((e = ValueError "User not found"
             /\ find (Platform.has_id user_id) (Platform.users db) = None)
            \/ exists user,
                 find (Platform.has_id user_id) (Platform.users db) = Some user
                 /\ e = ValueErrorCredits
                          (tier_cost (Platform.User.subscription_tier user)
                             duration_minutes)
                          (Platform.User.credits user)
                 /\ Platform.User.credits user
                    < tier_cost (Platform.User.subscription_tier user)
                        duration_minutes)
    end.
Proof.
  intros uid pid d db.
  pose proof (platform_use_credits_outcome db uid pid d) as H.
  destruct (find (Platform.has_id uid) (Platform.users db)) as [u|] eqn:F.
  - cbv zeta in H. fold (tier_cost (Platform.User.subscription_tier u) d) in H.
    destruct (Qcltb _ _) eqn:E.
    + rewrite H. split; [reflexivity|]. right. exists u.
      apply Qcltb_true in E. now repeat split.
    + destruct H as (tx & -> & _). exists u.
      cbn [Platform.credits_used Platform.remaining_credits].
      apply Qcltb_false in E.
      split; [reflexivity|]. split; [reflexivity|]. split; [reflexivity|]. split.
      * unfold Qcminus. now apply Qcle_minus_iff in E.
      * unfold PlatformLedger.balance. cbn [Platform.users].
        apply (platform_balance_after db uid _ u F).
  - rewrite H. split; [reflexivity|]. left. now split.
Qed.

(** ** Project creation on the platform *)


(** The state in which [create_project] calls [use_credits]: the tokens
    for the project id drawn, the project row added to the session. *)
Definition with_project (project : Platform.ProjectRequest) (user_id : string)
    (total : Qc) (db : Platform.DB) : Platform.DB :=
  Platform.add_project
    (Platform.Project.mk (fst (Platform.fresh 16 db)) user_id
       (Platform.q_title project) (Platform.q_duration_minutes project)
       (Platform.q_format project) "queued" total)
    (snd (Platform.fresh 16 db)).

Lemma platform_create_project_priced (project : Platform.ProjectRequest)
    (user_id : string) (db : Platform.DB) (user : Platform.User.t)
    (costs : PricingEngine.Costs) :
  find (Platform.has_id user_id) (Platform.users db) = Some user ->
  over_tier_limit (Platform.User.subscription_tier user)
    (Platform.q_duration_minutes project) = false ->
  PricingEngine.calculate_project_cost
    (Platform.q_duration_minutes project) (Platform.q_include_script project)
    (Platform.q_include_storyboard project) (Platform.q_quality project) false
  = Ok costs ->
  PricingEngine.total costs <= Platform.User.credits user ->
  Platform.create_project project user_id db
  = match Platform.use_credits user_id (fst (Platform.fresh 16 db))
            (Platform.q_duration_minutes project)
            (with_project project user_id (PricingEngine.total costs) db) with
    | (Raise e, _) => (Raise e, snd (Platform.fresh 16 db))
    | (Ok _, db2) =>
        let (node_id, db3) :=
          Platform.assign_project_to_node Platform.default_providers
            (fst (Platform.fresh 16 db)) (Platform.q_duration_minutes project) db2 in
        (Ok (Platform.mkProjectCreated (fst (Platform.fresh 16 db)) "queued"
               (PricingEngine.total costs) node_id), db3)
    end.
Proof.
  intros F L C H. unfold Platform.create_project, over_tier_limit in *.
  rewrite F. cbv zeta. rewrite L, C.
  apply Qcltb_false in H. rewrite H. reflexivity.
Qed.


(** X9.  Between the two prices lies a gap.  A request whose
    [PricingEngine] total the balance covers, but whose tier price it
    does not, passes the 402 check and then fails inside [use_credits]
    with a [ValueError]; the project row that was added to the session
    is never committed, and users, projects, transactions and nodes are
    as before. *)
Theorem platform_create_project_price_gap :
  forall (project : Platform.ProjectRequest) (user_id : string) (db : Platform.DB)
         (user : Platform.User.t) (costs : PricingEngine.Costs),
    let debit :=
      tier_cost (Platform.User.subscription_tier user)
        (Platform.q_duration_minutes project) in
    find (Platform.has_id user_id) (Platform.users db) = Some user ->
    over_tier_limit (Platform.User.subscription_tier user)
      (Platform.q_duration_minutes project) = false ->
    PricingEngine.calculate_project_cost
      (Platform.q_duration_minutes project) (Platform.q_include_script project)
      (Platform.q_include_storyboard project) (Platform.q_quality project) false
    = Ok costs ->
    PricingEngine.total costs <= Platform.User.credits user ->
    Platform.User.credits user < debit ->
    exists db',
      Platform.create_project project user_id db
      = (Raise (ValueErrorCredits debit (Platform.User.credits user)), db')
      /\ Platform.users db' = Platform.users db
      /\ Platform.projects db' = Platform.projects db
      /\ Platform.transactions db' = Platform.transactions db
      /\ Platform.gpu_nodes db' = Platform.gpu_nodes db
      /\ Platform.trace db' = Platform.trace db.
Proof.
  intros project uid db user costs debit F L C H D.
  rewrite (platform_create_project_priced project uid db user costs F L C H).
  set (db1 := with_project project uid (PricingEngine.total costs) db).
  set (pid := fst (Platform.fresh 16 db)).
  assert (F1 : find (Platform.has_id uid) (Platform.users db1) = Some user)
    by exact F.
  pose proof (platform_use_credits_outcome db1 uid pid
                (Platform.q_duration_minutes project)) as O.
  rewrite F1 in O. cbv zeta in O.
  fold (tier_cost (Platform.User.subscription_tier user)
          (Platform.q_duration_minutes project)) in O. fold debit in O.
  apply Qcltb_true in D. rewrite D in O. rewrite O.
  eexists. split; [reflexivity|]. now repeat split.
Qed.

Definition frugal_request : Platform.ProjectRequest :=
  Platform.mkProjectRequest "Clip" 5 "short" false false "standard" None.

Definition platform_db_with (credits : Qc) : Platform.DB :=
  Platform.mkDB
    [Platform.User.mk "carol" "carol@example.com" credits Platform.free "r-carol"
       None "k-carol"]
    [] [] [] sample_entropy [].


Lemma platform_create_project_price_gap_witness :
  exists db',
    Platform.create_project frugal_request "carol" (platform_db_with (flt 20))
    = (Raise (ValueErrorCredits (tier_cost Platform.free 5) (flt 20)), db')
    /\ Platform.projects db' = [].
Proof.
  destruct (platform_create_project_price_gap frugal_request "carol"
              (platform_db_with (flt 20)) _ _ eq_refl eq_refl eq_refl)
    as (db' & H & _ & P & _).
  - apply Qcleb_true. reflexivity.
  - reflexivity.
  - exists db'. split; [exact H|exact P].
Defined.

(** ** The choice made by [assign_project_to_node] *)

(** [a] comes before [b] under
    [ORDER BY performance_score DESC, hourly_cost ASC]. *)
Definition better (a b : nat * Platform.GPUNode.t) : Prop :=
  Platform.GPUNode.performance_score (snd b) < Platform.GPUNode.performance_score (snd a)
  \/ (Platform.GPUNode.performance_score (snd a)
      = Platform.GPUNode.performance_score (snd b)
      /\ Platform.GPUNode.hourly_cost (snd a) <= Platform.GPUNode.hourly_cost (snd b)).

Lemma best_first_better (a b : nat * Platform.GPUNode.t) :
  Platform.best_first a b = true <-> better a b.
Proof.
  unfold Platform.best_first, better.
  rewrite orb_true_iff, andb_true_iff, Qcltb_true, Qceqb_true, Qcleb_true.
  reflexivity.
Qed.

Lemma better_total (a b : nat * Platform.GPUNode.t) : better a b \/ better b a.
Proof.
  unfold better.
  destruct (Qclt_le_dec (Platform.GPUNode.performance_score (snd b))
              (Platform.GPUNode.performance_score (snd a))) as [H|H]; [now left; left|].
  apply Qcle_lt_or_eq in H. destruct H as [H|H]; [now right; left|].
  destruct (Qclt_le_dec (Platform.GPUNode.hourly_cost (snd b))
              (Platform.GPUNode.hourly_cost (snd a))) as [C|C].
  - right. right. split; [now symmetry|now apply Qclt_le_weak].
  - left. right. now split.
Qed.

Lemma better_trans (a b c : nat * Platform.GPUNode.t) :
  better a b -> better b c -> better a c.
Proof.
  unfold better. intros [H1|[E1 C1]] [H2|[E2 C2]].
  - left. eapply Qclt_trans; eassumption.
  - left. now rewrite <- E2.
  - left. now rewrite E1.
  - right. split; [congruence|eapply Qcle_trans; eassumption].
Qed.

Lemma best_first_total (a b : nat * Platform.GPUNode.t) :
  Platform.best_first a b = false -> Platform.best_first b a = true.
Proof.
  intro H. apply best_first_better.
  destruct (better_total a b) as [B|B]; [|exact B].
  apply best_first_better in B. congruence.
Qed.

(** The first row of the ordered query comes before every row of it. *)
Lemma best_node_first (duration_minutes : Z) (db : Platform.DB)
    (r r' : nat * Platform.GPUNode.t) :
  Platform.best_node duration_minutes db = Some r ->
  nth_error (Platform.gpu_nodes db) (fst r') = Some (snd r') ->
  suits duration_minutes (snd r') = true ->
  better r r'.
Proof.
  unfold Platform.best_node. intros H Hn Hs.
  assert (Hin : In r'
                  (order_by Platform.best_first
                     (filter (fun r => suits duration_minutes (snd r))
                        (indexed (Platform.gpu_nodes db))))).
  { apply order_by_in, filter_In. split; [|exact Hs].
    destruct r'. now apply indexed_in. }
  pose proof (order_by_sorted Platform.best_first best_first_total
                (filter (fun r => suits duration_minutes (snd r))
                   (indexed (Platform.gpu_nodes db)))) as S.
  unfold suits in *.
  destruct (order_by _ _) as [|h l]; [discriminate|].
  injection H as ->.
  destruct Hin as [<-|Hin].
  - right. split; [reflexivity|apply Qcle_refl].
  - apply Sorted_extends in S.
    + rewrite Forall_forall in S. apply best_first_better. now apply S.
    + intros x y z Hxy Hyz. apply best_first_better.
      apply best_first_better in Hxy. apply best_first_better in Hyz.
      eapply better_trans; eassumption.
Qed.

(** X10.  The node that [assign_project_to_node] books is a best one:
    among the available nodes of a suitable GPU class none has a higher
    performance score, and none with the same score is cheaper. *)
Theorem assign_books_best_node :
  forall (providers : Platform.ProviderName -> Platform.Provider)
         (project_id : string) (duration_minutes : Z) (db : Platform.DB)
         (node_id : string),
    fst (Platform.assign_project_to_node providers project_id duration_minutes db)
    = Some node_id ->
    exists i node,
      nth_error (Platform.gpu_nodes db) i = Some node
      /\ Platform.GPUNode.id node = node_id
      /\ suits duration_minutes node = true
      /\ forall other,
           In other (Platform.gpu_nodes db) ->
           suits duration_minutes other = true ->
           Platform.GPUNode.performance_score other
           <= Platform.GPUNode.performance_score node
           /\ (Platform.GPUNode.performance_score other
               = Platform.GPUNode.performance_score node ->
               Platform.GPUNode.hourly_cost node
               <= Platform.GPUNode.hourly_cost other).
Proof.
  intros providers pid d db node_id H.
  unfold Platform.assign_project_to_node in H.
  destruct (Platform.best_node d db) as [[i node]|] eqn:B.
  - cbn [fst] in H. injection H as <-.
    destruct (best_node_some d db i node B) as [Hi Hs].
    exists i, node. split; [exact Hi|]. split; [reflexivity|]. split; [exact Hs|].
    intros other Hin Hso. apply In_nth_error in Hin. destruct Hin as [j Hj].
    destruct (best_node_first d db (i, node) (j, other) B Hj Hso) as [L|[E C]];
      cbn [snd] in *; split.
    + now apply Qclt_le_weak.
    + intro E. rewrite E in L. apply Qclt_not_le in L.
      exfalso. apply L, Qcle_refl.
    + rewrite E. apply Qcle_refl.
    + intros _. exact C.
  - destruct (Platform.scale_up providers 1 db). discriminate.
Qed.

(** Two suitable idle nodes with the same score: the cheaper is booked;
    a node with a higher score wins over a cheaper one. *)
Definition scored_nodes : list Platform.GPUNode.t :=
  [Platform.GPUNode.mk "m0" Platform.lambda "lambda_a" "rtx4090" (flt 0.50)
     "available" None (flt 1.0) "us-central-1";
   Platform.GPUNode.mk "m1" Platform.vast "vast_b" "rtx4090" (flt 0.35)
     "available" None (flt 1.0) "us-west-2";
   Platform.GPUNode.mk "m2" Platform.runpod "runpod_c" "a100_40gb" (flt 1.19)
     "available" None (flt 2.0) "us-east-1"].

Definition scored_cluster : Platform.DB :=
  Platform.mkDB [] [] [] scored_nodes sample_entropy [].

Lemma assign_books_best_node_witness :
  exists i node,
    nth_error scored_nodes i = Some node
    /\ Platform.GPUNode.id node = "m2".
Proof.
  destruct (assign_books_best_node Platform.default_providers "p1" 10 scored_cluster
              "m2" eq_refl) as (i & node & H & Hid & _).
  exists i, node. split; [exact H|exact Hid].
Defined.

(** ** Assignment followed by scaling down *)





(** ** Capacity after [scale_up] *)

Lemma from_provider_available (providers : Platform.ProviderName -> Platform.Provider)
    (names : list Platform.ProviderName) (node : Platform.GPUNode.t) :
  from_provider providers names node -> Platform.is_available node = true.
Proof.
  intros (name & count & e & inst & _ & _ & Ha).
  destruct Ha as (_ & _ & _ & _ & _ & Hs & _).
  unfold Platform.is_available. rewrite Hs. reflexivity.
Qed.

Lemma filter_all_true {A : Type} (p : A -> bool) (l : list A) :
  Forall (fun x => p x = true) l -> filter p l = l.
Proof.
  induction 1 as [|x l H F IH]; simpl; [reflexivity|]. now rewrite H, IH.
Qed.

(** The rows [scale_up] appends with the adapters of the source. *)
Lemma scale_up_default_added (required_capacity : Z) (db : Platform.DB) :
  exists added,
    Platform.gpu_nodes
      (snd (Platform.scale_up Platform.default_providers required_capacity db))
    = (Platform.gpu_nodes db ++ added)%list
    /\ fst (Platform.scale_up Platform.default_providers required_capacity db)
       = map Platform.GPUNode.id added
    /\ Forall (fun node => Platform.is_available node = true) added
    /\ Z.of_nat (List.length added)
       = Z.min (Z.max 0 (required_capacity - available db)) 15.
Proof.
  unfold Platform.scale_up. cbv zeta.
  fold (available (Platform.log (Platform.CallScaleUp required_capacity) db)).
  change (available (Platform.log (Platform.CallScaleUp required_capacity) db))
    with (available db).
  destruct (available db >=? required_capacity)%Z eqn:E.
  - rewrite Z.geb_leb in E. apply Z.leb_le in E.
    exists []. cbn [fst snd Platform.gpu_nodes Platform.log map List.length].
    rewrite app_nil_r. repeat split; try constructor. lia.
  - rewrite Z.geb_leb in E. apply Z.leb_gt in E.
    match goal with
    | |- context [Platform.provider_loop ?p ?names ?s0] =>
        destruct (provider_loop_spec p names s0)
          as (added & events & Hn & Hi & Hf & Hk & _);
        pose proof (provider_loop_default_remaining names s0) as Hr
    end.
    rewrite Hr in Hk. cbn [Platform.nodes_to_add] in Hk.
    rewrite remaining_three in Hk by lia.
    exists added. cbn [fst snd]. rewrite Hn, Hi.
    cbn [Platform.su_db Platform.new_nodes Platform.log Platform.gpu_nodes app].
    split; [reflexivity|]. split; [reflexivity|]. split; [|lia].
    eapply Forall_impl; [|exact Hf]. intro node. apply from_provider_available.
Qed.

Lemma available_after_scale_up (required_capacity : Z) (db : Platform.DB) :
  available (snd (Platform.scale_up Platform.default_providers required_capacity db))
  = (available db + Z.min (Z.max 0 (required_capacity - available db)) 15)%Z.
Proof.
  destruct (scale_up_default_added required_capacity db) as (added & Hn & _ & Hf & Hk).
  unfold available at 1. rewrite Hn, filter_app, length_app, Nat2Z.inj_add.
  rewrite (filter_all_true _ added Hf), Hk. reflexivity.
Qed.

(** X12.  With the adapters of the source, [scale_up(n)] raises the
    number of available nodes by what is missing, fifteen at most.  So
    when no more than fifteen are missing, the cluster has at least [n]
    available nodes afterwards, and asking for [n] once more launches
    nothing and adds no row. *)
Theorem scale_up_reaches_capacity :
  forall (required_capacity : Z) (db : Platform.DB),
    (required_capacity <= available db + 15)%Z ->
    let db' :=
      snd (Platform.scale_up Platform.default_providers required_capacity db) in
    available db' = Z.max (available db) required_capacity
    /\ fst (Platform.scale_up Platform.default_providers required_capacity db') = []
    /\ Platform.gpu_nodes
         (snd (Platform.scale_up Platform.default_providers required_capacity db'))
       = Platform.gpu_nodes db'.
Proof.
  intros n db H db'.
  assert (A : available db' = Z.max (available db) n).
  { subst db'. rewrite available_after_scale_up. lia. }
  split; [exact A|].
  destruct (scale_up_default_added n db') as (added & Hn & Hi & _ & Hk).
  assert (added = []).
  { destruct added; [reflexivity|]. cbn [List.length] in Hk. lia. }
  subst added. rewrite Hn, Hi, app_nil_r. now split.
Qed.

Lemma scale_up_reaches_capacity_witness :
  available (snd (Platform.scale_up Platform.default_providers 7 small_cluster)) = 7%Z.
Proof.
  apply (proj1 (scale_up_reaches_capacity 7 small_cluster ltac:(vm_compute; discriminate))).
Defined.

(** ** Cluster metrics: [GPUOrchestrator.get_cluster_status] *)

Module ClusterStatus.
Import Platform.

Definition is_busy (n : GPUNode.t) : bool := String.eqb (GPUNode.status n) "busy".

(** [status.in_(['available', 'busy'])] *)
Definition is_running (n : GPUNode.t) : bool :=
  existsb (String.eqb (GPUNode.status n)) ["available"; "busy"].

(** The dictionary the method returns. *)
Record t : Type := mk {
  total_nodes : Z;
  available_nodes : Z;
  busy_nodes : Z;
  utilization : Qc;
  hourly_cost : Qc;
  daily_cost : Qc;
  monthly_cost : Qc
}.

Definition get_cluster_status (db : DB) : t :=
  let total_nodes := Z.of_nat (List.length (gpu_nodes db)) in
  let available := Z.of_nat (List.length (filter is_available (gpu_nodes db))) in
  let busy := Z.of_nat (List.length (filter is_busy (gpu_nodes db))) in
  let hourly_cost := map GPUNode.hourly_cost (filter is_running (gpu_nodes db)) in
  let total_hourly_cost := fold_left Qcplus hourly_cost 0 in
  mk total_nodes available busy
     (if (total_nodes >? 0)%Z then of_int busy / of_int total_nodes * flt 100 else 0)
     total_hourly_cost
     (total_hourly_cost * flt 24)
     (total_hourly_cost * flt 24 * flt 30).

End ClusterStatus.

Lemma of_int_ratio_bounds (b t : Z) :
  (0 <= b <= t)%Z -> (0 < t)%Z ->
  0 <= of_int b / of_int t * flt 100 /\ of_int b / of_int t * flt 100 <= flt 100.
Proof.
  intros Hb Ht. unfold Qcle, of_int, flt, Qcdiv, Qcmult, Qcinv.
  cbn [this Q2Qc]. rewrite !Qred_correct.
  assert (T : (0 < inject_Z t)%Q) by (unfold Qlt; simpl; lia).
  assert (B : (0 <= inject_Z b)%Q) by (unfold Qle; simpl; lia).
  assert (BT : (inject_Z b <= inject_Z t)%Q) by (unfold Qle; simpl; lia).
  assert (R0 : (0 <= inject_Z b * / inject_Z t)%Q).
  { apply Qle_shift_div_l; [exact T|]. now rewrite Qmult_0_l. }
  assert (R1 : (inject_Z b * / inject_Z t <= 1)%Q).
  { apply Qle_shift_div_r; [exact T|]. now rewrite Qmult_1_l. }
  split.
  - apply Qmult_le_0_compat; [exact R0|discriminate].
  - setoid_replace (100 : Q) with (1 * 100)%Q at 2 by reflexivity.
    apply Qmult_le_compat_r; [exact R1|discriminate].
Qed.

Lemma exclusive_filters_length {A : Type} (p q : A -> bool) (l : list A) :
  (forall x, p x = true -> q x = false) ->
  (List.length (filter p l) + List.length (filter q l) <= List.length l)%nat.
Proof.
  intro H. induction l as [|x l IH]; simpl; [lia|].
  destruct (p x) eqn:P.
  - rewrite (H x P). simpl. lia.
  - destruct (q x); simpl; lia.
Qed.

(** X13.  The metrics of [get_cluster_status] are consistent: available
    and busy nodes together never exceed the number of rows, the
    utilization lies between 0 and 100, and on an empty table it is 0
    rather than a division by zero. *)
Theorem cluster_status_bounds :
  forall (db : Platform.DB),
    let s := ClusterStatus.get_cluster_status db in
    (0 <= ClusterStatus.available_nodes s)%Z
    /\ (0 <= ClusterStatus.busy_nodes s)%Z
    /\ (ClusterStatus.available_nodes s + ClusterStatus.busy_nodes s
        <= ClusterStatus.total_nodes s)%Z
    /\ 0 <= ClusterStatus.utilization s
    /\ ClusterStatus.utilization s <= flt 100
    /\ (ClusterStatus.total_nodes s = 0%Z -> ClusterStatus.utilization s = 0)
    /\ (ClusterStatus.busy_nodes s = ClusterStatus.total_nodes s ->
        (0 < ClusterStatus.total_nodes s)%Z ->
        ClusterStatus.utilization s = flt 100).
Proof.
  intro db. cbv zeta. unfold ClusterStatus.get_cluster_status.
  cbn [ClusterStatus.available_nodes ClusterStatus.busy_nodes
       ClusterStatus.total_nodes ClusterStatus.utilization].
  pose proof (exclusive_filters_length Platform.is_available ClusterStatus.is_busy
                (Platform.gpu_nodes db)) as X.
  assert (Hx : forall x, Platform.is_available x = true ->
                         ClusterStatus.is_busy x = false).
  { intros x Hx. unfold Platform.is_available, ClusterStatus.is_busy in *.
    apply String.eqb_eq in Hx. now rewrite Hx. }
  specialize (X Hx).
  set (t := List.length (Platform.gpu_nodes db)) in *.
  set (a := List.length (filter Platform.is_available (Platform.gpu_nodes db))) in *.
  set (b := List.length (filter ClusterStatus.is_busy (Platform.gpu_nodes db))) in *.
  split; [lia|]. split; [lia|]. split; [lia|].
  destruct (Z.of_nat t >? 0)%Z eqn:E.
  - apply Z.gtb_lt in E.
    destruct (of_int_ratio_bounds (Z.of_nat b) (Z.of_nat t)) as [L U]; [lia|lia|].
    split; [exact L|]. split; [exact U|]. split; [lia|].
    intros Hbt _. rewrite Hbt. unfold Qcdiv.
    rewrite Qcmult_inv_r; [ring|].
    intro Z0. replace 0 with (of_int 0) in Z0 by qc_closed.
    apply of_int_inj in Z0. lia.
  - split; [apply Qcle_refl|]. split; [apply Qcleb_true; reflexivity|].
    split; [reflexivity|]. intros _ Hpos.
    rewrite Z.gtb_ltb in E. apply Z.ltb_ge in E. lia.
Qed.

(** On the sample cluster: four rows, three of them available, one
    busy, a quarter of the rows in use. *)
Example cluster_status_sample :
  let s := ClusterStatus.get_cluster_status sample_cluster in
  ClusterStatus.total_nodes s = 4%Z
  /\ ClusterStatus.available_nodes s = 3%Z
  /\ ClusterStatus.busy_nodes s = 1%Z
  /\ ClusterStatus.utilization s = flt 25
  /\ ClusterStatus.hourly_cost s = flt 2.48.
Proof. cbv zeta. repeat split; qc_closed. Qed.

(** ** Registration on the platform, the other cases *)

(** X14.  [register] on the platform refuses an e-mail address that is
    taken with a 400 and leaves the state as it was, entropy included.
    Otherwise it appends exactly one user and writes no transaction;
    and when the request names no referrer (no code, an empty code, or
    a code nobody owns) the new user starts with 0 credits and no
    existing row changes. *)
Theorem platform_register_cases :
  forall (registration : Platform.UserRegistration) (db : Platform.DB),
    match Platform.register registration db with
    | (Raise e, db') =>
        e = HTTPException 400 EmailAlreadyRegistered
        /\ db' = db
        /\ find (Platform.has_email (Platform.r_email registration)) (Platform.users db)
           <> None
    | (Ok reg, db') =>
        find (Platform.has_email (Platform.r_email registration)) (Platform.users db)
        = None
        /\ Platform.transactions db' = Platform.transactions db
        /\ Platform.projects db' = Platform.projects db
        /\ List.length (Platform.users db') = S (List.length (Platform.users db))
        /\ (exists others new_user,
              Platform.users db' = (others ++ [new_user])%list
              /\ Platform.User.id new_user = Platform.reg_user_id reg
              /\ Platform.User.email new_user = Platform.r_email registration
              /\ Platform.User.credits new_user = Platform.reg_credits reg
              /\ Platform.User.subscription_tier new_user = Platform.free
              /\ Platform.User.referred_by new_user
                 = Platform.r_referral_code registration
              /\ match Platform.referrer_of registration db with
                 | None => others = Platform.users db
                           /\ Platform.reg_credits reg = flt 0.0
                 | Some _ => Platform.reg_credits reg = flt 10
                 end)
    end.
Proof.
  intros registration db. unfold Platform.register.
  destruct (find (Platform.has_email (Platform.r_email registration))
              (Platform.users db)) as [u|] eqn:F.
  - now repeat split.
  - cbn [Platform.fresh token_hex].
    match goal with
    | |- context [Platform.referrer_of registration ?d] =>
        change (Platform.referrer_of registration d)
          with (Platform.referrer_of registration db)
    end.
    destruct (Platform.referrer_of registration db) as [r|] eqn:R.
    + split; [reflexivity|]. split; [reflexivity|]. split; [reflexivity|].
      cbn [Platform.users Platform.set_users Platform.set_entropy].
      split; [rewrite length_app, update_first_length; simpl; lia|].
      do 2 eexists. split; [reflexivity|]. now repeat split.
    + split; [reflexivity|]. split; [reflexivity|]. split; [reflexivity|].
      cbn [Platform.users Platform.set_users Platform.set_entropy].
      split; [rewrite length_app; simpl; lia|].
      do 2 eexists. split; [reflexivity|]. now repeat split.
Qed.

(** ** Password hashes: [AuthenticationService] *)

Module Auth.

(** [s.split(sep)] for a separator of one character: the pieces
    between the occurrences of [sep], one more than there are
    occurrences. *)
Fixpoint split (sep : ascii) (s : string) : list string :=
  match s with
  | EmptyString => [EmptyString]
  | String c s' =>
      if Ascii.eqb c sep then EmptyString :: split sep s'
      else
        match split sep s' with
        | piece :: rest => String c piece :: rest
        | [] => [String c EmptyString]
        end
  end.


Section Service.

(** [hashlib.pbkdf2_hmac('sha256', password, salt, 100000).hex()] *)
Variable pbkdf2_hex : string -> string -> string.



End Service.
End Auth.







(* ================================================================= *)
(** * Further code of the pricing engine *)

(** ** The two calculators side by side *)

(** X16.  In [PricingEngine] the surcharges add up, they do not
    compound: the total is the subtotal times one, plus a half for
    premium quality, plus one for a rush job.  Leaving the rush fee
    aside, the calculator of [pricing.py] charges the same total for
    every quality string except ["ultra"], for which it charges
    twice as much. *)
Theorem calculators_compared :
  forall (duration_minutes : Z) (include_script include_storyboard : bool)
         (quality : string) (rush : bool),
    match PricingEngine.calculate_project_cost
            duration_minutes include_script include_storyboard quality rush with
    | Ok c =>
        PricingEngine.total c
        = PricingEngine.subtotal c
          * (1 + (if String.eqb quality "premium" then flt 0.5 else 0)
               + (if rush then 1 else 0))
        /\ PricingEngine.subtotal c
           = Pricing.subtotal
               (Pricing.calculate_project_cost
                  duration_minutes include_script include_storyboard quality)
        /\ Pricing.total
             (Pricing.calculate_project_cost
                duration_minutes include_script include_storyboard quality)
           = (if String.eqb quality "ultra" then flt 2 else 1)
             * (PricingEngine.total c - PricingEngine.rush_fee c)
    | Raise _ =>
        Pricing.total
          (Pricing.calculate_project_cost
             duration_minutes include_script include_storyboard quality) = 0
    end.
Proof.
  intros d s b q r.
  assert (P : PricingEngine.premium_quality - 1 = flt 0.5) by qc_closed.
  assert (R : PricingEngine.rush_multiplier - 1 = 1) by qc_closed.
  assert (M1 : flt 1.0 = 1) by qc_closed.
  assert (M2 : flt 2.0 = flt 2) by qc_closed.
  assert (M3 : flt 1.5 = 1 + flt 0.5) by qc_closed.
  destruct (PricingEngine.calculate_project_cost d s b q r) as [c|e] eqn:E.
  - unfold PricingEngine.calculate_project_cost in E.
    destruct (Qceqb _ 0); [discriminate|]. injection E as <-.
    cbn [PricingEngine.total PricingEngine.subtotal PricingEngine.rush_fee].
    rewrite P, R.
    unfold Pricing.calculate_project_cost.
    cbn [Pricing.total Pricing.subtotal Pricing.sum_values fold_left
         Pricing.video Pricing.script Pricing.storyboard].
    rewrite quality_multipliers_lookup.
    rewrite (String.eqb_sym "premium" q), (String.eqb_sym "ultra" q),
      (String.eqb_sym "standard" q).
    change Pricing.video_per_minute with PricingEngine.video_per_minute.
    change Pricing.script_per_minute with PricingEngine.script_per_minute.
    change Pricing.storyboard_flat with PricingEngine.storyboard_flat.
    destruct (String.eqb q "premium") eqn:Ep.
    + apply String.eqb_eq in Ep. subst q.
      replace (String.eqb "premium" "standard") with false by reflexivity.
      replace (String.eqb "premium" "ultra") with false by reflexivity.
      rewrite M3. destruct r, s, b; (split; [|split]); ring.
    + destruct (String.eqb q "ultra") eqn:Eu.
      * apply String.eqb_eq in Eu. subst q.
        replace (String.eqb "ultra" "standard") with false by reflexivity.
        rewrite M2. destruct r, s, b; (split; [|split]); ring.
      * destruct (String.eqb q "standard"), r, s, b;
          rewrite ?M1; (split; [|split]); ring.
  - apply pricing_engine_total_zero in E. destruct E as (_ & -> & ->).
    unfold Pricing.calculate_project_cost.
    cbn [Pricing.total Pricing.sum_values fold_left
         Pricing.video Pricing.script Pricing.storyboard].
    replace (of_int 0) with 0 by qc_closed. destruct s; ring.
Qed.

(** ** Break-even analysis: [PricingEngine.calculate_break_even] *)

Module BreakEven.


(** The dictionary the method returns. *)
Record t : Type := mk {
  monthly_users : Z;
  monthly_revenue : Qc;
  monthly_costs : Qc;
  monthly_profit : Qc;
  profit_margin_percentage : Qc;
  break_even_users : Z
}.


End BreakEven.



(* ================================================================= *)
(** * Storyboards: [script_generator.py] *)

(** A value held by a dictionary, and a dictionary with string keys.
    [getitem key d] is the subscript [d[key]]; [None] stands for
    [KeyError(key)]. *)
Inductive value : Type :=
| VInt (z : Z)
| VStr (s : string)
| VNone.

Definition Dict : Type := list (string * value).

Definition getitem (key : string) (d : Dict) : option value :=
  option_map snd (find (fun kv => String.eqb (fst kv) key) d).

Module ScriptGenerator.

(** [Scene] *)
Record Scene : Type := mkScene {
  scene_number : Z;
  duration_seconds : Z;
  setting : string;
  description : string;
  dialogue : option string;
  camera_angle : string;
  mood : string;
  lighting : string;
  visual_prompt : string
}.

(** [FilmScript], without the character list. *)
Record FilmScript : Type := mkFilmScript {
  title : string;
  genre : string;
  duration_minutes : Z;
  synopsis : string;
  scenes : list Scene;
  total_scenes : Z;
  time_period : string;
  visual_style : string
}.

(** The dictionary [shot_info]: its keys are fixed, so it is built as
    a record; [items] lists it as the dictionary it is. *)
Record Shot : Type := mkShot {
  s_scene_number : Z;
  s_shot_number : Z;
  s_timestamp_start : Z;
  s_timestamp_end : Z;
  s_duration : Z;
  s_camera_angle : string;
  s_visual_prompt : string;
  s_setting : string;
  s_mood : string;
  s_dialogue : option string;
  s_transition : string
}.

Definition of_option (o : option string) : value :=
  match o with Some s => VStr s | None => VNone end.

Definition items (s : Shot) : Dict :=
  [("scene_number", VInt (s_scene_number s));
   ("shot_number", VInt (s_shot_number s));
   ("timestamp_start", VInt (s_timestamp_start s));
   ("timestamp_end", VInt (s_timestamp_end s));
   ("duration", VInt (s_duration s));
   ("camera_angle", VStr (s_camera_angle s));
   ("visual_prompt", VStr (s_visual_prompt s));
   ("setting", VStr (s_setting s));
   ("mood", VStr (s_mood s));
   ("dialogue", of_option (s_dialogue s));
   ("transition", VStr (s_transition s))].

(** [angle_variations] *)
Definition angle_variations : list (string * list string) :=
  [("wide shot", ["wide shot"; "medium wide shot"; "wide shot"]);
   ("medium shot", ["medium shot"; "close-up"; "over shoulder"]);
   ("close-up", ["close-up"; "extreme close-up"; "medium shot"]);
   ("establishing shot", ["establishing shot"; "wide shot"; "medium shot"])].

(** [variations[shot_number % len(variations)]]; the index is within
    the list, so the default of [nth] is never returned. *)
Definition _vary_camera_angle (base_angle : string) (shot_number : Z) : string :=
  let variations := dict_get angle_variations base_angle [base_angle] in
  nth (Z.to_nat (shot_number mod Z.of_nat (List.length variations))) variations
    base_angle.

(** [range(n)] *)
Definition range (n : Z) : list Z := map Z.of_nat (seq 0 (Z.to_nat n)).

(** [for shot in range(shots_per_scene): ...] *)
Fixpoint shot_loop (scene : Scene) (shot_duration : Z) (shots : list Z)
    (storyboard : list Shot) (current_time : Z) : list Shot * Z :=
  match shots with
  | [] => (storyboard, current_time)
  | shot :: rest =>
      let shot_info :=
        mkShot (scene_number scene) (shot + 1) current_time
          (current_time + shot_duration) shot_duration
          (_vary_camera_angle (camera_angle scene) shot)
          (visual_prompt scene) (setting scene) (mood scene)
          (if (shot =? 0)%Z then dialogue scene else None)
          (if (shot >? 0)%Z then "cut" else "fade in") in
      shot_loop scene shot_duration rest (storyboard ++ [shot_info])
        (current_time + shot_duration)
  end.

(** [for scene in script.scenes: ...] *)
Fixpoint scene_loop (scenes : list Scene) (storyboard : list Shot)
    (current_time : Z) : list Shot :=
  match scenes with
  | [] => storyboard
  | scene :: rest =>
      let shots_per_scene := Z.max 3 (duration_seconds scene / 60) in
      let shot_duration := (duration_seconds scene / shots_per_scene)%Z in
      let (storyboard', current_time') :=
        shot_loop scene shot_duration (range shots_per_scene) storyboard
          current_time in
      scene_loop rest storyboard' current_time'
  end.

(** [StoryboardGenerator.create_storyboard] *)
Definition create_storyboard (script : FilmScript) : list Shot :=
  scene_loop (scenes script) [] 0.

End ScriptGenerator.

(** ** Shots in time *)

(** The shots follow one another without gap or overlap from [t0] to
    [t1], each as long as its [duration] says. *)
Inductive chained : Z -> list ScriptGenerator.Shot -> Z -> Prop :=
| chained_nil (t : Z) : chained t [] t
| chained_cons (t0 t1 : Z) (s : ScriptGenerator.Shot) (rest : list ScriptGenerator.Shot) :
    ScriptGenerator.s_timestamp_start s = t0 ->
    ScriptGenerator.s_timestamp_end s
    = (t0 + ScriptGenerator.s_duration s)%Z ->
    chained (ScriptGenerator.s_timestamp_end s) rest t1 ->
    chained t0 (s :: rest) t1.

Lemma chained_app (t0 t1 t2 : Z) (a b : list ScriptGenerator.Shot) :
  chained t0 a t1 -> chained t1 b t2 -> chained t0 (a ++ b) t2.
Proof.
  induction 1 as [t|t0 t1 s rest Hs He Hc IH]; intro Hb; [exact Hb|].
  simpl. constructor; [exact Hs|exact He|]. now apply IH.
Qed.

(** The shots one scene contributes. *)
Definition shots_per_scene (scene : ScriptGenerator.Scene) : Z :=
  Z.max 3 (ScriptGenerator.duration_seconds scene / 60).

(** The seconds of a scene that its shots cover. *)
Definition covered (scene : ScriptGenerator.Scene) : Z :=
  (ScriptGenerator.duration_seconds scene / shots_per_scene scene
   * shots_per_scene scene)%Z.

Definition sum_Z (l : list Z) : Z := fold_right Z.add 0%Z l.

Lemma shot_loop_spec (scene : ScriptGenerator.Scene) (sd : Z) (shots : list Z)
    (storyboard : list ScriptGenerator.Shot) (t : Z) :
  exists added,
    ScriptGenerator.shot_loop scene sd shots storyboard t
    = ((storyboard ++ added)%list, (t + sd * Z.of_nat (List.length shots))%Z)
    /\ chained t added (t + sd * Z.of_nat (List.length shots))%Z
    /\ List.length added = List.length shots
    /\ map ScriptGenerator.s_shot_number added = map (fun k => (k + 1)%Z) shots
    /\ Forall (fun s =>
                 ScriptGenerator.s_scene_number s = ScriptGenerator.scene_number scene
                 /\ ScriptGenerator.s_duration s = sd
                 /\ ScriptGenerator.s_visual_prompt s
                    = ScriptGenerator.visual_prompt scene) added.
Proof.
  revert storyboard t. induction shots as [|shot rest IH]; intros storyboard t.
  - exists []. cbn [ScriptGenerator.shot_loop List.length map].
    rewrite app_nil_r. replace (t + sd * Z.of_nat 0)%Z with t by lia.
    repeat split; constructor.
  - cbn [ScriptGenerator.shot_loop]. cbv zeta.
    match goal with
    | |- context [ScriptGenerator.shot_loop scene sd rest (storyboard ++ [?s])%list ?t'] =>
        destruct (IH (storyboard ++ [s])%list t')
          as (added & -> & Hc & Hl & Hn & Hf);
        exists (s :: added)
    end.
    rewrite <- app_assoc. cbn [app List.length map].
    replace (t + sd + sd * Z.of_nat (List.length rest))%Z
      with (t + sd * Z.of_nat (S (List.length rest)))%Z in * by lia.
    split; [reflexivity|]. split.
    + constructor; [reflexivity|reflexivity|exact Hc].
    + split; [now rewrite Hl|]. split; [now rewrite Hn|].
      constructor; [now repeat split|exact Hf].
Qed.

Lemma range_length (n : Z) : List.length (ScriptGenerator.range n) = Z.to_nat n.
Proof. unfold ScriptGenerator.range. now rewrite length_map, length_seq. Qed.

Lemma scene_loop_spec (scenes : list ScriptGenerator.Scene)
    (storyboard : list ScriptGenerator.Shot) (t : Z) :
  exists added,
    ScriptGenerator.scene_loop scenes storyboard t = (storyboard ++ added)%list
    /\ chained t added (t + sum_Z (map covered scenes))%Z
    /\ Z.of_nat (List.length added) = sum_Z (map shots_per_scene scenes).
Proof.
  revert storyboard t. induction scenes as [|scene rest IH]; intros storyboard t.
  - exists []. cbn. rewrite app_nil_r. replace (t + 0)%Z with t by lia.
    repeat split. constructor.
  - cbn [ScriptGenerator.scene_loop]. cbv zeta.
    fold (shots_per_scene scene).
    destruct (shot_loop_spec scene
                (ScriptGenerator.duration_seconds scene / shots_per_scene scene)
                (ScriptGenerator.range (shots_per_scene scene)) storyboard t)
      as (a1 & -> & Hc1 & Hl1 & _).
    rewrite range_length in *.
    assert (P : (3 <= shots_per_scene scene)%Z) by (unfold shots_per_scene; lia).
    rewrite Z2Nat.id in * by lia.
    match goal with
    | |- context [ScriptGenerator.scene_loop rest ?sb ?t'] =>
        destruct (IH sb t') as (a2 & -> & Hc2 & Hl2)
    end.
    exists (a1 ++ a2)%list. rewrite <- app_assoc. split; [reflexivity|].
    cbn [map sum_Z fold_right]. fold (sum_Z (map covered rest)).
    fold (sum_Z (map shots_per_scene rest)). split.
    + eapply chained_app; [exact Hc1|].
      rewrite Z.add_assoc.
      exact Hc2.
    + rewrite length_app, Nat2Z.inj_add, Hl2, Hl1. lia.
Qed.

Lemma covered_bounds (scene : ScriptGenerator.Scene) :
  (covered scene <= ScriptGenerator.duration_seconds scene
   < covered scene + shots_per_scene scene)%Z.
Proof.
  unfold covered.
  assert (P : (0 < shots_per_scene scene)%Z) by (unfold shots_per_scene; lia).
  pose proof (Z.div_mod (ScriptGenerator.duration_seconds scene)
                (shots_per_scene scene) ltac:(lia)) as D.
  pose proof (Z.mod_pos_bound (ScriptGenerator.duration_seconds scene)
                (shots_per_scene scene) P) as B.
  lia.
Qed.

Lemma sum_covered_bounds (scenes : list ScriptGenerator.Scene) :
  (sum_Z (map covered scenes)
   <= sum_Z (map ScriptGenerator.duration_seconds scenes)
   <= sum_Z (map covered scenes) + sum_Z (map shots_per_scene scenes)
      - Z.of_nat (List.length scenes))%Z.
Proof.
  induction scenes as [|scene rest IH]; cbn [map sum_Z fold_right List.length];
    [lia|].
  fold (sum_Z (map covered rest)) (sum_Z (map shots_per_scene rest))
       (sum_Z (map ScriptGenerator.duration_seconds rest)) in *.
  pose proof (covered_bounds scene). lia.
Qed.

(** X18.  The storyboard of [create_storyboard] tiles time: its shots
    follow one another from second 0 without gap or overlap, each scene
    contributes [max(3, duration // 60)] shots of equal length, and
    because that length is rounded down the storyboard ends no later
    than the script, short of it by fewer seconds than there are shots
    per scene. *)
Theorem storyboard_tiles_time :
  forall (script : ScriptGenerator.FilmScript),
    let scenes := ScriptGenerator.scenes script in
    let storyboard := ScriptGenerator.create_storyboard script in
    let finish := sum_Z (map covered scenes) in
    chained 0 storyboard finish
    /\ Z.of_nat (List.length storyboard) = sum_Z (map shots_per_scene scenes)
    /\ (finish <= sum_Z (map ScriptGenerator.duration_seconds scenes))%Z
    /\ (sum_Z (map ScriptGenerator.duration_seconds scenes) - finish
        <= sum_Z (map shots_per_scene scenes) - Z.of_nat (List.length scenes))%Z.
Proof.
  intro script. cbv zeta. unfold ScriptGenerator.create_storyboard.
  destruct (scene_loop_spec (ScriptGenerator.scenes script) [] 0)
    as (added & -> & Hc & Hl).
  cbn [app]. pose proof (sum_covered_bounds (ScriptGenerator.scenes script)).
  repeat split; try assumption; lia.
Qed.

Definition one_scene_script : ScriptGenerator.FilmScript :=
  ScriptGenerator.mkFilmScript "T" "drama" 1 "S"
    [ScriptGenerator.mkScene 1 10 "room" "talk" (Some "Hi") "medium shot"
       "neutral" "natural" "vp"] 1 "modern" "cinematic".

(** A scene with the default ten seconds: three shots of three seconds,
    and the last second of the scene is in no shot. *)
Example storyboard_of_ten_seconds :
  map (fun s => (ScriptGenerator.s_shot_number s, ScriptGenerator.s_timestamp_start s,
                 ScriptGenerator.s_timestamp_end s, ScriptGenerator.s_camera_angle s,
                 ScriptGenerator.s_transition s))
    (ScriptGenerator.create_storyboard one_scene_script)
  = [(1, 0, 3, "medium shot", "fade in"); (2, 3, 6, "close-up", "cut");
     (3, 6, 9, "over shoulder", "cut")]%Z.
Proof. reflexivity. Qed.

(** ** What a shot takes from its scene *)

Lemma vary_camera_angle_first (base_angle : string) :
  ScriptGenerator._vary_camera_angle base_angle 0 = base_angle.
Proof.
  unfold ScriptGenerator._vary_camera_angle, ScriptGenerator.angle_variations,
    dict_get.
  cbn [find fst snd].
  destruct (String.eqb_spec "wide shot" base_angle) as [<-|_]; [reflexivity|].
  destruct (String.eqb_spec "medium shot" base_angle) as [<-|_]; [reflexivity|].
  destruct (String.eqb_spec "close-up" base_angle) as [<-|_]; [reflexivity|].
  destruct (String.eqb_spec "establishing shot" base_angle) as [<-|_];
    reflexivity.
Qed.

(** [s] is a shot of [scene]: it copies the scene's number, prompt,
    setting and mood; the first shot keeps the scene's camera angle and
    dialogue and fades in, every later shot is silent and cuts. *)
Definition shot_of (scene : ScriptGenerator.Scene) (s : ScriptGenerator.Shot) : Prop :=
  ScriptGenerator.s_scene_number s = ScriptGenerator.scene_number scene
  /\ ScriptGenerator.s_visual_prompt s = ScriptGenerator.visual_prompt scene
  /\ ScriptGenerator.s_setting s = ScriptGenerator.setting scene
  /\ ScriptGenerator.s_mood s = ScriptGenerator.mood scene
  /\ (1 <= ScriptGenerator.s_shot_number s <= shots_per_scene scene)%Z
  /\ (ScriptGenerator.s_shot_number s = 1%Z ->
      ScriptGenerator.s_camera_angle s = ScriptGenerator.camera_angle scene
      /\ ScriptGenerator.s_dialogue s = ScriptGenerator.dialogue scene
      /\ ScriptGenerator.s_transition s = "fade in")
  /\ (ScriptGenerator.s_shot_number s <> 1%Z ->
      ScriptGenerator.s_dialogue s = None
      /\ ScriptGenerator.s_transition s = "cut").

Lemma shot_loop_shots (scene : ScriptGenerator.Scene) (sd bound : Z) (shots : list Z)
    (storyboard : list ScriptGenerator.Shot) (t : Z) :
  Forall (fun k => (0 <= k < bound)%Z) shots ->
  bound = shots_per_scene scene ->
  exists added,
    fst (ScriptGenerator.shot_loop scene sd shots storyboard t)
    = (storyboard ++ added)%list
    /\ Forall (shot_of scene) added
    /\ map ScriptGenerator.s_shot_number added = map (fun k => (k + 1)%Z) shots.
Proof.
  intros Hb ->. revert storyboard t.
  induction shots as [|shot rest IH]; intros storyboard t.
  - exists []. cbn. rewrite app_nil_r. repeat split. constructor.
  - inversion Hb as [|? ? Hk Hrest]; subst.
    cbn [ScriptGenerator.shot_loop]. cbv zeta.
    match goal with
    | |- context [ScriptGenerator.shot_loop scene sd rest (storyboard ++ [?s])%list ?t'] =>
        destruct (IH Hrest (storyboard ++ [s])%list t') as (added & -> & Hf & Hn);
        exists (s :: added)
    end.
    rewrite <- app_assoc. cbn [app map]. split; [reflexivity|].
    split; [|cbn; now rewrite Hn].
    constructor; [|exact Hf].
    unfold shot_of. cbn.
    do 4 (split; [reflexivity|]). split; [lia|]. split.
    + intro E. assert (shot = 0%Z) as -> by lia.
      split; [apply vary_camera_angle_first|]. split; reflexivity.
    + intro E. split.
      * destruct (Z.eqb_spec shot 0); [lia|reflexivity].
      * destruct (Z.gtb_spec shot 0); [reflexivity|lia].
Qed.

Lemma range_bounds (n : Z) :
  Forall (fun k => (0 <= k < n)%Z) (ScriptGenerator.range n).
Proof.
  unfold ScriptGenerator.range. apply Forall_forall. intros k Hk.
  apply in_map_iff in Hk. destruct Hk as (i & <- & Hi).
  apply in_seq in Hi. lia.
Qed.

Lemma range_first (n : Z) :
  (0 < n)%Z -> exists rest, ScriptGenerator.range n = 0%Z :: rest.
Proof.
  intro H. unfold ScriptGenerator.range.
  destruct (Z.to_nat n) as [|k] eqn:E; [lia|].
  cbn [seq map]. eexists. reflexivity.
Qed.

Lemma scene_loop_shots (scenes : list ScriptGenerator.Scene)
    (storyboard : list ScriptGenerator.Shot) (t : Z) :
  exists added,
    ScriptGenerator.scene_loop scenes storyboard t = (storyboard ++ added)%list
    /\ Forall (fun s => exists scene, In scene scenes /\ shot_of scene s) added
    /\ Forall (fun scene =>
                 exists s, In s added /\ shot_of scene s
                           /\ ScriptGenerator.s_shot_number s = 1%Z) scenes.
Proof.
  revert storyboard t. induction scenes as [|scene rest IH]; intros storyboard t.
  - exists []. cbn. rewrite app_nil_r. repeat split; constructor.
  - cbn [ScriptGenerator.scene_loop]. cbv zeta. fold (shots_per_scene scene).
    assert (P : (0 < shots_per_scene scene)%Z) by (unfold shots_per_scene; lia).
    destruct (shot_loop_shots scene
                (ScriptGenerator.duration_seconds scene / shots_per_scene scene)
                (shots_per_scene scene)
                (ScriptGenerator.range (shots_per_scene scene)) storyboard t
                (range_bounds _) eq_refl) as (a1 & E1 & Hf1 & Hn1).
    destruct (ScriptGenerator.shot_loop scene _ _ storyboard t) as (sb', t').
    cbn [fst] in E1. subst sb'.
    destruct (IH (storyboard ++ a1)%list t') as (a2 & -> & Hf2 & Hs2).
    exists (a1 ++ a2)%list. rewrite <- app_assoc. split; [reflexivity|]. split.
    + apply Forall_app. split.
      * eapply Forall_impl; [|exact Hf1]. intros s Hs. exists scene.
        split; [now left|exact Hs].
      * eapply Forall_impl; [|exact Hf2]. intros s (sc & Hin & Hs). exists sc.
        split; [now right|exact Hs].
    + constructor.
      * destruct (range_first _ P) as (more & R). rewrite R in Hn1.
        destruct a1 as [|s a1]; [discriminate|]. cbn [map] in Hn1.
        injection Hn1 as Hs1 _. inversion Hf1 as [|? ? Hs _]; subst.
        exists s. split; [now left|]. split; [exact Hs|exact Hs1].
      * eapply Forall_impl; [|exact Hs2]. intros sc (s & Hin & Hs). exists s.
        split; [|exact Hs]. apply in_or_app. now right.
Qed.

(** X19.  Every shot of the storyboard is a shot of one of the scenes
    of the script, and every scene has its first shot in it: that shot
    keeps the camera angle the scene asks for and carries the scene's
    dialogue, while the later shots of a scene carry none; so no line
    of dialogue of the script is lost and none is repeated within its
    scene. *)
Theorem storyboard_shots_of_scenes :
  forall (script : ScriptGenerator.FilmScript),
    let storyboard := ScriptGenerator.create_storyboard script in
    Forall (fun s => exists scene,
                       In scene (ScriptGenerator.scenes script) /\ shot_of scene s)
      storyboard
    /\ Forall (fun scene =>
                 exists s, In s storyboard /\ shot_of scene s
                           /\ ScriptGenerator.s_shot_number s = 1%Z
                           /\ ScriptGenerator.s_dialogue s
                              = ScriptGenerator.dialogue scene
                           /\ ScriptGenerator.s_camera_angle s
                              = ScriptGenerator.camera_angle scene)
         (ScriptGenerator.scenes script).
Proof.
  intro script. cbv zeta. unfold ScriptGenerator.create_storyboard.
  destruct (scene_loop_shots (ScriptGenerator.scenes script) [] 0)
    as (added & -> & Hf & Hs).
  cbn [app]. split; [exact Hf|].
  eapply Forall_impl; [|exact Hs].
  intros scene (s & Hin & Hshot & H1). exists s.
  destruct Hshot as (A & B & C & D & E & F & G).
  destruct (F H1) as (F1 & F2 & _).
  repeat split; try assumption; tauto.
Qed.

(* ================================================================= *)
(** * The RunPod client: [runpod_api.py] *)

Module RunPod.

(** What a coroutine of the client comes to: a value, a [KeyError] of a
    subscript, or an exception of a collaborator. *)
Inductive outcome (A : Type) : Type :=
| Returned (a : A)
| KeyError (key : string)
| Raised (e : exn).
Arguments Returned {A} a.
Arguments KeyError {A} key.
Arguments Raised {A} e.

Definition and_then {A B : Type} (m : outcome A) (k : A -> outcome B) : outcome B :=
  match m with
  | Returned a => k a
  | KeyError key => KeyError key
  | Raised e => Raised e
  end.

Definition subscript (key : string) (d : Dict) : outcome value :=
  match getitem key d with
  | Some v => Returned v
  | None => KeyError key
  end.

Definition await {A : Type} (r : result A) : outcome A :=
  match r with
  | Ok a => Returned a
  | Raise e => Raised e
  end.

(** The dictionary [generate_video] returns: [{"success": True,
    "video_url": ...}] or [{"success": False, "error": ...}]. *)
Inductive Video : Type :=
| VideoOk (video_url : string)
| VideoFailed (error : string).

(** The pod and the SkyReels endpoint behind the client. *)
Record Pod : Type := mkPod {
  start_pod : result unit;
  generate_video : value -> value -> value -> result Video;
  post_assemble : list string -> string -> result Main.FilmResult;
  stop_pod : result unit
}.

Section Client.
Variable pod : Pod.

(** The list comprehension that builds [tasks]: the arguments of each
    call are evaluated scene by scene, before any call runs. *)
Fixpoint tasks_of (batch : list Dict) : outcome (list (value * value * value)) :=
  match batch with
  | [] => Returned []
  | scene :: rest =>
      and_then (subscript "prompt" scene) (fun prompt =>
      and_then (subscript "duration" scene) (fun duration =>
      let resolution :=
        match getitem "resolution" scene with
        | Some r => r
        | None => VStr "720p"
        end in
      and_then (tasks_of rest) (fun tasks =>
      Returned ((prompt, duration, resolution) :: tasks))))
  end.

(** [asyncio.gather] on the tasks: the results in the order of the tasks.
    The calls are run one after the other here. *)
Fixpoint gather (tasks : list (value * value * value)) : outcome (list Video) :=
  match tasks with
  | [] => Returned []
  | (prompt, duration, resolution) :: rest =>
      and_then (await (generate_video pod prompt duration resolution)) (fun v =>
      and_then (gather rest) (fun vs => Returned (v :: vs)))
  end.

(** [range(0, n, 3)] *)
Definition range3 (n : nat) : list nat :=
  map (fun k => (3 * k)%nat) (seq 0 ((n + 2) / 3)).

(** [for i in range(0, len(storyboard), 3): ...] *)
Fixpoint batch_loop (storyboard : list Dict) (starts : list nat)
    (scenes : list Video) : outcome (list Video) :=
  match starts with
  | [] => Returned scenes
  | i :: rest =>
      let batch := firstn 3 (skipn i storyboard) in
      and_then (tasks_of batch) (fun tasks =>
      and_then (gather tasks) (fun results =>
      batch_loop storyboard rest (scenes ++ results)%list))
  end.

(** [[s["video_url"] for s in scenes if s["success"]]] *)
Definition video_urls (scenes : list Video) : list string :=
  flat_map (fun s => match s with
                     | VideoOk video_url => [video_url]
                     | VideoFailed _ => []
                     end) scenes.

(** [RunPodClient._assemble_film] *)
Definition _assemble_film (scenes : list Video) (title : string)
  : outcome Main.FilmResult :=
  await (post_assemble pod (video_urls scenes) title).

(** [RunPodClient.generate_film] *)
Definition generate_film (storyboard : list Dict) (title : string)
  : outcome Main.FilmResult :=
  and_then (await (start_pod pod)) (fun _ =>
  and_then (batch_loop storyboard (range3 (List.length storyboard)) []) (fun scenes =>
  and_then (_assemble_film scenes title) (fun assembly_result =>
  and_then (await (stop_pod pod)) (fun _ =>
  Returned assembly_result)))).

End Client.

End RunPod.

(** ** The pipeline of [main.py] with its own collaborators *)

Module MainPipeline.

(** [generate_storyboard] of [main.py]: [create_storyboard] on the
    script it was given. *)
Definition generate_storyboard (script : ScriptGenerator.FilmScript)
  : result (list Dict) :=
  Ok (map ScriptGenerator.items (ScriptGenerator.create_storyboard script)).

(** What [except Exception as e] of the background task sees of an
    outcome: a [KeyError] shows through [str(e)] as its key in quotes. *)
Definition as_result {A : Type} (o : RunPod.outcome A) : result A :=
  match o with
  | RunPod.Returned a => Ok a
  | RunPod.KeyError key => Raise (Exception ("'" ++ key ++ "'"))
  | RunPod.Raised e => Raise e
  end.

(** The collaborators of [generate_film_async] as [main.py] wires them:
    the storyboard generator and the RunPod client of the repository,
    the script service and the object store left open. *)
Definition wired (pod : RunPod.Pod)
    (generate_script : option string -> result ScriptGenerator.FilmScript)
    (upload_to_spaces : string -> result string)
  : Main.External ScriptGenerator.FilmScript (list Dict) :=
  Main.mkExternal ScriptGenerator.FilmScript (list Dict)
    generate_script generate_storyboard
    (fun storyboard title => as_result (RunPod.generate_film pod storyboard title))
    upload_to_spaces.

End MainPipeline.

(** ** Properties of the client *)

Lemma Forall2_firstn {A B : Type} (R : A -> B -> Prop) (n : nat)
    (l : list A) (l' : list B) :
  Forall2 R l l' -> Forall2 R (firstn n l) (firstn n l').
Proof.
  intro H. revert n. induction H as [|x y l l' Hxy H IH]; intro n.
  - rewrite !firstn_nil. constructor.
  - destruct n; simpl; constructor; [exact Hxy|apply IH].
Qed.

Lemma Forall2_skipn {A B : Type} (R : A -> B -> Prop) (n : nat)
    (l : list A) (l' : list B) :
  Forall2 R l l' -> Forall2 R (skipn n l) (skipn n l').
Proof.
  intro H. revert n. induction H as [|x y l l' Hxy H IH]; intro n.
  - rewrite !skipn_nil. constructor.
  - destruct n; simpl; [now constructor|apply IH].
Qed.

(** The scene has what [generate_film] reads of it, and the endpoint
    answers the call for it with [v]. *)
Definition generated (pod : RunPod.Pod) (scene : Dict) (v : RunPod.Video) : Prop :=
  exists prompt duration,
    getitem "prompt" scene = Some prompt
    /\ getitem "duration" scene = Some duration
    /\ RunPod.generate_video pod prompt duration
         (match getitem "resolution" scene with
          | Some r => r
          | None => VStr "720p"
          end) = Ok v.

Lemma batch_generated (pod : RunPod.Pod) (batch : list Dict)
    (videos : list RunPod.Video) :
  Forall2 (generated pod) batch videos ->
  RunPod.and_then (RunPod.tasks_of batch) (RunPod.gather pod)
  = RunPod.Returned videos.
Proof.
  induction 1 as [|scene v batch videos (p & d & Hp & Hd & Hv) H IH];
    [reflexivity|].
  cbn [RunPod.tasks_of]. unfold RunPod.subscript. rewrite Hp, Hd.
  cbn [RunPod.and_then]. cbv zeta.
  destruct (RunPod.tasks_of batch) as [tasks|key|e];
    cbn [RunPod.and_then] in *; try discriminate.
  cbn [RunPod.gather]. rewrite Hv, IH. reflexivity.
Qed.

Lemma batch_loop_generated (pod : RunPod.Pod) (storyboard : list Dict)
    (videos : list RunPod.Video) :
  Forall2 (generated pod) storyboard videos ->
  forall (m j : nat) (scenes : list RunPod.Video),
    RunPod.batch_loop pod storyboard (map (fun k => (3 * k)%nat) (seq j m)) scenes
    = RunPod.Returned
        (scenes ++ firstn (3 * m) (skipn (3 * j) videos))%list.
Proof.
  intros H m. induction m as [|m IH]; intros j scenes.
  - cbn. now rewrite app_nil_r.
  - cbn [seq map RunPod.batch_loop]. cbv zeta.
    pose proof (batch_generated pod _ _
                  (Forall2_firstn _ 3 _ _ (Forall2_skipn _ (3 * j) _ _ H))) as B.
    destruct (RunPod.tasks_of (firstn 3 (skipn (3 * j) storyboard)))
      as [tasks|key|e]; cbn [RunPod.and_then] in *; try discriminate.
    rewrite B. cbn [RunPod.and_then]. rewrite IH, <- app_assoc.
    f_equal. f_equal.
    replace (3 * S m)%nat with (3 + 3 * m)%nat by lia.
    rewrite firstn_add_skipn. f_equal. f_equal.
    replace (3 * S j)%nat with (3 * j + 3)%nat by lia.
    apply skipn_add.
Qed.

Lemma range3_covers (n : nat) : (n <= 3 * ((n + 2) / 3))%nat.
Proof.
  pose proof (Nat.div_mod_eq (n + 2) 3) as D.
  pose proof (Nat.mod_upper_bound (n + 2) 3 ltac:(lia)) as B. lia.
Qed.

(** X20.  When every scene of the storyboard carries a prompt and a
    duration and the pod starts and stops, [generate_film] asks for one
    video per scene, whatever the number of scenes and however the
    batches of three fall, and hands to the assembly the URLs of
    exactly the videos that succeeded, in storyboard order: a failed
    scene is left out of the film without any error. *)
Theorem generate_film_assembles_successes :
  forall (pod : RunPod.Pod) (storyboard : list Dict) (title : string)
         (videos : list RunPod.Video),
    RunPod.start_pod pod = Ok tt ->
    RunPod.stop_pod pod = Ok tt ->
    Forall2 (generated pod) storyboard videos ->
    RunPod.generate_film pod storyboard title
    = RunPod.await (RunPod.post_assemble pod (RunPod.video_urls videos) title).
Proof.
  intros pod storyboard title videos Hstart Hstop H.
  unfold RunPod.generate_film, RunPod.range3, RunPod._assemble_film.
  rewrite Hstart, Hstop. cbn [RunPod.await RunPod.and_then].
  rewrite (batch_loop_generated pod storyboard videos H).
  change (3 * 0)%nat with 0%nat. cbn [app skipn].
  rewrite firstn_all2.
  - cbn [RunPod.and_then].
    now destruct (RunPod.post_assemble pod (RunPod.video_urls videos) title).
  - rewrite <- (Forall2_length H). apply range3_covers.
Qed.

Definition two_scenes : list Dict :=
  [[("prompt", VStr "a street"); ("duration", VInt 5)];
   [("prompt", VStr "a room"); ("duration", VInt 5); ("resolution", VStr "1080p")]].

(** A pod whose endpoint fails every scene asked for in 1080p. *)
Definition picky_pod : RunPod.Pod :=
  RunPod.mkPod (Ok tt)
    (fun prompt _ resolution =>
       match prompt, resolution with
       | VStr p, VStr "720p" => Ok (RunPod.VideoOk ("https://pod/" ++ p))
       | _, _ => Ok (RunPod.VideoFailed "Generation failed")
       end)
    (fun urls _ =>
       match urls with
       | [] => Ok (Main.FilmFailure "Assembly failed")
       | url :: _ => Ok (Main.FilmSuccess url)
       end)
    (Ok tt).

Lemma generate_film_assembles_successes_witness :
  RunPod.generate_film picky_pod two_scenes "T"
  = RunPod.Returned (Main.FilmSuccess "https://pod/a street").
Proof.
  rewrite (generate_film_assembles_successes picky_pod two_scenes "T"
             [RunPod.VideoOk "https://pod/a street";
              RunPod.VideoFailed "Generation failed"]
             eq_refl eq_refl).
  - reflexivity.
  - repeat constructor.
    + exists (VStr "a street"), (VInt 5). repeat split.
    + exists (VStr "a room"), (VInt 5). repeat split.
Defined.

(** ** The storyboard of the repository meets the client of the repository *)

Lemma generate_film_no_prompt (pod : RunPod.Pod) (scene : Dict)
    (rest : list Dict) (title : string) :
  getitem "prompt" scene = None ->
  RunPod.generate_film pod (scene :: rest) title
  = match RunPod.start_pod pod with
    | Ok _ => RunPod.KeyError "prompt"
    | Raise e => RunPod.Raised e
    end.
Proof.
  intro H. unfold RunPod.generate_film, RunPod.range3.
  destruct (RunPod.start_pod pod) as [[]|e]; [|reflexivity].
  cbn [RunPod.await RunPod.and_then].
  destruct ((List.length (scene :: rest) + 2) / 3)%nat as [|k] eqn:E.
  - apply Nat.div_small_iff in E; [|lia]. cbn [List.length] in E. lia.
  - cbn [seq map RunPod.batch_loop]. cbv zeta.
    replace (3 * 0)%nat with 0%nat by reflexivity.
    cbn [skipn firstn RunPod.tasks_of]. unfold RunPod.subscript. rewrite H.
    reflexivity.
Qed.

Lemma shot_has_no_prompt (s : ScriptGenerator.Shot) :
  getitem "prompt" (ScriptGenerator.items s) = None.
Proof. reflexivity. Qed.

Lemma storyboard_not_empty (script : ScriptGenerator.FilmScript) :
  ScriptGenerator.scenes script <> [] ->
  ScriptGenerator.create_storyboard script <> [].
Proof.
  intros Hne Hnil. unfold ScriptGenerator.create_storyboard in Hnil.
  destruct (scene_loop_spec (ScriptGenerator.scenes script) [] 0)
    as (added & E & _ & Hl).
  rewrite E in Hnil. cbn [app] in Hnil. subst added.
  destruct (ScriptGenerator.scenes script) as [|scene rest]; [now apply Hne|].
  cbn [map sum_Z fold_right List.length] in Hl.
  fold (sum_Z (map shots_per_scene rest)) in Hl.
  assert (P : forall l, (0 <= sum_Z (map shots_per_scene l))%Z).
  { induction l as [|x l IH]; cbn; [lia|].
    fold (sum_Z (map shots_per_scene l)). unfold shots_per_scene at 1. lia. }
  specialize (P rest). unfold shots_per_scene at 1 in Hl. lia.
Qed.

(** X21.  The background task of [main.py], run with the storyboard
    generator and the RunPod client of the repository, cannot film a
    script that has a scene: the shots of [create_storyboard] carry a
    ["visual_prompt"] but no ["prompt"], [generate_film] raises
    [KeyError('prompt')] on the first of them before any video is asked
    for, and the project ends ["failed"] at progress 50, with the line
    ['prompt'] as its error once the pod has started. *)
Theorem pipeline_fails_on_any_scene :
  forall (pod : RunPod.Pod)
         (generate_script : option string -> result ScriptGenerator.FilmScript)
         (upload_to_spaces : string -> result string)
         (project_id : string) (project_data : Crud.ProjectCreate) (db : Crud.DB)
         (p : Crud.Project.t) (script : ScriptGenerator.FilmScript),
    Crud.get_project db project_id = Some p ->
    Crud.pc_include_script project_data = true ->
    Crud.pc_include_storyboard project_data = true ->
    generate_script (Crud.pc_source_content project_data) = Ok script ->
    ScriptGenerator.scenes script <> [] ->
    exists p',
      Crud.get_project
        (snd (Main.generate_film_async _ _
                (MainPipeline.wired pod generate_script upload_to_spaces)
                project_id project_data db)) project_id = Some p'
      /\ Crud.Project.status p' = "failed"
      /\ Crud.Project.progress p' = 50%Z
      /\ Crud.Project.film_url p' = Crud.Project.film_url p
      /\ (RunPod.start_pod pod = Ok tt ->
          Crud.Project.metadata p'
          = Crud.ErrorLine (Crud.Project.metadata p) "'prompt'").
Proof.
  intros pod gs up pid data db p script Hp Hs Hb Hgs Hne.
  unfold Main.generate_film_async. rewrite Hs, Hb.
  cbv beta iota zeta delta
      [ret raise read_local bind modify lift try_except MainPipeline.wired
       Main.generate_script Main.generate_storyboard Main.generate_film
       Main.upload_to_spaces MainPipeline.generate_storyboard].
  rewrite Hgs. cbv beta iota.
  pose proof (storyboard_not_empty script Hne) as Hsb.
  destruct (ScriptGenerator.create_storyboard script) as [|shot shots];
    [now contradiction Hsb|].
  cbn [map]. rewrite generate_film_no_prompt by apply shot_has_no_prompt.
  destruct (RunPod.start_pod pod) as [[]|e];
    cbn [MainPipeline.as_result snd fst];
    unfold Crud.fail_project, Crud.update_project_status;
    rewrite ?get_project_written by reflexivity;
    rewrite Hp; cbn [option_map]; eexists; (split; [reflexivity|]); cbn;
    repeat split; intro H; try reflexivity; discriminate H.
Qed.

Lemma pipeline_fails_on_any_scene_witness :
  exists p',
    Crud.get_project
      (snd (Main.generate_film_async _ _
              (MainPipeline.wired picky_pod (fun _ => Ok one_scene_script)
                 (fun url => Ok url))
              "t0" sample_project_data sample_project_db)) "t0" = Some p'
    /\ Crud.Project.status p' = "failed"
    /\ Crud.Project.metadata p'
       = Crud.ErrorLine (Crud.Json script_only) "'prompt'".
Proof.
  destruct (pipeline_fails_on_any_scene picky_pod (fun _ => Ok one_scene_script)
              (fun url => Ok url) "t0" sample_project_data sample_project_db
              _ one_scene_script eq_refl eq_refl eq_refl eq_refl
              ltac:(discriminate))
    as (p' & H & S & _ & _ & M).
  exists p'. split; [exact H|]. split; [exact S|]. exact (M eq_refl).
Defined.

(* ================================================================= *)
(** * Sequences of a full film: [skyreels_film_platform.py] *)

Module FilmPlatform.

(** [CameraAngle] *)
Inductive CameraAngle : Type :=
| WIDE_SHOT | MEDIUM_SHOT | CLOSE_UP | EXTREME_CLOSE_UP | OVER_SHOULDER
| POV | DUTCH_ANGLE | AERIAL | TRACKING | PAN.

(** [StoryboardPanel] *)
Record StoryboardPanel : Type := mkStoryboardPanel {
  panel_id : string;
  scene_number : Z;
  timestamp : Z * Z;
  description : string;
  camera_angle : CameraAngle;
  dialogue : option string;
  sound_effects : list string;
  music_cue : option string;
  visual_prompt : string;
  transition_type : string;
  is_chapter_end : bool;
  is_commercial_break : bool
}.

(** [if current_sequence: sequences.append(current_sequence)] *)
Definition append_if_any (sequences : list (list StoryboardPanel))
    (current_sequence : list StoryboardPanel) : list (list StoryboardPanel) :=
  match current_sequence with
  | [] => sequences
  | _ :: _ => (sequences ++ [current_sequence])%list
  end.

(** [for panel in storyboard: ...] and what follows the loop. *)
Fixpoint group_loop (max_sequence_minutes : Z) (storyboard : list StoryboardPanel)
    (sequences : list (list StoryboardPanel))
    (current_sequence : list StoryboardPanel) (current_duration : Z)
  : list (list StoryboardPanel) :=
  match storyboard with
  | [] => append_if_any sequences current_sequence
  | panel :: rest =>
      let panel_duration := (snd (timestamp panel) - fst (timestamp panel))%Z in
      if (current_duration + panel_duration >? max_sequence_minutes * 60)%Z
         || is_chapter_end panel || is_commercial_break panel
      then
        group_loop max_sequence_minutes rest
          (append_if_any sequences current_sequence) [panel] panel_duration
      else
        group_loop max_sequence_minutes rest sequences
          (current_sequence ++ [panel])%list (current_duration + panel_duration)
  end.

(** [FilmVideoGenerator._group_into_sequences] *)
Definition _group_into_sequences (storyboard : list StoryboardPanel)
    (max_sequence_minutes : Z) : list (list StoryboardPanel) :=
  group_loop max_sequence_minutes storyboard [] [] 0.

(** [sum(p.timestamp[1] - p.timestamp[0] for p in panels)], the duration
    [_generate_sequence] asks the model for. *)
Definition duration (panels : list StoryboardPanel) : Z :=
  fold_right Z.add 0%Z
    (map (fun p => (snd (timestamp p) - fst (timestamp p))%Z) panels).

(** [sequence[-1].is_chapter_end or sequence[-1].is_commercial_break],
    the test of [generate_full_film] for a scene marker. *)
Definition ends_with_marker (sequence : list StoryboardPanel) : bool :=
  match rev sequence with
  | [] => false
  | p :: _ => is_chapter_end p || is_commercial_break p
  end.

End FilmPlatform.

(** ** Properties of the grouping *)

Definition flagged (p : FilmPlatform.StoryboardPanel) : bool :=
  FilmPlatform.is_chapter_end p || FilmPlatform.is_commercial_break p.

(** What every sequence of the grouping is like: it has a panel, only
    its first panel can be flagged, and it is within the limit unless it
    is a single panel. *)
Definition well_grouped (limit : Z) (s : list FilmPlatform.StoryboardPanel) : Prop :=
  s <> []
  /\ Forall (fun p => flagged p = false) (tl s)
  /\ (tl s = [] \/ (FilmPlatform.duration s <= limit * 60)%Z).

Lemma duration_app (a b : list FilmPlatform.StoryboardPanel) :
  FilmPlatform.duration (a ++ b) = (FilmPlatform.duration a + FilmPlatform.duration b)%Z.
Proof.
  unfold FilmPlatform.duration. induction a as [|x a IH]; cbn [app map fold_right];
    [reflexivity|]. rewrite IH. lia.
Qed.

Lemma append_if_any_spec (limit : Z)
    (sequences : list (list FilmPlatform.StoryboardPanel))
    (current : list FilmPlatform.StoryboardPanel) :
  Forall (well_grouped limit) sequences ->
  current = [] \/ well_grouped limit current ->
  List.concat (FilmPlatform.append_if_any sequences current)
  = (List.concat sequences ++ current)%list
  /\ Forall (well_grouped limit) (FilmPlatform.append_if_any sequences current).
Proof.
  intros Hs [->|Hc].
  - cbn. now rewrite app_nil_r.
  - destruct current as [|p rest]; [now destruct Hc|].
    cbn [FilmPlatform.append_if_any]. rewrite concat_app. cbn [List.concat].
    rewrite app_nil_r. split; [reflexivity|].
    apply Forall_app. split; [exact Hs|now constructor].
Qed.

Lemma group_loop_spec (limit : Z) (storyboard : list FilmPlatform.StoryboardPanel) :
  forall (sequences : list (list FilmPlatform.StoryboardPanel))
         (current : list FilmPlatform.StoryboardPanel),
    Forall (well_grouped limit) sequences ->
    current = [] \/ well_grouped limit current ->
    List.concat (FilmPlatform.group_loop limit storyboard sequences current
              (FilmPlatform.duration current))
    = (List.concat sequences ++ current ++ storyboard)%list
    /\ Forall (well_grouped limit)
         (FilmPlatform.group_loop limit storyboard sequences current
            (FilmPlatform.duration current)).
Proof.
  induction storyboard as [|panel rest IH]; intros sequences current Hs Hc.
  - cbn [FilmPlatform.group_loop]. rewrite app_nil_r.
    now apply append_if_any_spec.
  - cbn [FilmPlatform.group_loop]. cbv zeta.
    set (pd := (snd (FilmPlatform.timestamp panel)
                - fst (FilmPlatform.timestamp panel))%Z).
    assert (Dp : FilmPlatform.duration [panel] = pd)
      by (unfold FilmPlatform.duration; cbn; fold pd; lia).
    rewrite <- orb_assoc. fold (flagged panel).
    destruct ((FilmPlatform.duration current + pd >? limit * 60)%Z
              || flagged panel) eqn:T.
    + destruct (append_if_any_spec limit sequences current Hs Hc) as (E & F).
      rewrite <- Dp.
      destruct (IH (FilmPlatform.append_if_any sequences current) [panel] F)
        as (E' & F').
      * right. repeat split; [discriminate|constructor|now left].
      * split; [|exact F']. rewrite E', E, <- app_assoc. reflexivity.
    + apply orb_false_iff in T. destruct T as (Tl & Tf).
      rewrite Z.gtb_ltb in Tl. apply Z.ltb_ge in Tl.
      replace (FilmPlatform.duration current + pd)%Z
        with (FilmPlatform.duration (current ++ [panel]))
        by (rewrite duration_app, Dp; reflexivity).
      destruct (IH sequences (current ++ [panel])%list Hs) as (E' & F').
      * right. destruct Hc as [->|(Hne & Hf & Hl)].
        -- repeat split; [discriminate|constructor|now left].
        -- destruct current as [|p0 more]; [now contradiction Hne|].
           repeat split; [discriminate| |].
           ++ cbn [app tl] in *. apply Forall_app. split; [exact Hf|].
              now repeat constructor.
           ++ right. rewrite duration_app, Dp. exact Tl.
      * split; [|exact F']. rewrite E', <- !app_assoc. reflexivity.
Qed.

Lemma ends_with_marker_single (limit : Z) (s : list FilmPlatform.StoryboardPanel) :
  well_grouped limit s ->
  FilmPlatform.ends_with_marker s = true ->
  exists p, s = [p] /\ flagged p = true.
Proof.
  intros (Hne & Hf & _) H. unfold FilmPlatform.ends_with_marker in H.
  destruct s as [|p rest]; [now contradiction Hne|].
  destruct rest as [|q rest' _] using rev_ind.
  - exists p. split; [reflexivity|exact H].
  - exfalso. cbn [tl] in Hf. apply Forall_app in Hf. destruct Hf as (_ & Hq).
    inversion Hq as [|? ? Hq' _]; subst.
    change (p :: rest' ++ [q])%list with ((p :: rest') ++ [q])%list in H.
    rewrite rev_app_distr in H. cbn [rev app] in H.
    fold (flagged q) in H. congruence.
Qed.

(** X22.  [_group_into_sequences] cuts the storyboard without losing,
    repeating or reordering a panel, and never makes an empty sequence;
    a sequence of more than one panel lasts at most
    [max_sequence_minutes] minutes; and a panel marked as chapter end
    or commercial break always opens a sequence, so the sequence ends
    on such a panel, as [generate_full_film] tests before it records a
    scene marker, only if it is that panel alone. *)
Theorem sequences_cut_storyboard :
  forall (storyboard : list FilmPlatform.StoryboardPanel) (max_sequence_minutes : Z),
    let sequences :=
      FilmPlatform._group_into_sequences storyboard max_sequence_minutes in
    List.concat sequences = storyboard
    /\ Forall (fun s =>
                 s <> []
                 /\ (1 < List.length s ->
                     (FilmPlatform.duration s <= max_sequence_minutes * 60)%Z)%nat
                 /\ Forall (fun p => flagged p = false) (tl s)
                 /\ (FilmPlatform.ends_with_marker s = true ->
                     exists p, s = [p] /\ flagged p = true)) sequences.
Proof.
  intros storyboard limit. cbv zeta. unfold FilmPlatform._group_into_sequences.
  destruct (group_loop_spec limit storyboard [] [] (Forall_nil _) (or_introl eq_refl))
    as (E & F).
  change (FilmPlatform.duration []) with 0%Z in *.
  split; [exact E|].
  eapply Forall_impl; [|exact F].
  intros s Hs. pose proof (ends_with_marker_single limit s Hs) as M.
  destruct Hs as (Hne & Hf & Hl).
  repeat split; try assumption.
  intro L. destruct Hl as [Hl|Hl]; [|exact Hl].
  destruct s as [|p [|q r]]; cbn in *; try lia; discriminate.
Qed.

Definition panel (id : string) (start finish : Z) (chapter_end : bool)
  : FilmPlatform.StoryboardPanel :=
  FilmPlatform.mkStoryboardPanel id 1 (start, finish) "scene"
    FilmPlatform.MEDIUM_SHOT None [] None "prompt" "cut" chapter_end false.

(** A chapter end held by two panels, as [generate_storyboard] marks
    every panel of such a scene: the first of them is a sequence of its
    own, the second opens the next sequence. *)
Example sequences_of_chapter_end :
  map (map FilmPlatform.panel_id)
    (FilmPlatform._group_into_sequences
       [panel "a" 0 300 false; panel "b" 300 500 false; panel "c" 500 700 false;
        panel "d" 700 800 true; panel "e" 800 900 true; panel "f" 900 950 false] 10)
  = [["a"; "b"]; ["c"]; ["d"]; ["e"; "f"]].
Proof. reflexivity. Qed.
